(** * Dyor AI backend: the task router and the connection hub

    A shallow embedding of [agent_selector.py] (the confidence-scored task
    router) and of the connection-hub code of [real_backend_fixed.py],
    [main.py], [simple_backend.py] and [real_backend_v2.py], with the
    properties of the specification proved or refuted against it, and
    further properties of the code ([RouterExtra], [HubExtra]).

    Conventions of the embedding.
    - Python [float] values are exact rationals ([Q], compared with [==]):
      the router only adds 1.0 and 2.0, multiplies by the weight and by
      [1 + (k - 1) * 0.2], and divides by the maximum.  Rationals have no
      rounding, no overflow, no [inf] and no [nan]: the model follows the
      code on the program's catalog, whose weights are 1 and 3, and not on
      a catalog whose weights are so large, or whose scores are so close,
      that floats behave otherwise.  Properties that depend on the values
      or on the order of the scores are therefore stated on the program's
      catalog.  The one arithmetic exception, [ZeroDivisionError], is
      modelled ([truediv]).
    - Python [str] is [string]; a character is a code point below 256.
    - A Python [dict] is an insertion-ordered association list with unique
      keys ([dict_set] keeps the position of a key that is already there).
    - A raised exception is the [Raise] constructor of [res]; in a
      coroutine, the [Throw] outcome.
    - A coroutine is a function of the shared state that also returns the
      effects it had, in order.  One coroutine runs at a time: what other
      coroutines do while this one is suspended in an [await] is not part
      of its run.  Sends go through a [transport] that says, for each
      session and event, whether the send returns or raises; a coroutine
      that sleeps between its sends is given a [timeline], one transport
      per send. *)

From Stdlib Require Import String Ascii List ZArith QArith Lia Bool.
From Stdlib Require Import Permutation Sorted.
Import ListNotations.

Set Implicit Arguments.

(* ================================================================== *)
(** * Python runtime pieces used by the code *)
(* ================================================================== *)

(** Exceptions the modelled code raises or catches.  All of them are
    subclasses of Python's [Exception]. *)
Inductive exn : Type :=
| ValueError
| KeyError (key : string)
| AttributeError
| JSONDecodeError
| TypeError
| RuntimeError (msg : string)
| WebSocketDisconnect
| TimeoutError
| APIError (msg : string)
| HTTPException (status_code : Z) (detail : string)
| ZeroDivisionError.

(** The result of running fallible code. *)
Inductive res (A : Type) : Type :=
| Ok (a : A)
| Raise (e : exn).
Arguments Ok {A} a.
Arguments Raise {A} e.

Module Py.

Open Scope string_scope.
Open Scope N_scope.

(** [str.lower] on one code point below 256: A-Z and the Latin-1 capitals
    (U+00C0 to U+00DE, except the multiplication sign U+00D7) move up by
    32; everything else is unchanged. *)
Definition lower_char (c : ascii) : ascii :=
  let n := N_of_ascii c in
  if ((65 <=? n) && (n <=? 90)) || ((192 <=? n) && (n <=? 222) && negb (n =? 215))
  then ascii_of_N (n + 32)
  else c.

(** [s.lower()] *)
Fixpoint lower (s : string) : string :=
  match s with
  | EmptyString => EmptyString
  | String c s' => String (lower_char c) (lower s')
  end.

(** [c.isspace()] for a code point below 256: TAB, LF, VT, FF, CR, the
    separators U+001C to U+001F, SPACE, NEL (U+0085) and NBSP (U+00A0). *)
Definition isspace (c : ascii) : bool :=
  let n := N_of_ascii c in
  ((9 <=? n) && (n <=? 13)) || ((28 <=? n) && (n <=? 32)) || (n =? 133) || (n =? 160).

Fixpoint lstrip (s : string) : string :=
  match s with
  | EmptyString => EmptyString
  | String c s' => if isspace c then lstrip s' else s
  end.

Fixpoint rstrip (s : string) : string :=
  match s with
  | EmptyString => EmptyString
  | String c s' =>
      match rstrip s' with
      | EmptyString => if isspace c then EmptyString else String c EmptyString
      | r => String c r
      end
  end.

(** [s.strip()] *)
Definition strip (s : string) : string := rstrip (lstrip s).

(** [sub in s] for strings: [sub] occurs in [s] as a contiguous run. *)
Fixpoint contains (sub s : string) : bool :=
  prefix sub s ||
  match s with
  | EmptyString => false
  | String _ s' => contains sub s'
  end.

Close Scope N_scope.

(** ** Insertion-ordered dictionaries *)

Definition dict (V : Type) : Type := list (string * V).

Definition keys {V} (d : dict V) : list string := map fst d.
Definition values {V} (d : dict V) : list V := map snd d.
Definition items {V} (d : dict V) : list (string * V) := d.

(** [d[k]], raising [KeyError] when [k] is not a key. *)
Fixpoint getitem {V} (d : dict V) (k : string) : res V :=
  match d with
  | [] => Raise (KeyError k)
  | (k', v) :: d' => if String.eqb k k' then Ok v else getitem d' k
  end.

(** [d[k] = v]: replaces the value in place, or appends a new entry. *)
Fixpoint dict_set {V} (k : string) (v : V) (d : dict V) : dict V :=
  match d with
  | [] => [(k, v)]
  | (k', v') :: d' =>
      if String.eqb k k' then (k, v) :: d' else (k', v') :: dict_set k v d'
  end.

Open Scope Q_scope.

(** [x < y] on floats. *)
Definition Qltb (x y : Q) : bool := negb (Qle_bool y x).

(** [x / y] on floats: Python raises [ZeroDivisionError] when [y] is
    zero.  (The operator [/] of [Q] is total: it gives 0 there.) *)
Definition truediv (x y : Q) : res Q :=
  if Qeq_bool y 0 then Raise ZeroDivisionError else Ok (x / y).

(** The loop of the builtin [max]: the running maximum is replaced only
    by a strictly greater item, so the first maximal item wins. *)
Fixpoint max_loop {A} (key : A -> Q) (best : A) (l : list A) : A :=
  match l with
  | [] => best
  | x :: l' => max_loop key (if Qltb (key best) (key x) then x else best) l'
  end.

(** The loop of [max(l, key=key)]: the key function is called once on
    every item and may raise; [best_key] is the key of the running
    maximum. *)
Fixpoint max_key_loop {A} (key : A -> res Q) (best : A) (best_key : Q)
         (l : list A) : res A :=
  match l with
  | [] => Ok best
  | x :: l' =>
      match key x with
      | Raise e => Raise e
      | Ok kx =>
          if Qltb best_key kx then max_key_loop key x kx l'
          else max_key_loop key best best_key l'
      end
  end.

(** [max(l, key=key)]; [ValueError] on an empty sequence. *)
Definition max_key {A} (key : A -> res Q) (l : list A) : res A :=
  match l with
  | [] => Raise ValueError
  | x :: l' =>
      match key x with
      | Raise e => Raise e
      | Ok kx => max_key_loop key x kx l'
      end
  end.

(** A stable ascending insertion sort: [x], which comes before the items
    of [l] in the input, goes in front of the first item whose key is not
    less than its own. *)
Fixpoint insert_asc {A} (key : A -> Q) (x : A) (l : list A) : list A :=
  match l with
  | [] => [x]
  | y :: l' => if Qltb (key y) (key x) then y :: insert_asc key x l' else x :: l
  end.

Fixpoint sort_asc {A} (key : A -> Q) (l : list A) : list A :=
  match l with
  | [] => []
  | x :: l' => insert_asc key x (sort_asc key l')
  end.

(** [sorted(l, key=key, reverse=True)].  As in CPython's [list.sort], the
    list is reversed, sorted by a stable ascending sort and reversed
    again, which keeps items of equal key in their original order. *)
Definition sorted_reverse {A} (key : A -> Q) (l : list A) : list A :=
  rev (sort_asc key (rev l)).

(** Orders on the items of a list by their keys, and the items whose key
    is [c]. *)
Definition asc {A} (key : A -> Q) (a b : A) : Prop := key a <= key b.
Definition desc {A} (key : A -> Q) (a b : A) : Prop := key b <= key a.
Definition same_key {A} (key : A -> Q) (c : Q) (a : A) : bool :=
  Qeq_bool (key a) c.

(** [l[:n]] for a Python integer [n]: a negative [n] counts from the
    end. *)
Definition slice_to {A} (l : list A) (n : Z) : list A :=
  if (n <? 0)%Z then firstn (Z.to_nat (Z.of_nat (length l) + n)) l
  else firstn (Z.to_nat n) l.

Close Scope Q_scope.

End Py.

(* ================================================================== *)
(** * agent_selector.py *)
(* ================================================================== *)

Module AgentSelector.

Import Py.
Open Scope string_scope.
Open Scope Q_scope.

(** [@dataclass class AgentCapability] *)
Record AgentCapability : Type := {
  name : string;
  keywords : list string;
  description : string;
  priority_score : Z
}.

(** [class AgentSelector]: its only attribute is the dictionary
    [self.agents]. *)
Record t : Type := { agents : dict AgentCapability }.

(** [AgentSelector.__init__] *)
Definition init : t := {|
  agents := [
    ("manus", {|
       name := "manus";
       keywords := [
         "general"; "help"; "assist"; "explain"; "overview"; "summary";
         "guide"; "tutorial"; "basic"; "simple"; "question"; "what";
         "how"; "why"; "tell me"; "describe"; "general purpose" ];
       description := "General-purpose AI agent for basic tasks and explanations";
       priority_score := 1 |});
    ("browser", {|
       name := "browser";
       keywords := [
         "website"; "web"; "scrape"; "scraping"; "crawl"; "extract";
         "browser"; "navigate"; "click"; "form"; "automation";
         "selenium"; "url"; "link"; "page"; "html"; "css"; "xpath";
         "download"; "upload"; "login"; "submit"; "search online";
         "visit"; "open"; "browse"; "internet"; "online" ];
       description := "Web automation and scraping specialist";
       priority_score := 3 |});
    ("data", {|
       name := "data";
       keywords := [
         "data"; "analyze"; "analysis"; "statistics"; "chart"; "graph";
         "visualization"; "plot"; "pandas"; "numpy"; "csv"; "excel";
         "database"; "sql"; "query"; "report"; "insights"; "trends";
         "correlation"; "regression"; "machine learning"; "ml";
         "dataset"; "dataframe"; "pivot"; "aggregate"; "clean";
         "process"; "transform"; "filter"; "sort"; "group" ];
       description := "Data analysis and visualization expert";
       priority_score := 3 |});
    ("swe", {|
       name := "swe";
       keywords := [
         "code"; "programming"; "script"; "function"; "class"; "module";
         "python"; "javascript"; "java"; "c++"; "development"; "build";
         "create"; "implement"; "algorithm"; "software"; "application";
         "api"; "framework"; "library"; "package"; "install"; "setup";
         "debug"; "fix"; "error"; "bug"; "test"; "unit test";
         "refactor"; "optimize"; "performance"; "architecture";
         "design pattern"; "oop"; "functional"; "git"; "version control" ];
       description := "Software engineering and development agent";
       priority_score := 3 |})
  ] |}.

(** ** analyze_task *)

(** One turn of the inner loop [for keyword in agent.keywords], on the
    pair of accumulators [(score, keyword_matches)]. *)
Definition keyword_step (task_lower : string) (acc : Q * Z) (keyword : string)
  : Q * Z :=
  let '(score, keyword_matches) := acc in
  if contains keyword task_lower then
    let keyword_matches := (keyword_matches + 1)%Z in
    if String.eqb keyword (strip task_lower)
    then (score + 2.0, keyword_matches)
    else (score + 1.0, keyword_matches)
  else (score, keyword_matches).

(** The body of the outer loop for one agent: the value stored in
    [scores[agent_name]]. *)
Definition agent_score (task_lower : string) (agent : AgentCapability) : Q :=
  let '(score, keyword_matches) :=
    fold_left (keyword_step task_lower) (keywords agent) (0.0, 0%Z) in
  let score := score * inject_Z (priority_score agent) in
  if (keyword_matches >? 1)%Z
  then score * (1 + inject_Z (keyword_matches - 1) * 0.2)
  else score.

(** The dictionary [scores] when the outer loop is over (lines 85-109). *)
Definition raw_scores (self : t) (task : string) : dict Q :=
  let task_lower := lower task in
  fold_left
    (fun scores '(agent_name, agent) =>
       dict_set agent_name (agent_score task_lower agent) scores)
    (items (agents self)) [].

(** [max(scores.values()) if scores.values() else 1] (line 112).  [max]
    cannot raise here: it is only called on a non-empty sequence. *)
Definition max_score (scores : dict Q) : Q :=
  match values scores with
  | [] => 1
  | v :: vs => max_loop (fun x => x) v vs
  end.

(** The dictionary comprehension of line 114: it ends with
    [ZeroDivisionError] at the first entry whose division raises it. *)
Fixpoint divide_scores (max_score : Q) (l : list (string * Q)) : res (dict Q) :=
  match l with
  | [] => Ok []
  | (k, v) :: l' =>
      match truediv v max_score with
      | Raise e => Raise e
      | Ok q =>
          match divide_scores max_score l' with
          | Raise e => Raise e
          | Ok scores => Ok ((k, q) :: scores)
          end
      end
  end.

(** The normalization step (lines 111-116). *)
Definition normalize_checked (scores : dict Q) : res (dict Q) :=
  let max_score := max_score scores in
  if Qltb 0 max_score
  then divide_scores max_score (items scores)
  else Ok scores.

(** [analyze_task] (lines 75-116): the only exception its body could
    raise is the one of the division. *)
Definition analyze_task_checked (self : t) (task : string) : res (dict Q) :=
  normalize_checked (raw_scores self task).

(** The dictionary that the normalization step, and [analyze_task],
    return.  They always return ([normalize_checked_returns] and
    [analyze_task_checked_returns] below: the division of line 114 is
    guarded by line 113), so the second branch is never taken. *)
Definition normalize (scores : dict Q) : dict Q :=
  match normalize_checked scores with
  | Ok normalized => normalized
  | Raise _ => []
  end.

Definition analyze_task (self : t) (task : string) : dict Q :=
  normalize (raw_scores self task).

(** ** select_best_agent *)

Definition select_best_agent (self : t) (task : string) (threshold : Q)
  : res (string * Q * dict Q) :=
  match analyze_task_checked self task with
  | Raise e => Raise e
  | Ok scores =>
      match max_key (fun k => getitem scores k) (keys scores) with
      | Raise e => Raise e
      | Ok best_agent =>
          match getitem scores best_agent with
          | Raise e => Raise e
          | Ok best_score =>
              if Qltb best_score threshold
              then Ok ("manus", best_score, scores)
              else Ok (best_agent, best_score, scores)
          end
      end
  end.

(** The default value of the [threshold] parameter. *)
Definition default_threshold : Q := 0.3.

(** ** get_agent_suggestions *)

(** The loop that builds [suggestions]; [self.agents[agent_name]] raises
    [KeyError] for a name that is not in the catalog. *)
Fixpoint build_suggestions (self : t) (l : list (string * Q))
  : res (list (string * Q * string)) :=
  match l with
  | [] => Ok []
  | (agent_name, confidence) :: l' =>
      match getitem (agents self) agent_name with
      | Raise e => Raise e
      | Ok agent =>
          match build_suggestions self l' with
          | Raise e => Raise e
          | Ok suggestions => Ok ((agent_name, confidence, description agent) :: suggestions)
          end
      end
  end.

Definition get_agent_suggestions (self : t) (task : string) (top_n : Z)
  : res (list (string * Q * string)) :=
  match analyze_task_checked self task with
  | Raise e => Raise e
  | Ok scores =>
      let sorted_agents := sorted_reverse snd (items scores) in
      build_suggestions self (slice_to sorted_agents top_n)
  end.

Definition default_top_n : Z := 3.

End AgentSelector.

(* ================================================================== *)
(** * The router as the specification words it *)
(* ================================================================== *)

Module RouterSpec.

Import Py AgentSelector.
Open Scope string_scope.
Open Scope Q_scope.

(** The keywords of a profile that occur in the lower-cased input. *)
Definition matched_keywords (task : string) (agent : AgentCapability) : list string :=
  filter (fun keyword => contains keyword (lower task)) (keywords agent).

(** +2.0 for the keyword that is the whole trimmed input, +1.0 otherwise. *)
Definition keyword_points (task : string) (keyword : string) : Q :=
  if String.eqb keyword (strip (lower task)) then 2 else 1.

Fixpoint Qsum (l : list Q) : Q :=
  match l with
  | [] => 0
  | x :: l' => x + Qsum l'
  end.

(** Steps 2 to 4 of the algorithm of section 4.1. *)
Definition spec_raw_score (task : string) (agent : AgentCapability) : Q :=
  let matched := matched_keywords task agent in
  let matchCount := length matched in
  let weighted := Qsum (map (keyword_points task) matched) * inject_Z (priority_score agent) in
  if (1 <? matchCount)%nat
  then weighted * (1 + 0.2 * (inject_Z (Z.of_nat matchCount) - 1))
  else weighted.

(** Some keyword of some profile occurs in the lower-cased input. *)
Definition any_keyword_matched (self : AgentSelector.t) (task : string) : bool :=
  existsb (fun '(_, agent) =>
             existsb (fun keyword => contains keyword (lower task)) (keywords agent))
          (items (agents self)).

(** [c] is the maximum of the confidences of [d]: one of them, and no
    other is greater. *)
Definition is_max_confidence (d : dict Q) (c : Q) : Prop :=
  In c (values d) /\ Forall (fun v => v <= c) (values d).

(** A catalog is a dictionary (unique keys) of profiles with positive
    weights. *)
Definition wf_catalog (self : AgentSelector.t) : Prop :=
  NoDup (keys (agents self)) /\
  Forall (fun agent => (0 < priority_score agent)%Z) (values (agents self)).

(** Items of equal confidence, in the order in which [l] has them. *)
Definition with_confidence (c : Q) (l : list (string * Q)) : list (string * Q) :=
  filter (fun kv => Qeq_bool (snd kv) c) l.

(** [l] lists the items of [d] by non-increasing confidence, items of
    equal confidence in the order of [d]. *)
Definition stable_descending (d l : list (string * Q)) : Prop :=
  Permutation l d /\
  StronglySorted (fun x y => snd y <= snd x) l /\
  forall c, with_confidence c l = with_confidence c d.

End RouterSpec.

(* ================================================================== *)
(** * The runtime of the servers: sessions, effects and coroutines *)
(* ================================================================== *)

Module Hub.

Open Scope string_scope.

(** A connection object, known by its identity. *)
Definition WebSocket : Type := nat.

(** A value returned by [json.loads]; an object is a dictionary. *)
#[warnings="-register-all"] Inductive json : Type :=
| JNull
| JBool (b : bool)
| JNumber (q : Q)
| JString (s : string)
| JArray (l : list json)
| JObject (fields : list (string * json)).

(** [response_data], the dictionary built by [get_llm_response] (the
    keys ["model"] and ["tokens_used"] are absent from the error form). *)
Record response_data : Type := {
  response : string;
  agent : string;
  tools_used : list string;
  auto_selected : bool;
  model : option string;
  tokens_used : option Z;
  error : bool
}.

(** The events sent to clients, by their ["type"].  Timestamps, and the
    texts formatted from numbers, are left out. *)
Inductive event : Type :=
| connection_established
| heartbeat
| system_metrics
| echo (data : string)
| ping
| pong
| agent_selection (selected_agent : string) (confidence : Q)
| agent_status (agent : string) (status : string) (auto_selected : bool)
| agent_response (response : response_data)
| agent_error (agent : string) (error : string)
| agent_suggestions (task : string) (suggestions : list (string * Q * string)).

Inductive log_level : Type := INFO | ERROR.

Inductive task_kind : Type := Heartbeat | Metrics.

(** A background task created by [asyncio.create_task] for a session. *)
Definition task : Type := (task_kind * WebSocket)%type.

Definition task_eqb (t t' : task) : bool :=
  match fst t, fst t' with
  | Heartbeat, Heartbeat | Metrics, Metrics => Nat.eqb (snd t) (snd t')
  | _, _ => false
  end.

(** What the code does to the outside world, in the order it does it. *)
Inductive effect : Type :=
| Accepted (ws : WebSocket)
| Sent (ws : WebSocket) (m : event)
| SendFailed (ws : WebSocket) (m : event) (e : exn)
| Logged (level : log_level) (text : string)
| Appended (ws : WebSocket)
| Removed (ws : WebSocket)
| TaskCreated (t : task)
| TaskCancelled (t : task).

(** The shared state: the list of live sessions ([connected_clients] in
    [real_backend_fixed.py], [manager.active_connections] in [main.py]),
    the background tasks that are not cancelled, and the effects so far,
    oldest first. *)
Record state : Type := {
  connected_clients : list WebSocket;
  tasks : list task;
  trace : list effect
}.

(** The transport at one moment: [None] when
    [websocket.send_text(json.dumps(m))] returns, [Some e] when it raises
    [e].  A function that is given one transport finds the network in the
    same condition at each of its sends; two calls can be given different
    transports. *)
Definition transport : Type := WebSocket -> event -> option exn.

(** The transports at the successive sends of a coroutine that sleeps
    between them: a client that was reachable at one send can be gone at
    the next. *)
Definition timeline : Type := list transport.

(** How a coroutine ends: it returns, it raises, or it is left suspended
    in an [await] that is never resumed. *)
Inductive outcome (A : Type) : Type :=
| Return (a : A)
| Throw (e : exn)
| Suspended.
Arguments Return {A} a.
Arguments Throw {A} e.
Arguments Suspended {A}.

Definition M (A : Type) : Type := state -> outcome A * state.

Definition ret {A} (a : A) : M A := fun s => (Return a, s).

Definition bind {A B} (c : M A) (k : A -> M B) : M B :=
  fun s =>
    match c s with
    | (Return a, s') => k a s'
    | (Throw e, s') => (Throw e, s')
    | (Suspended, s') => (Suspended, s')
    end.

Definition raise {A} (e : exn) : M A := fun s => (Throw e, s).

(** [await] of something that never completes. *)
Definition suspend {A} : M A := fun s => (Suspended, s).

Definition lift {A} (r : res A) : M A :=
  match r with
  | Ok a => ret a
  | Raise e => raise e
  end.

(** [try: c  except Exception as e: handler e] *)
Definition try_except {A} (c : M A) (handler : exn -> M A) : M A :=
  fun s =>
    match c s with
    | (Throw e, s') => handler e s'
    | r => r
    end.

(** [try: c  finally: cleanup]; the cleanup does not run for a coroutine
    that stays suspended inside [c]. *)
Definition try_finally {A} (c : M A) (cleanup : M unit) : M A :=
  fun s =>
    match c s with
    | (Suspended, s') => (Suspended, s')
    | (r, s') =>
        match cleanup s' with
        | (Return _, s'') => (r, s'')
        | (Throw e, s'') => (Throw e, s'')
        | (Suspended, s'') => (Suspended, s'')
        end
    end.

Declare Scope hub_scope.
Delimit Scope hub_scope with hub.
Notation "x <- c ;; k" := (bind c (fun x => k))
  (at level 61, c at next level, right associativity) : hub_scope.
Notation "c ;; k" := (bind c (fun _ => k))
  (at level 61, right associativity) : hub_scope.
Open Scope hub_scope.

Definition emit (e : effect) : M unit :=
  fun s => (Return tt,
            {| connected_clients := connected_clients s;
               tasks := tasks s;
               trace := trace s ++ [e] |}).

Definition log (level : log_level) (text : string) : M unit :=
  emit (Logged level text).

Definition get_clients : M (list WebSocket) :=
  fun s => (Return (connected_clients s), s).

Definition set_clients (l : list WebSocket) : M unit :=
  fun s => (Return tt,
            {| connected_clients := l; tasks := tasks s; trace := trace s |}).

Definition set_tasks (l : list task) : M unit :=
  fun s => (Return tt,
            {| connected_clients := connected_clients s; tasks := l; trace := trace s |}).

(** [x in l] on a list of connection objects. *)
Definition mem (ws : WebSocket) (l : list WebSocket) : bool :=
  existsb (Nat.eqb ws) l.

(** What [l.remove(x)] leaves: the first occurrence of [x] is gone. *)
Fixpoint remove_first (ws : WebSocket) (l : list WebSocket) : list WebSocket :=
  match l with
  | [] => []
  | x :: l' => if Nat.eqb ws x then l' else x :: remove_first ws l'
  end.

(** [connected_clients.append(ws)] *)
Definition append_client (ws : WebSocket) : M unit :=
  l <- get_clients ;; set_clients (l ++ [ws]) ;; emit (Appended ws).

(** [connected_clients.remove(ws)]; [ValueError] when [ws] is not there. *)
Definition remove_client (ws : WebSocket) : M unit :=
  l <- get_clients ;;
  if mem ws l
  then set_clients (remove_first ws l) ;; emit (Removed ws)
  else raise ValueError.

(** [await websocket.accept()] *)
Definition accept (ws : WebSocket) : M unit := emit (Accepted ws).

(** [await websocket.send_text(json.dumps(m))] *)
Definition send_text (net : transport) (ws : WebSocket) (m : event) : M unit :=
  match net ws m with
  | None => emit (Sent ws m)
  | Some e => emit (SendFailed ws m e) ;; raise e
  end.

(** [asyncio.create_task(...)] and [handle.cancel()] *)
Definition create_task (t : task) : M unit :=
  fun s => emit (TaskCreated t)
             {| connected_clients := connected_clients s;
                tasks := tasks s ++ [t];
                trace := trace s |}.

Definition cancel (t : task) : M unit :=
  fun s => emit (TaskCancelled t)
             {| connected_clients := connected_clients s;
                tasks := filter (fun t' => negb (task_eqb t t')) (tasks s);
                trace := trace s |}.

(** [for x in l: body x], with an accumulator for the local variables
    the body updates. *)
Fixpoint for_each {A B} (l : list A) (body : A -> B -> M B) (acc : B) : M B :=
  match l with
  | [] => ret acc
  | x :: l' => acc' <- body x acc ;; for_each l' body acc'
  end.

(** [str(e)].  For an exception that carries a message it is the
    message.  For the others Python's text depends on where the exception
    was raised and on the version of the interpreter; they are rendered
    here by a tag that tells them apart, and no property depends on that
    text. *)
Definition str (e : exn) : string :=
  match e with
  | ValueError => "ValueError"
  | KeyError k => k
  | AttributeError => "AttributeError"
  | JSONDecodeError => "JSONDecodeError"
  | TypeError => "TypeError"
  | RuntimeError msg => msg
  | WebSocketDisconnect => "WebSocketDisconnect"
  | TimeoutError => "TimeoutError"
  | APIError msg => msg
  | HTTPException _ detail => detail
  | ZeroDivisionError => "ZeroDivisionError"
  end.

(** The events that a trace delivers to the client [ws]. *)
Fixpoint delivered_to (ws : WebSocket) (tr : list effect) : list event :=
  match tr with
  | [] => []
  | Sent ws' m :: tr' =>
      if Nat.eqb ws ws' then m :: delivered_to ws tr' else delivered_to ws tr'
  | _ :: tr' => delivered_to ws tr'
  end.

(** Outcome and final state of a run. *)
Definition result {A} (r : outcome A * state) : outcome A := fst r.
Definition final {A} (r : outcome A * state) : state := snd r.

End Hub.

(* ================================================================== *)
(** * real_backend_fixed.py *)
(* ================================================================== *)

Module RealBackendFixed.

Import Py Hub.
Open Scope string_scope.
Open Scope hub_scope.

(** [class ChatMessage(BaseModel)] *)
Record ChatMessage : Type := {
  message : string;
  agent_type : string;
  auto_select : bool
}.

(** [agent_selector = AgentSelector()] *)
Definition agent_selector : AgentSelector.t := AgentSelector.init.

(** [AGENT_CONFIGS]: of each entry, the ["tools"] list is all the
    modelled code reads. *)
Definition AGENT_CONFIGS : dict (list string) := [
  ("manus", ["General Knowledge"; "Problem Solving"; "Guidance"]);
  ("browser", ["Browser Tool"; "Web Scraping"; "DOM Navigation"; "API Integration"]);
  ("data", ["Python Execute"; "Data Visualization"; "Statistical Analysis";
            "Machine Learning"]);
  ("swe", ["Code Editor"; "Debugging"; "Testing"; "Version Control"])
].

(** [AGENT_CONFIGS.get(agent_type, AGENT_CONFIGS["manus"])] *)
Definition agent_tools (agent_type : string) : list string :=
  match getitem AGENT_CONFIGS agent_type with
  | Ok tools => tools
  | Raise _ =>
      match getitem AGENT_CONFIGS "manus" with
      | Ok tools => tools
      | Raise _ => []
      end
  end.

(** The execution collaborator: the call to the chat-completion service
    for a message and the agent it is addressed to, which returns the
    text of the answer and the number of tokens, or raises. *)
Definition collaborator : Type := string -> string -> res (string * Z).

(** ** safe_send_to_client (lines 106-116) *)
Definition safe_send_to_client (net : transport) (websocket : WebSocket)
           (m : event) : M bool :=
  try_except
    (send_text net websocket m ;; ret true)
    (fun e =>
       match e with
       | WebSocketDisconnect =>
           log INFO "Client disconnected during send" ;; ret false
       | _ =>
           log ERROR "Error sending to client" ;; ret false
       end).

(** ** broadcast_to_clients (lines 118-133) *)
Definition broadcast_to_clients (net : transport) (m : event) : M unit :=
  clients <- get_clients ;;
  match clients with
  | [] => ret tt
  | _ =>
      disconnected <-
        for_each clients
          (fun client disconnected =>
             success <- safe_send_to_client net client m ;;
             if success then ret disconnected
             else ret (disconnected ++ [client])%list)
          [] ;;
      for_each disconnected
        (fun client _ =>
           live <- get_clients ;;
           if mem client live
           then remove_client client ;;
                log INFO "Removed disconnected client"
           else ret tt)
        tt
  end.

(** ** get_llm_response (lines 135-174) *)
Definition get_llm_response (llm : collaborator) (message : string)
           (agent_type : string) : M response_data :=
  try_except
    (let tools := agent_tools agent_type in
     r <- lift (llm message agent_type) ;;
     ret {| response := fst r;
            agent := agent_type;
            tools_used := tools;
            auto_selected := false;
            model := Some "gpt-3.5-turbo";
            tokens_used := Some (snd r);
            error := false |})
    (fun e =>
       log ERROR "Error getting LLM response" ;;
       ret {| response := "Sorry, I encountered an error: " ++ str e;
              agent := agent_type;
              tools_used := [];
              auto_selected := false;
              model := None;
              tokens_used := None;
              error := true |}).

(** [response_data["auto_selected"] = auto_selected] *)
Definition set_auto_selected (d : response_data) (b : bool) : response_data :=
  {| response := response d;
     agent := agent d;
     tools_used := tools_used d;
     auto_selected := b;
     model := model d;
     tokens_used := tokens_used d;
     error := error d |}.

(** ** heartbeat_task and metrics_task (lines 202-229) *)

(** The loop of a periodic task.  [nets] are the transports at the
    successive returns of its [asyncio.sleep], each followed by one send;
    when they are used up the task stays suspended in the sleep. *)
Fixpoint periodic_loop (nets : timeline) (websocket : WebSocket) (m : event)
  : M unit :=
  match nets with
  | [] => suspend
  | net :: later =>
      success <- safe_send_to_client net websocket m ;;
      if success then periodic_loop later websocket m else ret tt
  end.

Definition heartbeat_task (nets : timeline) (websocket : WebSocket) : M unit :=
  try_except (periodic_loop nets websocket heartbeat)
             (fun e => log ERROR "Heartbeat error").

Definition metrics_task (nets : timeline) (websocket : WebSocket) : M unit :=
  try_except (periodic_loop nets websocket system_metrics)
             (fun e => log ERROR "Metrics task error").

(** ** websocket_endpoint (lines 231-282) *)

(** One [await asyncio.wait_for(websocket.receive_text(), timeout=60.0)]:
    a text frame, or the exception it raises ([TimeoutError] after 60
    seconds of silence, [WebSocketDisconnect] when the client is gone). *)
Inductive received : Type :=
| Text (data : string)
| Raises (e : exn).

(** The [while True] loop over what the successive receives give; when
    they are used up the coroutine stays suspended in the next one. *)
Fixpoint read_loop (net : transport) (websocket : WebSocket)
         (inbox : list received) : M unit :=
  match inbox with
  | [] => suspend
  | r :: inbox' =>
      try_except
        (data <- match r with
                 | Text data => ret data
                 | Raises e => raise e
                 end ;;
         log INFO "Received WebSocket message" ;;
         safe_send_to_client net websocket (echo ("Received: " ++ data)) ;;
         ret tt)
        (fun e =>
           match e with
           | TimeoutError => safe_send_to_client net websocket ping ;; ret tt
           | _ => raise e
           end) ;;
      read_loop net websocket inbox'
  end.

(** The [finally] block (lines 275-282). *)
Definition cleanup (websocket : WebSocket) : M unit :=
  cancel (Heartbeat, websocket) ;;
  cancel (Metrics, websocket) ;;
  live <- get_clients ;;
  (if mem websocket live then remove_client websocket else ret tt) ;;
  log INFO "WebSocket connection closed".

Definition websocket_endpoint (net : transport) (websocket : WebSocket)
           (inbox : list received) : M unit :=
  accept websocket ;;
  append_client websocket ;;
  log INFO "New WebSocket connection" ;;
  safe_send_to_client net websocket connection_established ;;
  create_task (Heartbeat, websocket) ;;
  create_task (Metrics, websocket) ;;
  try_finally
    (try_except
       (read_loop net websocket inbox)
       (fun e =>
          match e with
          | WebSocketDisconnect => log INFO "WebSocket client disconnected normally"
          | _ => log ERROR "WebSocket error"
          end))
    (cleanup websocket).

(** ** chat_endpoint (lines 284-345) *)

(** The [except Exception as e] block, for the value the local variable
    [agent_type] has when the exception is raised. *)
Definition chat_failed {A} (net : transport) (agent_type : string) (e : exn) : M A :=
  log ERROR "Error in chat endpoint" ;;
  broadcast_to_clients net (agent_error agent_type (str e)) ;;
  raise (HTTPException 500 (str e)).

(** The [try] block is cut where [agent_type] is assigned: an exception
    raised before the assignment is handled with the requested
    [agent_type], one raised after it with the selected agent. *)
Definition chat_endpoint (net : transport) (llm : collaborator)
           (chat_message : ChatMessage) : M string :=
  let message := message chat_message in
  let agent_type := agent_type chat_message in
  let auto_select := auto_select chat_message in
  routed <-
    try_except
      (log INFO "Chat request" ;;
       if auto_select && String.eqb agent_type "auto"
       then
         selection_result <-
           lift (AgentSelector.select_best_agent
                   agent_selector message AgentSelector.default_threshold) ;;
         let selected_agent := fst (fst selection_result) in
         let confidence := snd (fst selection_result) in
         broadcast_to_clients net (agent_selection selected_agent confidence) ;;
         ret (selected_agent, true)
       else ret (agent_type, false))
      (chat_failed net agent_type) ;;
  let agent_type := fst routed in
  let auto_selected := snd routed in
  try_except
    (broadcast_to_clients net (agent_status agent_type "thinking" auto_selected) ;;
     response_data <- get_llm_response llm message agent_type ;;
     let response_data := set_auto_selected response_data auto_selected in
     broadcast_to_clients net (agent_response response_data) ;;
     log INFO "Chat response sent" ;;
     ret "success")
    (chat_failed net agent_type).

End RealBackendFixed.

(* ================================================================== *)
(** * main.py *)
(* ================================================================== *)

Module Main.

Import Py Hub.
Open Scope string_scope.
Open Scope hub_scope.

(** ** class ConnectionManager (lines 116-147); [self.active_connections]
    is the list of live sessions of the state. *)

Definition connect (websocket : WebSocket) : M unit :=
  accept websocket ;;
  append_client websocket ;;
  log INFO "WebSocket connected".

Definition disconnect (websocket : WebSocket) : M unit :=
  live <- get_clients ;;
  (if mem websocket live then remove_client websocket else ret tt) ;;
  log INFO "WebSocket disconnected".

Definition send_personal_message (net : transport) (m : event)
           (websocket : WebSocket) : M unit :=
  try_except (send_text net websocket m)
             (fun e => log ERROR "Failed to send personal message").

Definition broadcast (net : transport) (m : event) : M unit :=
  clients <- get_clients ;;
  disconnected <-
    for_each clients
      (fun connection disconnected =>
         try_except
           (send_text net connection m ;; ret disconnected)
           (fun e =>
              log ERROR "Failed to broadcast to connection" ;;
              ret (disconnected ++ [connection])%list))
      [] ;;
  for_each disconnected (fun conn _ => disconnect conn) tt.

(** ** websocket_endpoint (lines 246-275) *)

(** One [await websocket.receive_text()]: a text frame, given with what
    [json.loads] makes of it (a value, or the exception it raises), or
    the exception the receive raises. *)
Inductive received : Type :=
| Text (data : string) (loads : res json)
| Raises (e : exn).

(** [message_data.get("type")]: only a dictionary has a [get] method,
    and it gives [None] for a key that is absent. *)
Definition get_type (message_data : json) : res json :=
  match message_data with
  | JObject fields =>
      match getitem fields "type" with
      | Ok v => Ok v
      | Raise _ => Ok JNull
      end
  | _ => Raise AttributeError
  end.

(** [v == "ping"] *)
Definition is_ping (v : json) : bool :=
  match v with
  | JString s => String.eqb s "ping"
  | _ => false
  end.

(** The [while True] loop (lines 260-269). *)
Fixpoint read_loop (net : transport) (websocket : WebSocket)
         (inbox : list received) : M unit :=
  match inbox with
  | [] => suspend
  | r :: inbox' =>
      message_data <- match r with
                      | Text data loads => lift loads
                      | Raises e => raise e
                      end ;;
      type <- lift (get_type message_data) ;;
      (if is_ping type then send_text net websocket pong else ret tt) ;;
      read_loop net websocket inbox'
  end.

(** The [try] statement of the endpoint, from a session that is
    connected (lines 251-275). *)
Definition serve (net : transport) (websocket : WebSocket)
           (inbox : list received) : M unit :=
  try_except
    (send_text net websocket connection_established ;;
     read_loop net websocket inbox)
    (fun e =>
       match e with
       | WebSocketDisconnect => disconnect websocket
       | _ => log ERROR "WebSocket error" ;; disconnect websocket
       end).

(** The same statement once the initial status has been sent: the
    session is in its read loop. *)
Definition serve_loop (net : transport) (websocket : WebSocket)
           (inbox : list received) : M unit :=
  try_except
    (read_loop net websocket inbox)
    (fun e =>
       match e with
       | WebSocketDisconnect => disconnect websocket
       | _ => log ERROR "WebSocket error" ;; disconnect websocket
       end).

Definition websocket_endpoint (net : transport) (websocket : WebSocket)
           (inbox : list received) : M unit :=
  connect websocket ;;
  serve net websocket inbox.

End Main.

(* ================================================================== *)
(** * simple_backend.py *)
(* ================================================================== *)

Module SimpleBackend.

Import Py Hub.
Open Scope string_scope.
Open Scope hub_scope.

(** [agent_selector = AgentSelector()] *)
Definition agent_selector : AgentSelector.t := AgentSelector.init.

(** [ConnectionManager.disconnect] (lines 124-127), the same text as in
    [main.py]. *)
Definition disconnect (websocket : WebSocket) : M unit :=
  live <- get_clients ;;
  (if mem websocket live then remove_client websocket else ret tt) ;;
  log INFO "WebSocket disconnected".

(** [v == "get_suggestions"] *)
Definition is_get_suggestions (v : json) : bool :=
  match v with
  | JString s => String.eqb s "get_suggestions"
  | _ => false
  end.

(** [message_data.get("task", "")] *)
Definition get_task (message_data : json) : res json :=
  match message_data with
  | JObject fields =>
      match getitem fields "task" with
      | Ok v => Ok v
      | Raise _ => Ok (JString "")
      end
  | _ => Raise AttributeError
  end.

(** The answer to a [get_suggestions] frame (lines 316-325); [task.lower()]
    in [analyze_task] raises [AttributeError] when the task is not a
    string. *)
Definition send_suggestions (net : transport) (websocket : WebSocket)
           (task : json) : M unit :=
  match task with
  | JString t =>
      suggestions <-
        lift (AgentSelector.get_agent_suggestions agent_selector t
                AgentSelector.default_top_n) ;;
      send_text net websocket (agent_suggestions t suggestions)
  | _ => raise AttributeError
  end.

(** The [while True] loop (lines 305-325). *)
Fixpoint read_loop (net : transport) (websocket : WebSocket)
         (inbox : list Main.received) : M unit :=
  match inbox with
  | [] => suspend
  | r :: inbox' =>
      message_data <- match r with
                      | Main.Text data loads => lift loads
                      | Main.Raises e => raise e
                      end ;;
      type <- lift (Main.get_type message_data) ;;
      (if Main.is_ping type then send_text net websocket pong
       else
         type <- lift (Main.get_type message_data) ;;
         if is_get_suggestions type
         then task <- lift (get_task message_data) ;;
              send_suggestions net websocket task
         else ret tt) ;;
      read_loop net websocket inbox'
  end.

(** The [try] statement of the endpoint once the initial status has been
    sent (lines 295-331). *)
Definition serve_loop (net : transport) (websocket : WebSocket)
           (inbox : list Main.received) : M unit :=
  try_except
    (read_loop net websocket inbox)
    (fun e =>
       match e with
       | WebSocketDisconnect => disconnect websocket
       | _ => log ERROR "WebSocket error" ;; disconnect websocket
       end).

End SimpleBackend.

(* ================================================================== *)
(** * real_backend_v2.py *)
(* ================================================================== *)

Module RealBackendV2.

Import Py Hub.
Open Scope string_scope.
Open Scope hub_scope.

(** [agent_selector = AgentSelector()] *)
Definition agent_selector : AgentSelector.t := AgentSelector.init.

(** ** broadcast_to_clients (lines 106-120) *)
Definition broadcast_to_clients (net : transport) (m : event) : M unit :=
  clients <- get_clients ;;
  match clients with
  | [] => ret tt
  | _ =>
      disconnected <-
        for_each clients
          (fun client disconnected =>
             try_except
               (send_text net client m ;; ret disconnected)
               (fun e =>
                  log ERROR "Error broadcasting to client" ;;
                  ret (disconnected ++ [client])%list))
          [] ;;
      for_each disconnected
        (fun client _ =>
           live <- get_clients ;;
           if mem client live then remove_client client else ret tt)
        tt
  end.

(** [get_llm_response] (lines 122-161) has the text of the function of
    the same name of [real_backend_fixed.py]. *)
Definition get_llm_response := RealBackendFixed.get_llm_response.

(** ** websocket_endpoint (lines 187-219) *)

(** The [while True] loop: a send with the transport [net], then the
    [asyncio.sleep(5)].  [later] are the transports at the successive
    returns of the sleep; when they are used up the coroutine stays
    suspended in it. *)
Fixpoint metrics_loop (later : timeline) (net : transport) (websocket : WebSocket)
  : M unit :=
  send_text net websocket system_metrics ;;
  match later with
  | [] => suspend
  | net' :: later' => metrics_loop later' net' websocket
  end.

(** [net] is the transport when the connection is accepted, [first] the
    one at the first send of the metrics (reading them takes a second). *)
Definition websocket_endpoint (net first : transport) (later : timeline)
           (websocket : WebSocket) : M unit :=
  accept websocket ;;
  append_client websocket ;;
  send_text net websocket connection_established ;;
  try_except
    (metrics_loop later first websocket)
    (fun e =>
       match e with
       | WebSocketDisconnect =>
           live <- get_clients ;;
           (if mem websocket live then remove_client websocket else ret tt) ;;
           log INFO "WebSocket client disconnected"
       | _ =>
           log ERROR "WebSocket error" ;;
           live <- get_clients ;;
           if mem websocket live then remove_client websocket else ret tt
       end).

(** ** chat_endpoint (lines 221-281) *)

(** [t[key]] for a tuple [t] and a string [key]: tuple indices must be
    integers or slices. *)
Definition tuple_getitem {A B} (t : A) (key : string) : M B := raise TypeError.

(** The [except Exception as e] block. *)
Definition chat_failed {A} (net : transport) (agent_type : string) (e : exn) : M A :=
  log ERROR "Error in chat endpoint" ;;
  broadcast_to_clients net (agent_error agent_type (str e)) ;;
  raise (HTTPException 500 (str e)).

(** In the branch of the automatic selection, building the event
    evaluates [selection_result["explanation"]] on the tuple that
    [select_best_agent] returned, before [agent_type] is assigned. *)
Definition chat_endpoint (net : transport) (llm : RealBackendFixed.collaborator)
           (chat_message : RealBackendFixed.ChatMessage) : M string :=
  let message := RealBackendFixed.message chat_message in
  let agent_type := RealBackendFixed.agent_type chat_message in
  let auto_select := RealBackendFixed.auto_select chat_message in
  try_except
    (routed <-
       (if auto_select && String.eqb agent_type "auto"
        then
          selection_result <-
            lift (AgentSelector.select_best_agent
                    agent_selector message AgentSelector.default_threshold) ;;
          let selected_agent := fst (fst selection_result) in
          let confidence := snd (fst selection_result) in
          explanation <- @tuple_getitem _ string selection_result "explanation" ;;
          all_scores <- @tuple_getitem _ (dict Q) selection_result "all_scores" ;;
          broadcast_to_clients net (agent_selection selected_agent confidence) ;;
          ret (selected_agent, true)
        else ret (agent_type, false)) ;;
     let agent_type := fst routed in
     let auto_selected := snd routed in
     broadcast_to_clients net (agent_status agent_type "thinking" auto_selected) ;;
     response_data <- get_llm_response llm message agent_type ;;
     let response_data :=
       RealBackendFixed.set_auto_selected response_data auto_selected in
     broadcast_to_clients net (agent_response response_data) ;;
     ret "success")
    (chat_failed net agent_type).

End RealBackendV2.

(* ================================================================== *)
(** * Vocabulary for the properties of the hub *)
(* ================================================================== *)

Module HubSpec.

Import Hub.
Open Scope string_scope.

(** The state [s] after the effects [evs]. *)
Definition after (s : state) (evs : list effect) : state :=
  {| connected_clients := connected_clients s;
     tasks := tasks s;
     trace := trace s ++ evs |}.

Definition with_clients (s : state) (l : list WebSocket) : state :=
  {| connected_clients := l; tasks := tasks s; trace := trace s |}.

Definition with_tasks (s : state) (l : list task) : state :=
  {| connected_clients := connected_clients s; tasks := l; trace := trace s |}.

(** The send of [m] to [ws] succeeds. *)
Definition send_ok (net : transport) (m : event) (ws : WebSocket) : bool :=
  match net ws m with
  | None => true
  | Some _ => false
  end.

(** What one guarded send of [m] to [ws] does. *)
Definition send_events (net : transport) (m : event) (ws : WebSocket)
  : list effect :=
  match net ws m with
  | None => [Sent ws m]
  | Some WebSocketDisconnect =>
      [SendFailed ws m WebSocketDisconnect;
       Logged INFO "Client disconnected during send"]
  | Some e =>
      [SendFailed ws m e; Logged ERROR "Error sending to client"]
  end.

(** What the eviction of one failed session does. *)
Definition eviction_events (ws : WebSocket) : list effect :=
  [Removed ws; Logged INFO "Removed disconnected client"].

(** An effect of a guarded send: a delivery, a failed send or a log
    entry. *)
Definition is_send_effect (e : effect) : bool :=
  match e with
  | Sent _ _ | SendFailed _ _ _ | Logged _ _ => true
  | _ => false
  end.

(** In the trace [tr], every removal of [ws] from the live list comes
    after the cancellation of both of its background tasks. *)
Definition cancelled_before_removed (ws : WebSocket) (tr : list effect) : Prop :=
  forall before rest,
    tr = (before ++ Removed ws :: rest)%list ->
    In (TaskCancelled (Heartbeat, ws)) before /\
    In (TaskCancelled (Metrics, ws)) before.

(** How a read loop treats an inbound text frame. *)
Inductive treatment : Type :=
| Answered           (* a recognized type: the loop answers it *)
| Ignored            (* a JSON object of another type *)
| Fatal (e : exn).   (* decoding the frame raises [e] *)

Definition treatment_of (recognized : json -> bool) (loads : res json) : treatment :=
  match loads with
  | Raise e => Fatal e
  | Ok message_data =>
      match Main.get_type message_data with
      | Raise e => Fatal e
      | Ok type => if recognized type then Answered else Ignored
      end
  end.

(** The message types that the read loops recognize. *)
Definition main_recognizes (type : json) : bool := Main.is_ping type.

Definition simple_recognizes (type : json) : bool :=
  Main.is_ping type || SimpleBackend.is_get_suggestions type.

(** What the teardown of [main.py] and of [simple_backend.py] does for an
    exception [e] raised in the read loop of [ws], from the live list
    [live]. *)
Definition teardown_events (e : exn) (ws : WebSocket) (live : list WebSocket)
  : list effect :=
  (match e with
   | WebSocketDisconnect => []
   | _ => [Logged ERROR "WebSocket error"]
   end ++
   (if mem ws live then [Removed ws] else []) ++
   [Logged INFO "WebSocket disconnected"])%list.

(** An effect of an eviction: a removal from the live list or a log
    entry. *)
Definition is_eviction_effect (e : effect) : bool :=
  match e with
  | Removed _ | Logged _ _ => true
  | _ => false
  end.

(** The sessions of [live] that a broadcast of [m] leaves registered,
    and what the broadcast does: every send is attempted, then the
    sessions whose send failed are removed. *)
Definition survivors (net : transport) (m : event) (live : list WebSocket)
  : list WebSocket :=
  filter (send_ok net m) live.

Definition failed (net : transport) (m : event) (live : list WebSocket)
  : list WebSocket :=
  filter (fun ws => negb (send_ok net m ws)) live.

Definition broadcast_events (net : transport) (m : event) (live : list WebSocket)
  : list effect :=
  (flat_map (send_events net m) live
   ++ flat_map eviction_events (failed net m live))%list.

(** ** Concrete transports, collaborators and states *)

(** Every send succeeds. *)
Definition open_net : transport := fun _ _ => None.

(** Sends to the session [dead] raise [WebSocketDisconnect]. *)
Definition net_without (dead : WebSocket) : transport :=
  fun ws _ => if Nat.eqb ws dead then Some WebSocketDisconnect else None.

(** A collaborator that is down, and one that answers. *)
Definition llm_down : RealBackendFixed.collaborator :=
  fun _ _ => Raise (APIError "service unavailable").

Definition llm_up : RealBackendFixed.collaborator :=
  fun _ _ => Ok ("Here is the fix.", 42%Z).

Definition idle (live : list WebSocket) : state :=
  {| connected_clients := live; tasks := []; trace := [] |}.

(** An auto-routed chat request. *)
Definition debug_request : RealBackendFixed.ChatMessage :=
  {| RealBackendFixed.message := "Debug my Python code";
     RealBackendFixed.agent_type := "auto";
     RealBackendFixed.auto_select := true |}.

(** Two inbound frames of [main.py]: a text that is not JSON, and a
    ping. *)
Definition garbage_frame : Main.received :=
  Main.Text "not json" (Raise JSONDecodeError).

Definition ping_frame : Main.received :=
  Main.Text "ping" (Ok (JObject [("type", JString "ping")])).

(** The events of the [finally] block of the session endpoint of
    [real_backend_fixed.py], and the tasks it leaves. *)
Definition cleanup_trace (ws : WebSocket) : list effect :=
  [TaskCancelled (Heartbeat, ws); TaskCancelled (Metrics, ws); Removed ws;
   Logged INFO "WebSocket connection closed"].

Definition cleanup_tasks (ws : WebSocket) (l : list task) : list task :=
  filter (fun t' => negb (task_eqb (Metrics, ws) t'))
         (filter (fun t' => negb (task_eqb (Heartbeat, ws) t')) l).

(** What the session endpoint of [real_backend_fixed.py] does before it
    enters its read loop, and the state it is then in. *)
Definition setup_events (net : transport) (ws : WebSocket) : list effect :=
  ([Accepted ws; Appended ws; Logged INFO "New WebSocket connection"]
   ++ send_events net connection_established ws
   ++ [TaskCreated (Heartbeat, ws); TaskCreated (Metrics, ws)])%list.

Definition setup_state (net : transport) (ws : WebSocket) (s : state) : state :=
  {| connected_clients := connected_clients s ++ [ws];
     tasks := tasks s ++ [(Heartbeat, ws); (Metrics, ws)];
     trace := trace s ++ setup_events net ws |}.

(** The dictionary [get_llm_response] returns, and what it logs. *)
Definition llm_response (llm : RealBackendFixed.collaborator)
           (message agent_type : string) : response_data :=
  match llm message agent_type with
  | Ok r =>
      {| response := fst r;
         agent := agent_type;
         tools_used := RealBackendFixed.agent_tools agent_type;
         auto_selected := false;
         model := Some "gpt-3.5-turbo";
         tokens_used := Some (snd r);
         error := false |}
  | Raise e =>
      {| response := "Sorry, I encountered an error: " ++ str e;
         agent := agent_type;
         tools_used := [];
         auto_selected := false;
         model := None;
         tokens_used := None;
         error := true |}
  end.

Definition llm_events (llm : RealBackendFixed.collaborator)
           (message agent_type : string) : list effect :=
  match llm message agent_type with
  | Ok _ => []
  | Raise _ => [Logged ERROR "Error getting LLM response"]
  end.

(** The collaborator fails on this request. *)
Definition llm_fails (llm : RealBackendFixed.collaborator)
           (message agent_type : string) : bool :=
  match llm message agent_type with
  | Ok _ => false
  | Raise _ => true
  end.

(** An [agent_error] event. *)
Definition is_agent_error (m : event) : bool :=
  match m with
  | agent_error _ _ => true
  | _ => false
  end.

(** A [get_suggestions] frame of [simple_backend.py]. *)
Definition suggest_frame : Main.received :=
  Main.Text "get_suggestions"
    (Ok (JObject [("type", JString "get_suggestions");
                  ("task", JString "Debug my Python code")])).

End HubSpec.

(* ================================================================== *)
(** * agent_selector.py: explain_selection *)
(* ================================================================== *)

Module Explanation.

Import Py AgentSelector.
Open Scope string_scope.

(** [sep.join(l)] *)
Fixpoint join (sep : string) (l : list string) : string :=
  match l with
  | [] => EmptyString
  | x :: l' =>
      match l' with
      | [] => x
      | _ => x ++ sep ++ join sep l'
      end
  end.

(** The character written [\n]. *)
Definition newline : string := String (ascii_of_nat 10) EmptyString.

Section ExplainSelection.

(** [str.upper].  The upper case of a code point below 256 can lie above
    (the micro sign, the y with diaeresis) or be two characters (the
    sharp s), so the function is a parameter of the model. *)
Variable upper : string -> string.

(** [explain_selection] (lines 164-188) *)
Definition explain_selection (self : t) (task selected_agent : string) : res string :=
  let task_lower := lower task in
  match getitem (agents self) selected_agent with
  | Raise e => Raise e
  | Ok agent =>
      let matched_keywords :=
        filter (fun kw => contains kw task_lower) (keywords agent) in
      let explanation :=
        "Selected " ++ upper (name agent) ++ " agent because:" ++ newline in
      let explanation :=
        explanation ++ "- Task description: '" ++ task ++ "'" ++ newline in
      let explanation :=
        explanation ++ "- Agent specialization: " ++ description agent ++ newline in
      let explanation :=
        match matched_keywords with
        | _ :: _ =>
            explanation ++ "- Matched keywords: "
              ++ join ", " (slice_to matched_keywords 5) ++ newline
        | [] =>
            explanation
              ++ "- No specific keywords matched, using general-purpose agent"
              ++ newline
        end in
      Ok explanation
  end.

End ExplainSelection.

End Explanation.

(* ================================================================== *)
(** * Vocabulary for the further properties *)
(* ================================================================== *)

Module ExtraSpec.

Import Py Hub HubSpec.
Open Scope string_scope.

(** The session [ws] accepts every send. *)
Definition accepts_all (net : transport) (ws : WebSocket) : Prop :=
  forall m, net ws m = None.

(** What the read loop of [real_backend_fixed.py] sends back for what it
    receives, up to the first exception that is not a timeout. *)
Fixpoint echo_replies (inbox : list RealBackendFixed.received) : list event :=
  match inbox with
  | [] => []
  | RealBackendFixed.Text data :: inbox' =>
      echo ("Received: " ++ data) :: echo_replies inbox'
  | RealBackendFixed.Raises TimeoutError :: inbox' => ping :: echo_replies inbox'
  | RealBackendFixed.Raises _ :: _ => []
  end.

(** The receives of [inbox] include an exception that is not a timeout. *)
Fixpoint hangs_up (inbox : list RealBackendFixed.received) : bool :=
  match inbox with
  | [] => false
  | RealBackendFixed.Text _ :: inbox' => hangs_up inbox'
  | RealBackendFixed.Raises TimeoutError :: inbox' => hangs_up inbox'
  | RealBackendFixed.Raises _ :: _ => true
  end.

(** The pongs that the read loop of [main.py] owes for what it receives,
    up to the first frame or receive that raises. *)
Fixpoint pongs (inbox : list Main.received) : list event :=
  match inbox with
  | [] => []
  | Main.Text _ loads :: inbox' =>
      match treatment_of main_recognizes loads with
      | Answered => pong :: pongs inbox'
      | Ignored => pongs inbox'
      | Fatal _ => []
      end
  | Main.Raises _ :: _ => []
  end.

(** A receive of [inbox], or the decoding of one of its frames, raises. *)
Fixpoint breaks (inbox : list Main.received) : bool :=
  match inbox with
  | [] => false
  | Main.Text _ loads :: inbox' =>
      match treatment_of main_recognizes loads with
      | Fatal _ => true
      | _ => breaks inbox'
      end
  | Main.Raises _ :: _ => true
  end.

(** What one send of the broadcast of [main.py] does, and what the
    eviction of a failed session does there. *)
Definition manager_send_events (net : transport) (m : event) (ws : WebSocket)
  : list effect :=
  match net ws m with
  | None => [Sent ws m]
  | Some e => [SendFailed ws m e; Logged ERROR "Failed to broadcast to connection"]
  end.

Definition manager_eviction_events (ws : WebSocket) : list effect :=
  [Removed ws; Logged INFO "WebSocket disconnected"].

(** What one send of the broadcast of [real_backend_v2.py] does. *)
Definition v2_send_events (net : transport) (m : event) (ws : WebSocket)
  : list effect :=
  match net ws m with
  | None => [Sent ws m]
  | Some e => [SendFailed ws m e; Logged ERROR "Error broadcasting to client"]
  end.

Definition v2_broadcast_events (net : transport) (m : event)
           (live : list WebSocket) : list effect :=
  (flat_map (v2_send_events net m) live
   ++ map Removed (failed net m live))%list.

(** A chat request that names its handler. *)
Definition pirate_request : RealBackendFixed.ChatMessage :=
  {| RealBackendFixed.message := "Find the treasure";
     RealBackendFixed.agent_type := "pirate";
     RealBackendFixed.auto_select := true |}.

(** A [get_suggestions] frame whose task is not a string, and one
    without a task. *)
Definition numeric_task_frame : Main.received :=
  Main.Text "get_suggestions"
    (Ok (JObject [("type", JString "get_suggestions"); ("task", JNumber 5)])).

Definition no_task_frame : Main.received :=
  Main.Text "get_suggestions"
    (Ok (JObject [("type", JString "get_suggestions")])).

(** Along a timeline: the number of sends of [m] to [ws] that succeed
    before the first one that fails, and the transport of that first
    failure. *)
Fixpoint sends_before_failure (nets : timeline) (ws : WebSocket) (m : event) : nat :=
  match nets with
  | [] => O
  | net :: later =>
      if send_ok net m ws then S (sends_before_failure later ws m) else O
  end.

Fixpoint first_failure (nets : timeline) (ws : WebSocket) (m : event)
  : option transport :=
  match nets with
  | [] => None
  | net :: later =>
      if send_ok net m ws then first_failure later ws m else Some net
  end.

(** The exception of that first failure. *)
Fixpoint first_error (nets : timeline) (ws : WebSocket) (m : event) : option exn :=
  match nets with
  | [] => None
  | net :: later =>
      match net ws m with
      | None => first_error later ws m
      | Some e => Some e
      end
  end.

(** How a periodic task of [real_backend_fixed.py] that sends [m] to [ws]
    behaves in a run [r] from the state [s], along the timeline [nets]:
    it delivers at every wake-up until a send fails, then records that
    failure and returns; it touches neither the live list nor the
    tasks. *)
Definition periodic_behaviour (nets : timeline) (ws : WebSocket) (m : event)
           (s : state) (r : outcome unit * state) : Prop :=
  connected_clients (final r) = connected_clients s /\
  tasks (final r) = tasks s /\
  let sent := repeat (Sent ws m) (sends_before_failure nets ws m) in
  match first_failure nets ws m with
  | None =>
      result r = Suspended /\
      sends_before_failure nets ws m = length nets /\
      trace (final r) = (trace s ++ sent)%list
  | Some net =>
      result r = Return tt /\
      trace (final r) = (trace s ++ sent ++ send_events net m ws)%list
  end.

(** A client that is reachable at the first two wake-ups and gone
    afterwards. *)
Definition closes_after_two (ws : WebSocket) : timeline :=
  [open_net; open_net; net_without ws; open_net].


(** The read loop of [simple_backend.py] answers the frame [frame] with
    the suggestions of the router for [task], sent to [ws] alone, and
    reads on; a failure of that send is raised in the loop. *)
Definition answers_suggestions (net : transport) (ws : WebSocket)
           (frame : Main.received) (task : string)
           (inbox : list Main.received) (s : state) : Prop :=
  exists suggestions,
    AgentSelector.get_agent_suggestions
      SimpleBackend.agent_selector task AgentSelector.default_top_n
    = Ok suggestions /\
    let m := agent_suggestions task suggestions in
    SimpleBackend.read_loop net ws (frame :: inbox) s
    = match net ws m with
      | None => SimpleBackend.read_loop net ws inbox (after s [Sent ws m])
      | Some e => (Throw e, after s [SendFailed ws m e])
      end.


(** The first three lines of an explanation of [explain_selection], and
    its last line for a list of matched keywords. *)
Definition explanation_head (upper : string -> string)
           (agent : AgentSelector.AgentCapability) (task : string) : string :=
  ("Selected " ++ upper (AgentSelector.name agent) ++ " agent because:"
     ++ Explanation.newline)
  ++ ("- Task description: '" ++ task ++ "'" ++ Explanation.newline)
  ++ ("- Agent specialization: " ++ AgentSelector.description agent
        ++ Explanation.newline).

Definition keywords_line (matched : list string) : string :=
  "- Matched keywords: " ++ Explanation.join ", " (firstn 5 matched)
    ++ Explanation.newline.

Definition no_keywords_line : string :=
  "- No specific keywords matched, using general-purpose agent"
    ++ Explanation.newline.

End ExtraSpec.

(* ================================================================== *)
(** * Properties of the router *)
(* ================================================================== *)

Module PyFacts.

Import Py.
Open Scope Q_scope.

Lemma Qltb_lt (x y : Q) : Qltb x y = true <-> x < y.
Proof.
  unfold Qltb. rewrite negb_true_iff. split.
  - intros H. apply Qnot_le_lt. intros Hle.
    apply Qle_bool_iff in Hle. congruence.
  - intros H. destruct (Qle_bool y x) eqn:E; [|reflexivity].
    apply Qle_bool_iff in E. exfalso. exact (Qlt_not_le _ _ H E).
Qed.

Lemma Qltb_ge (x y : Q) : Qltb x y = false <-> y <= x.
Proof.
  unfold Qltb. rewrite negb_false_iff. apply Qle_bool_iff.
Qed.

Section MaxLoop.
Context {A : Type} (key : A -> Q).

Lemma max_loop_in (l : list A) : forall best,
  In (max_loop key best l) (best :: l).
Proof.
  induction l as [|x l IH]; intros best; simpl.
  - now left.
  - destruct (IH (if Qltb (key best) (key x) then x else best)) as [H|H].
    + destruct (Qltb (key best) (key x)); rewrite <- H; auto.
    + auto.
Qed.

Lemma max_loop_ge_best (l : list A) : forall best,
  key best <= key (max_loop key best l).
Proof.
  induction l as [|x l IH]; intros best; simpl.
  - apply Qle_refl.
  - eapply Qle_trans; [|apply IH].
    destruct (Qltb (key best) (key x)) eqn:E.
    + apply Qltb_lt in E. now apply Qlt_le_weak.
    + apply Qle_refl.
Qed.

Lemma max_loop_upper (l : list A) : forall best x,
  In x (best :: l) -> key x <= key (max_loop key best l).
Proof.
  induction l as [|y l IH]; intros best x Hin.
  - destruct Hin as [Heq|[]]. subst. apply Qle_refl.
  - simpl. destruct Hin as [Heq|[Heq|Hin]]; subst.
    + eapply Qle_trans; [|apply max_loop_ge_best].
      destruct (Qltb (key x) (key y)) eqn:E.
      * apply Qltb_lt in E. now apply Qlt_le_weak.
      * apply Qle_refl.
    + eapply Qle_trans; [|apply max_loop_ge_best].
      destruct (Qltb (key best) (key x)) eqn:E.
      * apply Qle_refl.
      * now apply Qltb_ge in E.
    + apply IH. now right.
Qed.

(** The first maximal item wins: a later item replaces the running
    maximum only when it is strictly greater. *)
Lemma max_loop_first (l : list A) : forall best,
  (forall x, In x l -> key x <= key best) -> max_loop key best l = best.
Proof.
  induction l as [|y l IH]; intros best H; simpl; [reflexivity|].
  assert (E : Qltb (key best) (key y) = false).
  { apply Qltb_ge. apply H. now left. }
  rewrite E. apply IH. intros x Hx. apply H. now right.
Qed.
End MaxLoop.

Lemma max_key_loop_pure {A} (key : A -> res Q) (f : A -> Q) (l : list A) :
  forall best,
  (forall x, In x l -> key x = Ok (f x)) ->
  max_key_loop key best (f best) l = Ok (max_loop f best l).
Proof.
  induction l as [|x l IH]; intros best Hkey; [reflexivity|].
  cbn [max_key_loop max_loop]. rewrite (Hkey x (or_introl eq_refl)).
  destruct (Qltb (f best) (f x)); apply IH; intros y Hy; apply Hkey; now right.
Qed.

Lemma max_key_pure {A} (key : A -> res Q) (f : A -> Q) (x : A) (l : list A) :
  (forall y, In y (x :: l) -> key y = Ok (f y)) ->
  max_key key (x :: l) = Ok (max_loop f x l).
Proof.
  intros Hkey. cbn [max_key]. rewrite (Hkey x (or_introl eq_refl)).
  apply max_key_loop_pure. intros y Hy. apply Hkey. now right.
Qed.

(** ** Dictionaries *)

Lemma getitem_in {V} (d : dict V) (k : string) (v : V) :
  NoDup (keys d) -> In (k, v) d -> getitem d k = Ok v.
Proof.
  induction d as [|[k' v'] d IH]; simpl; intros Hnd Hin; [contradiction|].
  inversion Hnd as [|? ? Hnotin Hnd']; subst.
  destruct Hin as [Heq|Hin].
  - inversion Heq; subst. now rewrite String.eqb_refl.
  - destruct (String.eqb_spec k k') as [->|Hne].
    + exfalso. apply Hnotin. unfold keys.
      change k' with (fst (k', v)). now apply in_map.
    + now apply IH.
Qed.

Lemma getitem_key {V} (d : dict V) (k : string) :
  In k (keys d) -> exists v, getitem d k = Ok v /\ In (k, v) d.
Proof.
  induction d as [|[k' v'] d IH]; simpl; intros Hin; [contradiction|].
  destruct (String.eqb_spec k k') as [->|Hne].
  - exists v'. auto.
  - destruct Hin as [Heq|Hin]; [congruence|].
    destruct (IH Hin) as (v & Hv & Hin'). exists v. auto.
Qed.

Lemma dict_set_fresh {V} (d : dict V) (k : string) (v : V) :
  ~ In k (keys d) -> dict_set k v d = (d ++ [(k, v)])%list.
Proof.
  induction d as [|[k' v'] d IH]; simpl; intros Hnotin; [reflexivity|].
  destruct (String.eqb_spec k k') as [->|Hne].
  - exfalso. apply Hnotin. now left.
  - rewrite IH; [reflexivity|]. intros H. apply Hnotin. now right.
Qed.

Lemma in_values {V} (d : dict V) (k : string) (v : V) :
  In (k, v) d -> In v (values d).
Proof. intros H. unfold values. change v with (snd (k, v)). now apply in_map. Qed.

Lemma in_keys {V} (d : dict V) (k : string) (v : V) :
  In (k, v) d -> In k (keys d).
Proof. intros H. unfold keys. change k with (fst (k, v)). now apply in_map. Qed.

End PyFacts.

Module SortFacts.

Import Py PyFacts.
Open Scope Q_scope.

Section Sorting.
Context {A : Type} (key : A -> Q).

Lemma insert_asc_perm (x : A) (l : list A) :
  Permutation (insert_asc key x l) (x :: l).
Proof.
  induction l as [|y l IH]; simpl; [apply Permutation_refl|].
  destruct (Qltb (key y) (key x)); [|apply Permutation_refl].
  eapply perm_trans; [apply perm_skip, IH|apply perm_swap].
Qed.

Lemma sort_asc_perm (l : list A) : Permutation (sort_asc key l) l.
Proof.
  induction l as [|x l IH]; simpl; [constructor|].
  eapply perm_trans; [apply insert_asc_perm|now apply perm_skip].
Qed.

Lemma insert_asc_sorted (x : A) (l : list A) :
  StronglySorted (asc key) l -> StronglySorted (asc key) (insert_asc key x l).
Proof.
  induction 1 as [|y l Hs IH Hall]; simpl.
  - repeat constructor.
  - destruct (Qltb (key y) (key x)) eqn:E.
    + constructor; [exact IH|].
      apply Qltb_lt in E.
      eapply Permutation_Forall;
        [apply Permutation_sym, insert_asc_perm|].
      constructor; [now apply Qlt_le_weak|exact Hall].
    + apply Qltb_ge in E.
      constructor; [now constructor|].
      constructor; [exact E|].
      eapply Forall_impl; [|exact Hall].
      intros a Ha. unfold asc in *. eapply Qle_trans; eassumption.
Qed.

Lemma sort_asc_sorted (l : list A) : StronglySorted (asc key) (sort_asc key l).
Proof.
  induction l as [|x l IH]; simpl; [constructor|].
  now apply insert_asc_sorted.
Qed.

Lemma sorted_snoc (R : A -> A -> Prop) (l : list A) (x : A) :
  StronglySorted R l -> Forall (fun a => R a x) l ->
  StronglySorted R (l ++ [x]).
Proof.
  induction 1 as [|y l Hs IH Hall]; simpl; intros Hx.
  - repeat constructor.
  - inversion Hx; subst. constructor; [now apply IH|].
    apply Forall_app. split; [exact Hall|now constructor].
Qed.

Lemma sorted_rev (l : list A) :
  StronglySorted (asc key) l -> StronglySorted (desc key) (rev l).
Proof.
  induction 1 as [|y l Hs IH Hall]; simpl; [constructor|].
  apply sorted_snoc; [exact IH|].
  apply Forall_forall. intros a Ha. apply in_rev in Ha.
  rewrite Forall_forall in Hall. now apply Hall.
Qed.

Lemma sorted_firstn (R : A -> A -> Prop) (n : nat) (l : list A) :
  StronglySorted R l -> StronglySorted R (firstn n l).
Proof.
  intros Hs. revert n.
  induction Hs as [|y l Hs IH Hall]; intros [|n]; simpl; try constructor.
  - apply IH.
  - rewrite Forall_forall in *. intros a Ha. apply Hall.
    rewrite <- (firstn_skipn n l). apply in_or_app. now left.
Qed.

(** Items that are skipped over by [insert_asc] have a strictly smaller
    key, so no item moves past one of equal key. *)
Lemma insert_asc_stable (c : Q) (x : A) (l : list A) :
  filter (same_key key c) (insert_asc key x l) = filter (same_key key c) (x :: l).
Proof.
  induction l as [|y l IH]; [reflexivity|].
  cbn [insert_asc]. destruct (Qltb (key y) (key x)) eqn:E; [|reflexivity].
  apply Qltb_lt in E.
  cbn [filter] in *. rewrite IH.
  destruct (same_key key c y) eqn:Ey, (same_key key c x) eqn:Ex; try reflexivity.
  exfalso. unfold same_key in *.
  apply Qeq_bool_iff in Ey, Ex. rewrite Ey, Ex in E.
  exact (Qlt_irrefl _ E).
Qed.

Lemma sort_asc_stable (c : Q) (l : list A) :
  filter (same_key key c) (sort_asc key l) = filter (same_key key c) l.
Proof.
  induction l as [|x l IH]; [reflexivity|].
  cbn [sort_asc]. rewrite insert_asc_stable. cbn [filter].
  now rewrite IH.
Qed.

Lemma sorted_reverse_perm (l : list A) :
  Permutation (sorted_reverse key l) l.
Proof.
  unfold sorted_reverse.
  eapply perm_trans; [apply Permutation_sym, Permutation_rev|].
  eapply perm_trans; [apply sort_asc_perm|].
  apply Permutation_sym, Permutation_rev.
Qed.

Lemma sorted_reverse_sorted (l : list A) :
  StronglySorted (fun a b => key b <= key a) (sorted_reverse key l).
Proof. apply sorted_rev, sort_asc_sorted. Qed.

Lemma sorted_reverse_stable (c : Q) (l : list A) :
  filter (fun a => Qeq_bool (key a) c) (sorted_reverse key l)
  = filter (fun a => Qeq_bool (key a) c) l.
Proof.
  unfold sorted_reverse.
  rewrite filter_rev. fold (same_key key c). rewrite sort_asc_stable.
  rewrite filter_rev. apply rev_involutive.
Qed.

End Sorting.

End SortFacts.

Module RouterFacts.

Import Py PyFacts AgentSelector RouterSpec.
Open Scope Q_scope.

(** ** The scoring loop against the sum over the matched keywords *)

Lemma keyword_step_hit (tl kw : string) (score : Q) (matches : Z) :
  contains kw tl = true ->
  keyword_step tl (score, matches) kw
  = (if String.eqb kw (strip tl) then score + 2.0 else score + 1.0,
     (matches + 1)%Z).
Proof.
  intros H. unfold keyword_step. rewrite H.
  now destruct (String.eqb kw (strip tl)).
Qed.

Lemma keyword_step_miss (tl kw : string) (acc : Q * Z) :
  contains kw tl = false -> keyword_step tl acc kw = acc.
Proof. intros H. unfold keyword_step. destruct acc. now rewrite H. Qed.

Lemma keyword_loop_spec (task : string) (kws : list string) : forall score matches,
  let matched := filter (fun keyword => contains keyword (lower task)) kws in
  let r := fold_left (keyword_step (lower task)) kws (score, matches) in
  fst r == score + Qsum (map (keyword_points task) matched) /\
  snd r = (matches + Z.of_nat (length matched))%Z.
Proof.
  induction kws as [|kw kws IH]; intros score matches; cbn zeta.
  - simpl. split; [ring|lia].
  - cbn [fold_left filter].
    destruct (contains kw (lower task)) eqn:Hc.
    + rewrite (keyword_step_hit _ _ _ _ Hc).
      cbn [map length Qsum].
      unfold keyword_points at 1.
      destruct (String.eqb kw (strip (lower task))) eqn:He.
      * destruct (IH (score + 2.0) (matches + 1)%Z) as [H1 H2].
        cbn zeta in H1, H2. split.
        -- rewrite H1. ring.
        -- rewrite H2. lia.
      * destruct (IH (score + 1.0) (matches + 1)%Z) as [H1 H2].
        cbn zeta in H1, H2. split.
        -- rewrite H1. ring.
        -- rewrite H2. lia.
    + rewrite (keyword_step_miss _ _ _ Hc). apply IH.
Qed.

Lemma agent_score_spec (task : string) (agent : AgentCapability) :
  agent_score (lower task) agent == spec_raw_score task agent.
Proof.
  unfold agent_score, spec_raw_score, matched_keywords.
  destruct (keyword_loop_spec task (keywords agent) 0.0 0%Z) as [H1 H2].
  cbn zeta in H1, H2.
  destruct (fold_left (keyword_step (lower task)) (keywords agent) (0.0, 0%Z))
    as [score matches].
  cbn [fst snd] in H1, H2.
  set (matched := filter (fun keyword => contains keyword (lower task))
                         (keywords agent)) in *.
  assert (Hs : score == Qsum (map (keyword_points task) matched)).
  { rewrite H1. ring. }
  destruct (Z.gtb_spec matches 1) as [Hgt|Hle];
    destruct (Nat.ltb_spec 1 (length matched)) as [Hlt|Hge]; try lia.
  - rewrite Hs. subst matches.
    replace (0 + Z.of_nat (length matched) - 1)%Z
      with (Z.of_nat (length matched) + -1)%Z by lia.
    rewrite inject_Z_plus. ring.
  - now rewrite Hs.
Qed.

(** ** Sign of a raw score *)

Lemma keyword_points_pos (task kw : string) : 0 < keyword_points task kw.
Proof. unfold keyword_points. destruct (String.eqb _ _); reflexivity. Qed.

Lemma Qsum_points_nonneg (task : string) (l : list string) :
  0 <= Qsum (map (keyword_points task) l).
Proof.
  induction l as [|kw l IH]; simpl; [apply Qle_refl|].
  rewrite <- (Qplus_0_r 0). apply Qplus_le_compat; [|exact IH].
  apply Qlt_le_weak, keyword_points_pos.
Qed.

Lemma Qsum_points_pos (task : string) (l : list string) :
  l <> [] -> 0 < Qsum (map (keyword_points task) l).
Proof.
  destruct l as [|kw l]; [congruence|]. intros _. simpl.
  rewrite <- (Qplus_0_r 0). apply Qplus_lt_le_compat.
  - apply keyword_points_pos.
  - apply Qsum_points_nonneg.
Qed.

Lemma bonus_pos (n : nat) : (1 < n)%nat ->
  0 < 1 + 0.2 * (inject_Z (Z.of_nat n) - 1).
Proof.
  intros Hn.
  assert (H : 1 <= inject_Z (Z.of_nat n)).
  { change 1 with (inject_Z 1). rewrite <- Zle_Qle. lia. }
  apply Qlt_le_trans with (y := 1); [reflexivity|].
  rewrite <- (Qplus_0_r 1) at 1. apply Qplus_le_compat; [apply Qle_refl|].
  apply Qmult_le_0_compat; [discriminate|].
  unfold Qminus. rewrite <- (Qplus_opp_r 1).
  apply Qplus_le_compat; [exact H|apply Qle_refl].
Qed.

Lemma spec_raw_score_pos (task : string) (agent : AgentCapability) :
  (0 < priority_score agent)%Z -> matched_keywords task agent <> [] ->
  0 < spec_raw_score task agent.
Proof.
  intros Hw Hm. unfold spec_raw_score.
  assert (Hweighted : 0 < Qsum (map (keyword_points task) (matched_keywords task agent))
                          * inject_Z (priority_score agent)).
  { apply Qmult_lt_0_compat; [now apply Qsum_points_pos|].
    change 0 with (inject_Z 0). now rewrite <- Zlt_Qlt. }
  destruct (Nat.ltb_spec 1 (length (matched_keywords task agent))) as [Hlt|Hge].
  - apply Qmult_lt_0_compat; [exact Hweighted|now apply bonus_pos].
  - exact Hweighted.
Qed.

Lemma spec_raw_score_zero (task : string) (agent : AgentCapability) :
  matched_keywords task agent = [] -> spec_raw_score task agent == 0.
Proof.
  intros Hm. unfold spec_raw_score. rewrite Hm. simpl. ring.
Qed.

Lemma matched_keywords_nil (task : string) (agent : AgentCapability) :
  matched_keywords task agent = [] <->
  existsb (fun keyword => contains keyword (lower task)) (keywords agent) = false.
Proof.
  unfold matched_keywords.
  induction (keywords agent) as [|kw l IH]; simpl; [tauto|].
  destruct (contains kw (lower task)); simpl; [split; discriminate|exact IH].
Qed.

Lemma agent_score_nonneg (task : string) (agent : AgentCapability) :
  (0 < priority_score agent)%Z -> 0 <= agent_score (lower task) agent.
Proof.
  intros Hw. rewrite agent_score_spec.
  destruct (matched_keywords task agent) eqn:E.
  - rewrite (spec_raw_score_zero _ _ E). apply Qle_refl.
  - apply Qlt_le_weak, spec_raw_score_pos; [exact Hw|congruence].
Qed.

(** ** The dictionary built by the outer loop *)

Lemma raw_scores_loop (tl : string) (l : list (string * AgentCapability)) :
  forall acc : dict Q,
  NoDup (keys acc ++ keys l) ->
  fold_left
    (fun scores '(agent_name, agent) =>
       dict_set agent_name (agent_score tl agent) scores) l acc
  = (acc ++ map (fun '(agent_name, agent) => (agent_name, agent_score tl agent)) l)%list.
Proof.
  induction l as [|[k a] l IH]; intros acc Hnd; simpl.
  - now rewrite app_nil_r.
  - assert (Hfresh : ~ In k (keys acc)).
    { simpl in Hnd. apply NoDup_remove_2 in Hnd.
      intros H. apply Hnd. apply in_or_app. now left. }
    rewrite dict_set_fresh by exact Hfresh.
    rewrite IH.
    + now rewrite <- app_assoc.
    + unfold keys in *. rewrite map_app. simpl in *.
      rewrite <- app_assoc. exact Hnd.
Qed.

Lemma raw_scores_map (self : AgentSelector.t) (task : string) :
  NoDup (keys (agents self)) ->
  raw_scores self task
  = map (fun '(agent_name, agent) => (agent_name, agent_score (lower task) agent))
        (agents self).
Proof.
  intros Hnd. unfold raw_scores, items.
  now rewrite raw_scores_loop.
Qed.

Lemma keys_raw_scores (self : AgentSelector.t) (task : string) :
  NoDup (keys (agents self)) -> keys (raw_scores self task) = keys (agents self).
Proof.
  intros Hnd. rewrite raw_scores_map by exact Hnd.
  unfold keys. rewrite map_map. apply map_ext. now intros [k a].
Qed.

Lemma raw_scores_nonneg (self : AgentSelector.t) (task : string) :
  wf_catalog self -> Forall (fun kv => 0 <= snd kv) (raw_scores self task).
Proof.
  intros [Hnd Hw]. rewrite raw_scores_map by exact Hnd.
  apply Forall_forall. intros [k v] Hin.
  apply in_map_iff in Hin. destruct Hin as ([k' a] & Heq & Hin).
  inversion Heq; subst. simpl.
  apply agent_score_nonneg.
  rewrite Forall_forall in Hw. apply Hw.
  unfold values. change a with (snd (k, a)). now apply in_map.
Qed.

Lemma raw_scores_matched (self : AgentSelector.t) (task : string) :
  wf_catalog self -> any_keyword_matched self task = true ->
  Exists (fun kv => 0 < snd kv) (raw_scores self task).
Proof.
  intros [Hnd Hw] Hany. rewrite raw_scores_map by exact Hnd.
  unfold any_keyword_matched, items in Hany.
  apply existsb_exists in Hany. destruct Hany as ([k a] & Hin & Hex).
  apply Exists_exists. exists (k, agent_score (lower task) a). split.
  - apply in_map_iff. exists (k, a). auto.
  - simpl. rewrite agent_score_spec. apply spec_raw_score_pos.
    + rewrite Forall_forall in Hw. apply Hw.
      unfold values. change a with (snd (k, a)). now apply in_map.
    + intros Hnil. apply matched_keywords_nil in Hnil. congruence.
Qed.

Lemma raw_scores_unmatched (self : AgentSelector.t) (task : string) :
  NoDup (keys (agents self)) -> any_keyword_matched self task = false ->
  Forall (fun kv => snd kv == 0) (raw_scores self task).
Proof.
  intros Hnd Hany. rewrite raw_scores_map by exact Hnd.
  apply Forall_forall. intros [k v] Hin.
  apply in_map_iff in Hin. destruct Hin as ([k' a] & Heq & Hin).
  inversion Heq; subst. simpl.
  rewrite agent_score_spec. apply spec_raw_score_zero.
  apply matched_keywords_nil.
  unfold any_keyword_matched, items in Hany.
  destruct (existsb _ (keywords a)) eqn:E; [|reflexivity].
  exfalso. apply not_true_iff_false in Hany. apply Hany.
  apply existsb_exists. eexists. split; [exact Hin|exact E].
Qed.

(** ** Normalization *)

Lemma truediv_nonzero (x y : Q) : 0 < y -> truediv x y = Ok (x / y).
Proof.
  intros Hy. unfold truediv.
  destruct (Qeq_bool y 0) eqn:E; [|reflexivity].
  apply Qeq_bool_iff in E. rewrite E in Hy.
  exfalso. exact (Qlt_irrefl _ Hy).
Qed.

Lemma divide_scores_nonzero (max_score : Q) (l : list (string * Q)) :
  0 < max_score ->
  divide_scores max_score l = Ok (map (fun '(k, v) => (k, v / max_score)) l).
Proof.
  intros Hpos. induction l as [|[k v] l IH]; [reflexivity|].
  cbn [divide_scores map]. now rewrite (truediv_nonzero v Hpos), IH.
Qed.

Lemma normalize_checked_unfold (scores : dict Q) :
  normalize_checked scores
  = Ok (if Qltb 0 (max_score scores)
        then map (fun '(k, v) => (k, v / max_score scores)) scores
        else scores).
Proof.
  unfold normalize_checked, items. cbn zeta.
  destruct (Qltb 0 (max_score scores)) eqn:E; [|reflexivity].
  apply Qltb_lt in E. now apply divide_scores_nonzero.
Qed.

Lemma normalize_unfold (scores : dict Q) :
  normalize scores
  = if Qltb 0 (max_score scores)
    then map (fun '(k, v) => (k, v / max_score scores)) scores
    else scores.
Proof. unfold normalize. now rewrite normalize_checked_unfold. Qed.

(** The division of line 114 is only reached with a positive divisor:
    the normalization returns, for every dictionary of scores. *)
Lemma normalize_checked_returns (scores : dict Q) :
  normalize_checked scores = Ok (normalize scores).
Proof. now rewrite normalize_checked_unfold, normalize_unfold. Qed.

Lemma analyze_task_checked_returns (self : AgentSelector.t) (task : string) :
  analyze_task_checked self task = Ok (analyze_task self task).
Proof. apply normalize_checked_returns. Qed.

(** The two callers of [analyze_task], once it has returned. *)
Lemma select_best_agent_unfold (self : AgentSelector.t) (task : string)
      (threshold : Q) :
  select_best_agent self task threshold
  = let scores := analyze_task self task in
    match max_key (fun k => getitem scores k) (keys scores) with
    | Raise e => Raise e
    | Ok best_agent =>
        match getitem scores best_agent with
        | Raise e => Raise e
        | Ok best_score =>
            if Qltb best_score threshold
            then Ok ("manus", best_score, scores)
            else Ok (best_agent, best_score, scores)
        end
    end.
Proof.
  unfold select_best_agent. now rewrite analyze_task_checked_returns.
Qed.

Lemma get_agent_suggestions_unfold (self : AgentSelector.t) (task : string)
      (top_n : Z) :
  get_agent_suggestions self task top_n
  = let scores := analyze_task self task in
    let sorted_agents := sorted_reverse snd (items scores) in
    build_suggestions self (slice_to sorted_agents top_n).
Proof.
  unfold get_agent_suggestions. now rewrite analyze_task_checked_returns.
Qed.

Lemma max_score_upper (scores : dict Q) (v : Q) :
  In v (values scores) -> v <= max_score scores.
Proof.
  unfold max_score. destruct (values scores) as [|v0 vs]; [contradiction|].
  intros Hin. exact (@max_loop_upper _ (fun x => x) vs v0 v Hin).
Qed.

Lemma max_score_in (scores : dict Q) :
  scores <> [] -> In (max_score scores) (values scores).
Proof.
  unfold max_score. destruct scores as [|[k v] d]; [congruence|].
  intros _. simpl. apply (@max_loop_in _ (fun x => x)).
Qed.

Lemma keys_normalize (scores : dict Q) : keys (normalize scores) = keys scores.
Proof.
  rewrite normalize_unfold. destruct (Qltb 0 (max_score scores)); [|reflexivity].
  unfold keys. rewrite map_map. apply map_ext. now intros [k v].
Qed.

Lemma normalize_bounds (scores : dict Q) :
  Forall (fun kv => 0 <= snd kv) scores ->
  Forall (fun kv => 0 <= snd kv /\ snd kv <= 1) (normalize scores).
Proof.
  intros Hnn. rewrite normalize_unfold.
  destruct (Qltb 0 (max_score scores)) eqn:E.
  - apply Qltb_lt in E. apply Forall_forall. intros [k c] Hin.
    apply in_map_iff in Hin. destruct Hin as ([k' v] & Heq & Hin).
    inversion Heq; subst. simpl.
    rewrite Forall_forall in Hnn. specialize (Hnn _ Hin). simpl in Hnn.
    split.
    + apply Qle_shift_div_l; [exact E|]. now rewrite Qmult_0_l.
    + apply Qle_shift_div_r; [exact E|]. rewrite Qmult_1_l.
      apply max_score_upper. eapply in_values; eassumption.
  - apply Qltb_ge in E. apply Forall_forall. intros [k v] Hin.
    rewrite Forall_forall in Hnn. specialize (Hnn _ Hin). simpl in *.
    split; [exact Hnn|].
    apply Qle_trans with (y := max_score scores).
    + apply max_score_upper. eapply in_values; eassumption.
    + apply Qle_trans with (y := 0); [exact E|discriminate].
Qed.

Lemma normalize_one (scores : dict Q) :
  Exists (fun kv => 0 < snd kv) scores ->
  Exists (fun kv => snd kv == 1) (normalize scores).
Proof.
  intros Hex. apply Exists_exists in Hex. destruct Hex as ([k v] & Hin & Hpos).
  simpl in Hpos.
  assert (Hmax : 0 < max_score scores).
  { apply Qlt_le_trans with (y := v); [exact Hpos|].
    apply max_score_upper. eapply in_values; eassumption. }
  rewrite normalize_unfold.
  destruct (Qltb 0 (max_score scores)) eqn:E;
    [|apply Qltb_ge in E; exfalso; exact (Qlt_not_le _ _ Hmax E)].
  assert (Hne : scores <> []) by (intros ->; contradiction).
  pose proof (max_score_in Hne) as Hmin.
  unfold values in Hmin. apply in_map_iff in Hmin.
  destruct Hmin as ([k' m] & Hm & Hin'). simpl in Hm.
  apply Exists_exists. exists (k', m / max_score scores). split.
  - apply in_map_iff. exists (k', m). auto.
  - simpl. rewrite Hm. apply Qmult_inv_r.
    intros H0. rewrite H0 in Hmax. exact (Qlt_irrefl _ Hmax).
Qed.

Lemma normalize_zero (scores : dict Q) :
  Forall (fun kv => snd kv == 0) scores -> normalize scores = scores.
Proof.
  intros Hz. rewrite normalize_unfold.
  destruct (Qltb 0 (max_score scores)) eqn:E; [|reflexivity].
  apply Qltb_lt in E. destruct scores as [|kv d]; [reflexivity|].
  exfalso.
  assert (Hne : kv :: d <> []) by discriminate.
  pose proof (max_score_in Hne) as Hmin.
  unfold values in Hmin. apply in_map_iff in Hmin.
  destruct Hmin as (kv' & Hm & Hin').
  rewrite Forall_forall in Hz. specialize (Hz _ Hin').
  rewrite Hm in Hz. rewrite Hz in E. exact (Qlt_irrefl _ E).
Qed.

(** ** The catalog of the program *)

Lemma init_wf : wf_catalog init.
Proof.
  split.
  - simpl. repeat constructor; simpl; intuition discriminate.
  - simpl. repeat constructor.
Qed.

Lemma keys_analyze_task (self : AgentSelector.t) (task : string) :
  NoDup (keys (agents self)) -> keys (analyze_task self task) = keys (agents self).
Proof.
  intros Hnd. unfold analyze_task. rewrite keys_normalize.
  now apply keys_raw_scores.
Qed.

End RouterFacts.

Module Router.

Import Py PyFacts SortFacts AgentSelector RouterSpec RouterFacts.
Open Scope string_scope.
Open Scope Q_scope.

(** ** Helper lemmas on the selection *)

Lemma max_confidence_unique (d : dict Q) (c c' : Q) :
  is_max_confidence d c -> is_max_confidence d c' -> c == c'.
Proof.
  intros [Hin Hup] [Hin' Hup']. rewrite Forall_forall in Hup, Hup'.
  apply Qle_antisym; auto.
Qed.

Lemma best_of_scores (d : dict Q) :
  NoDup (keys d) -> d <> [] ->
  exists k c,
    max_key (fun k => getitem d k) (keys d) = Ok k /\
    getitem d k = Ok c /\ is_max_confidence d c.
Proof.
  intros Hnd Hne. destruct d as [|[k0 v0] d']; [congruence|].
  set (d := (k0, v0) :: d') in *.
  set (key := fun k => match getitem d k with Ok v => v | Raise _ => 0 end).
  assert (Hkey : forall k, In k (keys d) -> getitem d k = Ok (key k)).
  { intros k Hk. destruct (getitem_key d k Hk) as (v & Hv & _).
    unfold key. now rewrite Hv. }
  change (keys d) with (k0 :: keys d') in *.
  rewrite (max_key_pure (fun k => getitem d k) key Hkey).
  set (r := max_loop key k0 (keys d')).
  assert (Hr : In r (k0 :: keys d')) by apply max_loop_in.
  destruct (getitem_key d r Hr) as (c & Hc & Hin).
  exists r, c. repeat split; try assumption.
  - eapply in_values; eassumption.
  - apply Forall_forall. intros v Hv.
    unfold values in Hv. apply in_map_iff in Hv.
    destruct Hv as ([k v'] & Hv & Hkv). simpl in Hv. subst v'.
    assert (Hkeyk : key k = v).
    { unfold key. now rewrite (@getitem_in _ d k v Hnd Hkv). }
    assert (Hkeyr : key r = c) by (unfold key; now rewrite Hc).
    rewrite <- Hkeyk, <- Hkeyr. apply max_loop_upper.
    change (k0 :: keys d') with (keys d). eapply in_keys; eassumption.
Qed.

Lemma analyze_task_nonempty (task : string) : analyze_task init task <> [].
Proof.
  intros H. pose proof (keys_analyze_task init task (proj1 init_wf)) as Hk.
  rewrite H in Hk. discriminate Hk.
Qed.

Lemma analyze_task_nodup (task : string) : NoDup (keys (analyze_task init task)).
Proof.
  rewrite (keys_analyze_task init task (proj1 init_wf)). exact (proj1 init_wf).
Qed.

(** ** Helper lemmas on the suggestions *)

Lemma build_suggestions_ok (self : AgentSelector.t) (l : list (string * Q)) :
  (forall k c, In (k, c) l -> In k (keys (agents self))) ->
  exists suggestions,
    build_suggestions self l = Ok suggestions /\
    map fst suggestions = l /\
    Forall (fun s => exists agent,
                getitem (agents self) (fst (fst s)) = Ok agent /\
                snd s = description agent) suggestions.
Proof.
  induction l as [|[k c] l IH]; intros Hkeys.
  - exists []. simpl. auto.
  - destruct (getitem_key (agents self) k (Hkeys k c (or_introl eq_refl)))
      as (agent & Hget & _).
    destruct IH as (sugg & Hb & Hm & Hd).
    { intros k' c' Hin. eapply Hkeys. right. exact Hin. }
    exists ((k, c, description agent) :: sugg).
    cbn [build_suggestions]. rewrite Hget, Hb. repeat split.
    + simpl. now rewrite Hm.
    + constructor; [|exact Hd]. exists agent. auto.
Qed.

Lemma slice_to_nonneg {A} (l : list A) (n : Z) :
  (0 <= n)%Z -> slice_to l n = firstn (Z.to_nat n) l.
Proof.
  intros Hn. unfold slice_to.
  destruct (Z.ltb_spec n 0); [lia|reflexivity].
Qed.

Lemma sorted_reverse_stable_descending (d : list (string * Q)) :
  stable_descending d (sorted_reverse snd d).
Proof.
  repeat split.
  - apply sorted_reverse_perm.
  - apply sorted_reverse_sorted.
  - intros c. apply sorted_reverse_stable.
Qed.

(** ** Helper lemmas on an input that matches no keyword *)

Lemma keyword_loop_unmatched (tl : string) (kws : list string) (acc : Q * Z) :
  existsb (fun keyword => contains keyword tl) kws = false ->
  fold_left (keyword_step tl) kws acc = acc.
Proof.
  revert acc. induction kws as [|kw kws IH]; intros acc H; [reflexivity|].
  simpl in H. apply orb_false_iff in H. destruct H as [H1 H2].
  cbn [fold_left]. rewrite (keyword_step_miss _ _ _ H1). now apply IH.
Qed.

Lemma agent_score_unmatched (tl : string) (agent : AgentCapability) :
  existsb (fun keyword => contains keyword tl) (keywords agent) = false ->
  agent_score tl agent = 0.0 * inject_Z (priority_score agent).
Proof.
  intros H. unfold agent_score. now rewrite keyword_loop_unmatched.
Qed.

Lemma select_best_agent_total (task : string) (threshold : Q) :
  exists selected confidence,
    select_best_agent init task threshold
    = Ok (selected, confidence, analyze_task init task).
Proof.
  destruct (best_of_scores (analyze_task_nodup task) (analyze_task_nonempty task))
    as (k & c & Hk & Hget & _).
  rewrite select_best_agent_unfold. cbn zeta. rewrite Hk, Hget.
  destruct (Qltb c threshold); eauto.
Qed.

(** ** The claims on the router *)

(** C1.  For every input text, the raw score that the scoring loop of
    [analyze_task] computes for a handler profile is the sum, over the
    profile's keywords that occur in the lower-cased input, of 2 for the
    keyword equal to the whole trimmed lower-cased input and 1 for any
    other, multiplied by the priority weight, and multiplied by
    [1 + 0.2 * (matchCount - 1)] when more than one keyword matched; and
    the dictionary [scores] holds exactly these values, one per profile
    of the catalog, in catalog order. *)
Theorem raw_score_is_weighted_keyword_sum (task : string) :
  (forall agent : AgentCapability,
      agent_score (lower task) agent == spec_raw_score task agent) /\
  Forall2 (fun profile entry =>
             fst entry = fst profile /\
             snd entry == spec_raw_score task (snd profile))
          (agents init) (raw_scores init task).
Proof.
  split; [intros agent; apply agent_score_spec|].
  rewrite (raw_scores_map init task (proj1 init_wf)).
  induction (agents init) as [|[k a] l IH]; simpl; constructor.
  - simpl. split; [reflexivity|apply agent_score_spec].
  - exact IH.
Qed.

(** C2.  When the maximum confidence of the distribution returned by
    [analyze_task] is strictly below the threshold, [select_best_agent]
    returns the identifier ["manus"], together with that maximum itself
    and with the distribution unchanged. *)
Theorem below_threshold_selects_manus (task : string) (threshold c : Q) :
  is_max_confidence (analyze_task init task) c ->
  c < threshold ->
  exists c',
    select_best_agent init task threshold
    = Ok ("manus", c', analyze_task init task) /\
    is_max_confidence (analyze_task init task) c' /\
    c' == c.
Proof.
  intros Hmax Hlt.
  destruct (best_of_scores (analyze_task_nodup task) (analyze_task_nonempty task))
    as (k & c' & Hk & Hget & Hmax').
  exists c'. rewrite select_best_agent_unfold. cbn zeta. rewrite Hk, Hget.
  assert (Heq : c' == c) by (eapply max_confidence_unique; eassumption).
  assert (E : Qltb c' threshold = true).
  { apply Qltb_lt. now rewrite Heq. }
  rewrite E. auto.
Qed.

Lemma below_threshold_selects_manus_witness :
  is_max_confidence (analyze_task init "") 0.0 /\
  0.0 < default_threshold /\
  exists c',
    select_best_agent init "" default_threshold = Ok ("manus", c', analyze_task init "") /\
    is_max_confidence (analyze_task init "") c' /\
    c' == 0.0.
Proof.
  assert (H1 : is_max_confidence (analyze_task init "") 0.0).
  { split; [vm_compute; auto|].
    vm_compute. repeat constructor; discriminate. }
  assert (H2 : 0.0 < default_threshold) by reflexivity.
  split; [exact H1|]. split; [exact H2|].
  exact (@below_threshold_selects_manus "" default_threshold 0.0 H1 H2).
Defined.

(** C3.  [analyze_task] returns for every text, without
    [ZeroDivisionError]: the scores are divided by their maximum only
    when it is positive.  Every confidence it returns lies in [0,1].
    When some keyword matched, some raw score is positive and some
    handler has confidence 1; otherwise every raw score is zero, the
    maximum is zero, the division is not performed and every confidence
    is zero. *)
Theorem confidences_normalized (task : string) :
  analyze_task_checked init task = Ok (analyze_task init task) /\
  Forall (fun kv => 0 <= snd kv /\ snd kv <= 1) (analyze_task init task) /\
  if any_keyword_matched init task
  then Exists (fun kv => 0 < snd kv) (raw_scores init task) /\
       Exists (fun kv => snd kv == 1) (analyze_task init task)
  else Forall (fun kv => snd kv == 0) (raw_scores init task) /\
       Forall (fun kv => snd kv == 0) (analyze_task init task) /\
       analyze_task init task = raw_scores init task.
Proof.
  split; [apply analyze_task_checked_returns|]. split.
  - apply normalize_bounds, raw_scores_nonneg, init_wf.
  - destruct (any_keyword_matched init task) eqn:E.
    + pose proof (@raw_scores_matched init task init_wf E) as Hpos.
      split; [exact Hpos|]. now apply normalize_one.
    + pose proof (@raw_scores_unmatched init task (proj1 init_wf) E) as Hz.
      split; [exact Hz|]. unfold analyze_task.
      rewrite (normalize_zero Hz). split; [exact Hz|reflexivity].
Qed.

(** The guard of line 113 is what keeps the division from failing: on a
    text without any keyword the maximum of the raw scores is zero, and
    the comprehension of line 114, were it evaluated, would raise. *)
Example unguarded_division_raises :
  let scores := raw_scores init "zzz" in
  Qeq_bool (max_score scores) 0 = true /\
  divide_scores (max_score scores) (items scores) = Raise ZeroDivisionError /\
  analyze_task_checked init "zzz" = Ok scores.
Proof. vm_compute. repeat split. Qed.

(** C4.  For [top_n >= 0], [get_agent_suggestions] returns at most
    [top_n] triples: the first [top_n] items of the distribution listed
    by non-increasing confidence, items of equal confidence in catalog
    order, each with the description the catalog gives for its name. *)
Theorem suggestions_are_top_n (task : string) (top_n : Z) :
  (0 <= top_n)%Z ->
  exists ranking suggestions,
    get_agent_suggestions init task top_n = Ok suggestions /\
    keys (analyze_task init task) = keys (agents init) /\
    stable_descending (items (analyze_task init task)) ranking /\
    map fst suggestions = firstn (Z.to_nat top_n) ranking /\
    (Z.of_nat (length suggestions) <= top_n)%Z /\
    StronglySorted (fun s s' => snd (fst s') <= snd (fst s)) suggestions /\
    Forall (fun s => exists agent,
                getitem (agents init) (fst (fst s)) = Ok agent /\
                snd s = description agent) suggestions.
Proof.
  intros Hn.
  set (d := analyze_task init task).
  set (ranking := sorted_reverse snd (items d)).
  pose proof (sorted_reverse_stable_descending (items d)) as Hst.
  fold ranking in Hst.
  pose proof (keys_analyze_task init task (proj1 init_wf)) as Hkeys.
  fold d in Hkeys.
  destruct (@build_suggestions_ok init (firstn (Z.to_nat top_n) ranking))
    as (sugg & Hb & Hm & Hd).
  { intros k c Hin. rewrite <- Hkeys.
    apply (@in_keys _ d k c).
    destruct Hst as (Hperm & _).
    eapply Permutation_in; [exact Hperm|].
    rewrite <- (firstn_skipn (Z.to_nat top_n) ranking).
    apply in_or_app. now left. }
  exists ranking, sugg. repeat split.
  - rewrite get_agent_suggestions_unfold. cbn zeta. fold d. fold ranking.
    now rewrite slice_to_nonneg.
  - exact Hkeys.
  - apply Hst.
  - apply Hst.
  - apply Hst.
  - exact Hm.
  - rewrite <- (length_map fst sugg), Hm.
    pose proof (firstn_le_length (Z.to_nat top_n) ranking). lia.
  - assert (Hs : StronglySorted (fun x y => snd y <= snd x) (map fst sugg)).
    { rewrite Hm. apply sorted_firstn. apply Hst. }
    clear - Hs. induction sugg as [|s sugg IH]; [constructor|].
    simpl in Hs. apply StronglySorted_inv in Hs. destruct Hs as [Hs Hall].
    constructor; [now apply IH|].
    rewrite Forall_map in Hall. exact Hall.
  - exact Hd.
Qed.

Lemma suggestions_are_top_n_witness :
  (0 <= default_top_n)%Z /\
  exists ranking suggestions,
    get_agent_suggestions init "Help me scrape a website and analyze sales charts"
                          default_top_n = Ok suggestions /\
    keys (analyze_task init "Help me scrape a website and analyze sales charts")
    = keys (agents init) /\
    stable_descending
      (items (analyze_task init "Help me scrape a website and analyze sales charts"))
      ranking /\
    map fst suggestions = firstn (Z.to_nat default_top_n) ranking /\
    (Z.of_nat (length suggestions) <= default_top_n)%Z /\
    StronglySorted (fun s s' => snd (fst s') <= snd (fst s)) suggestions /\
    Forall (fun s => exists agent,
                getitem (agents init) (fst (fst s)) = Ok agent /\
                snd s = description agent) suggestions.
Proof.
  assert (H : (0 <= default_top_n)%Z) by (unfold default_top_n; lia).
  split; [exact H|].
  exact (@suggestions_are_top_n
           "Help me scrape a website and analyze sales charts" default_top_n H).
Defined.

(** C10.  When no keyword of any profile occurs in the lower-cased input,
    [analyze_task] maps every handler to 0.0 and [select_best_agent]
    returns ["manus"], the first handler of the catalog, with confidence
    0.0, whatever the threshold. *)
Theorem no_match_falls_back_to_manus (task : string) (threshold : Q) :
  any_keyword_matched init task = false ->
  analyze_task init task
  = [("manus", 0.0); ("browser", 0.0); ("data", 0.0); ("swe", 0.0)] /\
  select_best_agent init task threshold
  = Ok ("manus", 0.0, [("manus", 0.0); ("browser", 0.0); ("data", 0.0); ("swe", 0.0)]).
Proof.
  intros Hany.
  assert (Hd : analyze_task init task
               = [("manus", 0.0); ("browser", 0.0); ("data", 0.0); ("swe", 0.0)]).
  { unfold analyze_task.
    rewrite (raw_scores_map init task (proj1 init_wf)).
    unfold any_keyword_matched, items in Hany.
    cbn [agents init existsb] in Hany.
    repeat (apply orb_false_iff in Hany; destruct Hany as [? Hany]).
    cbn [agents init map].
    rewrite !agent_score_unmatched by assumption.
    reflexivity. }
  split; [exact Hd|].
  rewrite select_best_agent_unfold. cbn zeta. rewrite Hd.
  cbn. destruct (Qltb 0.0 threshold); reflexivity.
Qed.

Lemma no_match_falls_back_to_manus_witness :
  any_keyword_matched init "" = false /\
  analyze_task init ""
  = [("manus", 0.0); ("browser", 0.0); ("data", 0.0); ("swe", 0.0)] /\
  select_best_agent init "" default_threshold
  = Ok ("manus", 0.0, [("manus", 0.0); ("browser", 0.0); ("data", 0.0); ("swe", 0.0)]).
Proof.
  assert (H : any_keyword_matched init "" = false) by reflexivity.
  split; [exact H|].
  exact (@no_match_falls_back_to_manus "" default_threshold H).
Defined.

End Router.

(* ================================================================== *)
(** * Properties of the connection hub *)
(* ================================================================== *)

Module HubFacts.

Import Py Hub HubSpec RealBackendFixed.
Open Scope string_scope.
Open Scope hub_scope.

Lemma after_nil (s : state) : after s [] = s.
Proof. destruct s. unfold after. simpl. now rewrite app_nil_r. Qed.

Lemma after_after (s : state) (a b : list effect) :
  after (after s a) b = after s (a ++ b).
Proof. unfold after. simpl. now rewrite app_assoc. Qed.

Lemma emit_run (e : effect) (s : state) : emit e s = (Return tt, after s [e]).
Proof. reflexivity. Qed.

Lemma log_run (level : log_level) (text : string) (s : state) :
  log level text s = (Return tt, after s [Logged level text]).
Proof. reflexivity. Qed.

(** ** A guarded send *)

Lemma safe_send_run (net : transport) (ws : WebSocket) (m : event) (s : state) :
  safe_send_to_client net ws m s
  = (Return (send_ok net m ws), after s (send_events net m ws)).
Proof.
  unfold safe_send_to_client, try_except, send_text, send_ok, send_events, bind.
  destruct (net ws m) as [e|]; [|reflexivity].
  destruct e; cbn; unfold after; cbn; now rewrite <- app_assoc.
Qed.

Lemma send_events_are_sends (net : transport) (m : event) (ws : WebSocket) :
  forallb is_send_effect (send_events net m ws) = true.
Proof.
  unfold send_events. destruct (net ws m) as [e|]; [destruct e|]; reflexivity.
Qed.

(** ** The two loops of [broadcast_to_clients] *)

Lemma send_loop_run (net : transport) (m : event) (clients : list WebSocket) :
  forall (disconnected : list WebSocket) (s : state),
    for_each clients
      (fun client disconnected =>
         success <- safe_send_to_client net client m ;;
         if success then ret disconnected
         else ret (disconnected ++ [client])%list)
      disconnected s
    = (Return (disconnected
                 ++ filter (fun ws => negb (send_ok net m ws)) clients)%list,
       after s (flat_map (send_events net m) clients)).
Proof.
  induction clients as [|c clients IH]; intros disconnected s.
  - simpl. unfold ret. now rewrite app_nil_r, after_nil.
  - cbn [for_each flat_map filter]. unfold bind at 1.
    unfold bind at 1. rewrite safe_send_run.
    destruct (send_ok net m c); cbn [negb]; unfold ret at 1;
      rewrite IH, after_after; [reflexivity|].
    now rewrite <- app_assoc.
Qed.

Lemma mem_in (ws : WebSocket) (l : list WebSocket) : mem ws l = true <-> In ws l.
Proof.
  unfold mem. rewrite existsb_exists. split.
  - intros (x & Hin & Heq). apply Nat.eqb_eq in Heq. now subst.
  - intros Hin. exists ws. split; [exact Hin|apply Nat.eqb_refl].
Qed.

Lemma mem_middle (ws : WebSocket) (p l : list WebSocket) :
  mem ws (p ++ ws :: l) = true.
Proof. apply mem_in, in_elt. Qed.

Lemma remove_first_middle (ws : WebSocket) (p l : list WebSocket) :
  ~ In ws p -> remove_first ws (p ++ ws :: l) = (p ++ l)%list.
Proof.
  induction p as [|x p IH]; intros Hnotin; simpl.
  - now rewrite Nat.eqb_refl.
  - destruct (Nat.eqb_spec ws x) as [->|Hne].
    + exfalso. apply Hnotin. now left.
    + rewrite IH; [reflexivity|]. intros H. apply Hnotin. now right.
Qed.

Lemma bind_return {A B} (c : M A) (k : A -> M B) (s s' : state) (a : A) :
  c s = (Return a, s') -> bind c k s = k a s'.
Proof. intros H. unfold bind. now rewrite H. Qed.

Lemma bind_throw {A B} (c : M A) (k : A -> M B) (s s' : state) (e : exn) :
  c s = (Throw e, s') -> bind c k s = (Throw e, s').
Proof. intros H. unfold bind. now rewrite H. Qed.

Lemma bind_suspended {A B} (c : M A) (k : A -> M B) (s s' : state) :
  c s = (Suspended, s') -> bind c k s = (Suspended, s').
Proof. intros H. unfold bind. now rewrite H. Qed.

Lemma remove_client_run (ws : WebSocket) (s : state) :
  mem ws (connected_clients s) = true ->
  remove_client ws s
  = (Return tt,
     after (with_clients s (remove_first ws (connected_clients s))) [Removed ws]).
Proof.
  intros H. unfold remove_client.
  erewrite bind_return by reflexivity.
  rewrite H. reflexivity.
Qed.

Lemma evict_one_run (ws : WebSocket) (s : state) :
  mem ws (connected_clients s) = true ->
  (live <- get_clients ;;
   if mem ws live
   then remove_client ws ;; log INFO "Removed disconnected client"
   else ret tt) s
  = (Return tt,
     after (with_clients s (remove_first ws (connected_clients s)))
           (eviction_events ws)).
Proof.
  intros H.
  erewrite bind_return by reflexivity.
  rewrite H.
  erewrite bind_return by (apply remove_client_run; exact H).
  rewrite log_run, after_after. reflexivity.
Qed.

Lemma evict_loop_run (net : transport) (m : event) (l : list WebSocket) :
  forall (p : list WebSocket) (s : state),
    Forall (fun ws => send_ok net m ws = true) p ->
    connected_clients s = (p ++ l)%list ->
    for_each (filter (fun ws => negb (send_ok net m ws)) l)
      (fun client _ =>
         live <- get_clients ;;
         if mem client live
         then remove_client client ;;
              log INFO "Removed disconnected client"
         else ret tt)
      tt s
    = (Return tt,
       after (with_clients s (p ++ filter (send_ok net m) l))
             (flat_map eviction_events
                       (filter (fun ws => negb (send_ok net m ws)) l))).
Proof.
  induction l as [|c l IH]; intros p s Hp Hs.
  - simpl. unfold ret. rewrite after_nil. unfold with_clients.
    rewrite <- Hs. now destruct s.
  - cbn [filter]. destruct (send_ok net m c) eqn:Hc; cbn [negb].
    + rewrite (IH (p ++ [c])%list s).
      * now rewrite <- app_assoc.
      * apply Forall_app. split; [exact Hp|]. now constructor.
      * now rewrite <- app_assoc.
    + cbn [for_each flat_map].
      assert (Hnotin : ~ In c p).
      { intros Hin. rewrite Forall_forall in Hp.
        specialize (Hp _ Hin). congruence. }
      assert (Hmem : mem c (connected_clients s) = true).
      { rewrite Hs. apply mem_middle. }
      erewrite bind_return by (apply evict_one_run; exact Hmem).
      rewrite Hs, (@remove_first_middle c p l Hnotin).
      rewrite (IH p (after (with_clients s (p ++ l)) (eviction_events c)) Hp eq_refl).
      unfold after, with_clients. cbn [connected_clients tasks trace].
      now rewrite <- app_assoc.
Qed.

Lemma broadcast_run (net : transport) (m : event) (s : state) :
  broadcast_to_clients net m s
  = (Return tt,
     after (with_clients s (filter (send_ok net m) (connected_clients s)))
           (flat_map (send_events net m) (connected_clients s)
            ++ flat_map eviction_events
                 (filter (fun ws => negb (send_ok net m ws))
                         (connected_clients s)))).
Proof.
  unfold broadcast_to_clients. unfold bind at 1. unfold get_clients at 1.
  destruct (connected_clients s) as [|c l] eqn:Hl.
  - unfold ret. simpl. unfold after, with_clients. simpl.
    rewrite app_nil_r, <- Hl. now destruct s.
  - unfold bind at 1. rewrite send_loop_run. cbn [app].
    rewrite (@evict_loop_run net m (c :: l) [] _ (Forall_nil _)).
    + unfold after, with_clients. cbn [connected_clients tasks trace app].
      now rewrite <- app_assoc.
    + simpl. exact Hl.
Qed.

(** ** [main.py]: disconnect and the read loop *)

Lemma remove_first_absent (ws : WebSocket) (l : list WebSocket) :
  mem ws l = false -> remove_first ws l = l.
Proof.
  induction l as [|x l IH]; simpl; [reflexivity|].
  intros H. apply orb_false_iff in H. destruct H as [H1 H2].
  rewrite H1. now rewrite IH.
Qed.

Lemma remove_first_nodup (ws : WebSocket) (l : list WebSocket) :
  NoDup l -> ~ In ws (remove_first ws l).
Proof.
  induction 1 as [|x l Hx Hnd IH]; simpl; [tauto|].
  destruct (Nat.eqb_spec ws x) as [->|Hne]; [exact Hx|].
  intros [H|H]; [congruence|contradiction].
Qed.

Lemma with_clients_same (s : state) : with_clients s (connected_clients s) = s.
Proof. now destruct s. Qed.

Lemma disconnect_run (ws : WebSocket) (s : state) :
  Main.disconnect ws s
  = (Return tt,
     after (with_clients s (remove_first ws (connected_clients s)))
           ((if mem ws (connected_clients s) then [Removed ws] else [])
            ++ [Logged INFO "WebSocket disconnected"])).
Proof.
  unfold Main.disconnect.
  erewrite bind_return by reflexivity.
  destruct (mem ws (connected_clients s)) eqn:E.
  - erewrite bind_return by (apply remove_client_run; exact E).
    rewrite log_run, after_after. reflexivity.
  - erewrite bind_return by reflexivity.
    rewrite log_run. now rewrite (remove_first_absent _ _ E), with_clients_same.
Qed.

Lemma serve_enters_loop (net : transport) (ws : WebSocket)
      (inbox : list Main.received) (s : state) :
  net ws connection_established = None ->
  Main.serve net ws inbox s
  = Main.serve_loop net ws inbox (after s [Sent ws connection_established]).
Proof.
  intros Hopen. unfold Main.serve, Main.serve_loop, try_except.
  erewrite bind_return; [reflexivity|].
  unfold send_text. now rewrite Hopen.
Qed.

Lemma serve_loop_fatal (ws : WebSocket) (e : exn) (c : M unit) (s : state) :
  c s = (Throw e, s) ->
  try_except c
    (fun e =>
       match e with
       | WebSocketDisconnect => Main.disconnect ws
       | _ => log ERROR "WebSocket error" ;; Main.disconnect ws
       end) s
  = (Return tt,
     after (with_clients s (remove_first ws (connected_clients s)))
           (teardown_events e ws (connected_clients s))).
Proof.
  intros Hc. unfold try_except. rewrite Hc. unfold teardown_events.
  destruct e;
    try (erewrite bind_return by apply log_run;
         rewrite disconnect_run; unfold after, with_clients;
         cbn [connected_clients tasks trace];
         now rewrite <- !app_assoc).
  now rewrite disconnect_run.
Qed.

(** ** [real_backend_fixed.py]: the session endpoint *)

Lemma sends_are_not_removals (evs : list effect) (ws : WebSocket) :
  forallb is_send_effect evs = true -> ~ In (Removed ws) evs.
Proof.
  intros H Hin. rewrite forallb_forall in H. specialize (H _ Hin). discriminate.
Qed.

Lemma read_step_run (net : transport) (ws : WebSocket)
      (r : RealBackendFixed.received) (s : state) :
  exists evs,
    forallb is_send_effect evs = true /\
    let step :=
      try_except
        (data <- match r with
                 | RealBackendFixed.Text data => ret data
                 | RealBackendFixed.Raises e => raise e
                 end ;;
         log INFO "Received WebSocket message" ;;
         RealBackendFixed.safe_send_to_client net ws (echo ("Received: " ++ data)) ;;
         ret tt)
        (fun e =>
           match e with
           | TimeoutError =>
               RealBackendFixed.safe_send_to_client net ws ping ;; ret tt
           | _ => raise e
           end) in
    (step s = (Return tt, after s evs) \/
     exists e, step s = (Throw e, after s evs)).
Proof.
  destruct r as [data|e].
  - exists (Logged INFO "Received WebSocket message"
            :: send_events net (echo ("Received: " ++ data)) ws).
    split; [cbn [forallb is_send_effect]; apply send_events_are_sends|].
    cbn zeta. left. unfold try_except.
    erewrite bind_return by reflexivity.
    erewrite bind_return by apply log_run.
    erewrite bind_return by apply safe_send_run.
    now rewrite after_after.
  - destruct e;
      try (exists []; split; [reflexivity|]; cbn zeta; right; eexists;
           unfold try_except; cbn; rewrite after_nil; reflexivity).
    exists (send_events net ping ws).
    split; [apply send_events_are_sends|].
    cbn zeta. left. unfold try_except.
    erewrite bind_throw by reflexivity.
    cbv iota.
    erewrite bind_return by apply safe_send_run. reflexivity.
Qed.

Lemma read_loop_run (net : transport) (ws : WebSocket)
      (inbox : list RealBackendFixed.received) :
  forall s : state,
  exists evs,
    forallb is_send_effect evs = true /\
    (RealBackendFixed.read_loop net ws inbox s = (Suspended, after s evs) \/
     exists e, RealBackendFixed.read_loop net ws inbox s = (Throw e, after s evs)).
Proof.
  induction inbox as [|r inbox IH]; intros s.
  - exists []. split; [reflexivity|]. left. cbn. now rewrite after_nil.
  - destruct (read_step_run net ws r s) as (evs & Hevs & Hstep).
    cbn zeta in Hstep. cbn [RealBackendFixed.read_loop].
    destruct Hstep as [Hstep|(e & Hstep)].
    + destruct (IH (after s evs)) as (evs' & Hevs' & Hloop).
      exists (evs ++ evs')%list. split.
      * rewrite forallb_app, Hevs, Hevs'. reflexivity.
      * erewrite bind_return by exact Hstep.
        rewrite <- after_after. exact Hloop.
    + exists evs. split; [exact Hevs|]. right. exists e.
      erewrite bind_throw by exact Hstep. reflexivity.
Qed.

Lemma cancel_run (t : task) (s : state) :
  cancel t s
  = (Return tt,
     after (with_tasks s (filter (fun t' => negb (task_eqb t t')) (tasks s)))
           [TaskCancelled t]).
Proof. reflexivity. Qed.

Lemma create_task_run (t : task) (s : state) :
  create_task t s
  = (Return tt, after (with_tasks s (tasks s ++ [t])) [TaskCreated t]).
Proof. reflexivity. Qed.

Lemma cleanup_run (ws : WebSocket) (s : state) :
  mem ws (connected_clients s) = true ->
  RealBackendFixed.cleanup ws s
  = (Return tt,
     {| connected_clients := remove_first ws (connected_clients s);
        tasks := cleanup_tasks ws (tasks s);
        trace := trace s ++ cleanup_trace ws |}).
Proof.
  intros Hmem. unfold RealBackendFixed.cleanup.
  erewrite bind_return by apply cancel_run.
  erewrite bind_return by apply cancel_run.
  erewrite bind_return by reflexivity.
  cbn [connected_clients after with_tasks].
  rewrite Hmem.
  erewrite bind_return by (apply remove_client_run; exact Hmem).
  rewrite log_run. unfold after, with_clients, with_tasks, cleanup_trace,
    cleanup_tasks. cbn [connected_clients tasks trace].
  now rewrite <- !app_assoc.
Qed.

Lemma cleanup_tasks_cancelled (ws : WebSocket) (l : list task) :
  ~ In (Heartbeat, ws) (cleanup_tasks ws l) /\
  ~ In (Metrics, ws) (cleanup_tasks ws l).
Proof.
  unfold cleanup_tasks. split; intros H.
  - apply filter_In in H. destruct H as [H _].
    apply filter_In in H. destruct H as [_ H].
    unfold task_eqb in H. cbn in H. now rewrite Nat.eqb_refl in H.
  - apply filter_In in H. destruct H as [_ H].
    unfold task_eqb in H. cbn in H. now rewrite Nat.eqb_refl in H.
Qed.

Lemma no_removal_is_ordered (ws : WebSocket) (tr : list effect) :
  ~ In (Removed ws) tr -> cancelled_before_removed ws tr.
Proof.
  intros H before rest Heq. exfalso. apply H. rewrite Heq. apply in_elt.
Qed.

Lemma cleanup_is_ordered (ws : WebSocket) (tr : list effect) :
  ~ In (Removed ws) tr ->
  cancelled_before_removed ws (tr ++ cleanup_trace ws).
Proof.
  intros Hno before rest Heq.
  apply app_eq_app in Heq. destruct Heq as (l & [[H1 H2]|[H1 H2]]).
  - exfalso. destruct l as [|x l].
    + simpl in H2. discriminate H2.
    + simpl in H2. inversion H2; subst x.
      apply Hno. rewrite H1. apply in_elt.
  - unfold cleanup_trace in H2.
    destruct l as [|x [|y [|z [|w l]]]]; simpl in H2; try discriminate H2.
    + inversion H2; subst. split; apply in_or_app; right; simpl; auto.
    + inversion H2.
      destruct l; discriminate.
Qed.

Lemma endpoint_setup_run (net : transport) (ws : WebSocket)
      (inbox : list RealBackendFixed.received) (s : state) :
  RealBackendFixed.websocket_endpoint net ws inbox s
  = try_finally
      (try_except
         (RealBackendFixed.read_loop net ws inbox)
         (fun e =>
            match e with
            | WebSocketDisconnect =>
                log INFO "WebSocket client disconnected normally"
            | _ => log ERROR "WebSocket error"
            end))
      (RealBackendFixed.cleanup ws)
      (setup_state net ws s).
Proof.
  unfold RealBackendFixed.websocket_endpoint.
  erewrite bind_return by reflexivity.
  erewrite bind_return by reflexivity.
  erewrite bind_return by apply log_run.
  erewrite bind_return by apply safe_send_run.
  erewrite bind_return by apply create_task_run.
  erewrite bind_return by apply create_task_run.
  f_equal. unfold setup_state, setup_events, after, with_tasks.
  cbn [connected_clients tasks trace].
  f_equal.
  - now rewrite <- app_assoc.
  - rewrite <- !app_assoc. reflexivity.
Qed.

Lemma endpoint_handler_run (e : exn) (s : state) :
  exists level text,
    match e with
    | WebSocketDisconnect => log INFO "WebSocket client disconnected normally"
    | _ => log ERROR "WebSocket error"
    end s = (Return tt, after s [Logged level text]).
Proof. destruct e; eexists; eexists; reflexivity. Qed.

Lemma setup_has_no_removal (net : transport) (ws w : WebSocket) :
  ~ In (Removed w) (setup_events net ws).
Proof.
  unfold setup_events. intros H.
  apply in_app_or in H. destruct H as [H|H].
  - simpl in H. intuition discriminate.
  - apply in_app_or in H. destruct H as [H|H].
    + revert H. apply sends_are_not_removals, send_events_are_sends.
    + simpl in H. intuition discriminate.
Qed.

(** ** [real_backend_fixed.py]: the chat endpoint *)

Lemma broadcast_run' (net : transport) (m : event) (s : state) :
  RealBackendFixed.broadcast_to_clients net m s
  = (Return tt,
     after (with_clients s (survivors net m (connected_clients s)))
           (broadcast_events net m (connected_clients s))).
Proof. apply broadcast_run. Qed.

Lemma get_llm_response_run (llm : RealBackendFixed.collaborator)
      (message agent_type : string) (s : state) :
  RealBackendFixed.get_llm_response llm message agent_type s
  = (Return (llm_response llm message agent_type),
     after s (llm_events llm message agent_type)).
Proof.
  unfold RealBackendFixed.get_llm_response, try_except, llm_response, llm_events.
  destruct (llm message agent_type) as [r|e].
  - erewrite bind_return by reflexivity. unfold ret. now rewrite after_nil.
  - erewrite bind_throw by reflexivity.
    erewrite bind_return by apply log_run. reflexivity.
Qed.

Lemma delivered_to_app (ws : WebSocket) (a b : list effect) :
  delivered_to ws (a ++ b) = (delivered_to ws a ++ delivered_to ws b)%list.
Proof.
  induction a as [|e a IH]; [reflexivity|].
  destruct e; simpl; try exact IH.
  destruct (Nat.eqb ws ws0); simpl; now rewrite IH.
Qed.

Lemma delivered_to_send_events (net : transport) (m : event) (ws c : WebSocket) :
  delivered_to ws (send_events net m c)
  = if Nat.eqb ws c && send_ok net m c then [m] else [].
Proof.
  unfold send_events, send_ok. destruct (net c m) as [e|].
  - rewrite andb_false_r. destruct e; reflexivity.
  - rewrite andb_true_r. simpl. now destruct (Nat.eqb ws c).
Qed.

Lemma delivered_to_absent (net : transport) (m : event) (ws : WebSocket)
      (live : list WebSocket) :
  ~ In ws live -> delivered_to ws (flat_map (send_events net m) live) = [].
Proof.
  induction live as [|c live IH]; intros Hnotin; [reflexivity|].
  cbn [flat_map]. rewrite delivered_to_app, delivered_to_send_events.
  destruct (Nat.eqb_spec ws c) as [->|Hne].
  - exfalso. apply Hnotin. now left.
  - simpl. apply IH. intros H. apply Hnotin. now right.
Qed.

Lemma delivered_to_present (net : transport) (m : event) (ws : WebSocket)
      (live : list WebSocket) :
  NoDup live -> In ws live -> send_ok net m ws = true ->
  delivered_to ws (flat_map (send_events net m) live) = [m].
Proof.
  induction 1 as [|c live Hc Hnd IH]; intros Hin Hok; [contradiction|].
  cbn [flat_map]. rewrite delivered_to_app, delivered_to_send_events.
  destruct (Nat.eqb_spec ws c) as [->|Hne].
  - rewrite Hok. simpl. now rewrite delivered_to_absent.
  - simpl. apply IH; [|exact Hok]. destruct Hin as [H|H]; [congruence|exact H].
Qed.

Lemma delivered_to_evictions (ws : WebSocket) (l : list WebSocket) :
  delivered_to ws (flat_map eviction_events l) = [].
Proof. induction l as [|c l IH]; [reflexivity|exact IH]. Qed.

Lemma delivered_to_broadcast (net : transport) (m : event) (ws : WebSocket)
      (live : list WebSocket) :
  NoDup live -> In ws live -> send_ok net m ws = true ->
  delivered_to ws (broadcast_events net m live) = [m].
Proof.
  intros Hnd Hin Hok. unfold broadcast_events.
  rewrite delivered_to_app, delivered_to_evictions, app_nil_r.
  now apply delivered_to_present.
Qed.

Lemma survivors_keep (net : transport) (m : event) (ws : WebSocket)
      (live : list WebSocket) :
  NoDup live -> In ws live -> send_ok net m ws = true ->
  NoDup (survivors net m live) /\ In ws (survivors net m live).
Proof.
  intros Hnd Hin Hok. unfold survivors. split.
  - now apply NoDup_filter.
  - apply filter_In. auto.
Qed.

Lemma delivered_to_llm_events (llm : RealBackendFixed.collaborator)
      (message agent_type : string) (ws : WebSocket) :
  delivered_to ws (llm_events llm message agent_type) = [].
Proof. unfold llm_events. now destruct (llm message agent_type). Qed.

Lemma try_except_return {A} (c : M A) (h : exn -> M A) (s s' : state) (a : A) :
  c s = (Return a, s') -> try_except c h s = (Return a, s').
Proof. intros H. unfold try_except. now rewrite H. Qed.

Lemma chat_endpoint_auto_run (net : transport) (llm : RealBackendFixed.collaborator)
      (msg : string) (s : state) (selected : string) (confidence : Q)
      (scores : dict Q) :
  AgentSelector.select_best_agent AgentSelector.init msg
    AgentSelector.default_threshold = Ok (selected, confidence, scores) ->
  let m1 := agent_selection selected confidence in
  let m2 := agent_status selected "thinking" true in
  let m3 := agent_response
              (RealBackendFixed.set_auto_selected
                 (llm_response llm msg selected) true) in
  let live1 := survivors net m1 (connected_clients s) in
  let live2 := survivors net m2 live1 in
  RealBackendFixed.chat_endpoint net llm
    {| RealBackendFixed.message := msg;
       RealBackendFixed.agent_type := "auto";
       RealBackendFixed.auto_select := true |} s
  = (Return "success",
     after (with_clients s (survivors net m3 live2))
           ([Logged INFO "Chat request"]
            ++ broadcast_events net m1 (connected_clients s)
            ++ broadcast_events net m2 live1
            ++ llm_events llm msg selected
            ++ broadcast_events net m3 live2
            ++ [Logged INFO "Chat response sent"])).
Proof.
  intros Hsel. cbn zeta.
  unfold RealBackendFixed.chat_endpoint.
  cbn [RealBackendFixed.message RealBackendFixed.agent_type
       RealBackendFixed.auto_select].
  change (true && ("auto" =? "auto")%string) with true. cbv iota.
  unfold RealBackendFixed.agent_selector.
  erewrite bind_return.
  2:{ apply try_except_return.
      erewrite bind_return by apply log_run.
      rewrite Hsel.
      erewrite bind_return by reflexivity.
      cbn [fst snd].
      erewrite bind_return by apply broadcast_run'.
      reflexivity. }
  cbn [fst snd].
  apply try_except_return.
  erewrite bind_return by apply broadcast_run'.
  erewrite bind_return by apply get_llm_response_run.
  erewrite bind_return by apply broadcast_run'.
  erewrite bind_return by apply log_run.
  unfold ret, after, with_clients.
  cbn [connected_clients tasks trace].
  rewrite <- !app_assoc. reflexivity.
Qed.

(** The read loop ends exactly at the first receive that raises something
    other than a timeout; whether its own sends succeed does not matter. *)
Lemma read_loop_outcome (net : transport) (ws : WebSocket)
      (inbox : list RealBackendFixed.received) :
  forall s : state,
  exists evs,
    forallb is_send_effect evs = true /\
    if ExtraSpec.hangs_up inbox
    then exists e,
        RealBackendFixed.read_loop net ws inbox s = (Throw e, after s evs)
    else RealBackendFixed.read_loop net ws inbox s = (Suspended, after s evs).
Proof.
  induction inbox as [|r inbox IH]; intros s.
  - exists []. split; [reflexivity|]. cbn. now rewrite after_nil.
  - assert (Hgo : forall evs0 : list effect,
               forallb is_send_effect evs0 = true ->
               exists evs,
                 forallb is_send_effect evs = true /\
                 if ExtraSpec.hangs_up inbox
                 then exists e,
                     RealBackendFixed.read_loop net ws inbox (after s evs0)
                     = (Throw e, after s evs)
                 else RealBackendFixed.read_loop net ws inbox (after s evs0)
                      = (Suspended, after s evs)).
    { intros evs0 H0.
      destruct (IH (after s evs0)) as (evs & Hevs & Hrun).
      exists (evs0 ++ evs)%list. split.
      - now rewrite forallb_app, H0, Hevs.
      - now rewrite after_after in Hrun. }
    destruct r as [data|e].
    + destruct (Hgo (Logged INFO "Received WebSocket message"
                     :: send_events net (echo ("Received: " ++ data)) ws))
        as (evs & Hevs & Hrun).
      { cbn [forallb is_send_effect]. apply send_events_are_sends. }
      exists evs. split; [exact Hevs|].
      cbn [ExtraSpec.hangs_up RealBackendFixed.read_loop].
      erewrite bind_return; [exact Hrun|].
      apply try_except_return.
      erewrite bind_return by reflexivity.
      erewrite bind_return by apply log_run.
      erewrite bind_return by apply safe_send_run.
      now rewrite after_after.
    + destruct e;
        try (exists []; split; [reflexivity|];
             cbn [ExtraSpec.hangs_up]; eexists;
             rewrite after_nil; reflexivity).
      destruct (Hgo (send_events net ping ws) (send_events_are_sends net ping ws))
        as (evs & Hevs & Hrun).
      exists evs. split; [exact Hevs|].
      cbn [ExtraSpec.hangs_up RealBackendFixed.read_loop].
      erewrite bind_return; [exact Hrun|].
      unfold try_except. cbn [bind raise].
      erewrite bind_return by apply safe_send_run.
      reflexivity.
Qed.

End HubFacts.

Module ConnectionHub.

Import Py Hub HubSpec HubFacts.
Open Scope string_scope.
Open Scope hub_scope.

(** C5.  [broadcast_to_clients] never raises; it attempts the send to
    every live session, in order, so every session whose send succeeds
    gets the event; the sessions whose send failed are removed from the
    live list only after the last attempt, and nothing but them is
    removed. *)
Theorem broadcast_delivers_then_evicts (net : transport) (m : event) (s : state) :
  let r := RealBackendFixed.broadcast_to_clients net m s in
  let live := connected_clients s in
  let attempts := flat_map (send_events net m) live in
  let evictions := flat_map eviction_events (failed net m live) in
  result r = Return tt /\
  trace (final r) = (trace s ++ attempts ++ evictions)%list /\
  forallb is_send_effect attempts = true /\
  forallb is_eviction_effect evictions = true /\
  Forall (fun ws => if send_ok net m ws
                    then In (Sent ws m) attempts
                    else In (Removed ws) evictions) live /\
  connected_clients (final r) = survivors net m live /\
  tasks (final r) = tasks s.
Proof.
  cbn zeta. rewrite broadcast_run. unfold result, final. cbn [fst snd].
  repeat split.
  - rewrite forallb_forall. intros e He.
    apply in_flat_map in He. destruct He as (ws & _ & He).
    pose proof (send_events_are_sends net m ws) as H.
    rewrite forallb_forall in H. now apply H.
  - rewrite forallb_forall. intros e He.
    apply in_flat_map in He. destruct He as (ws & _ & He).
    destruct He as [<-|[<-|[]]]; reflexivity.
  - apply Forall_forall. intros ws Hin.
    destruct (send_ok net m ws) eqn:E.
    + apply in_flat_map. exists ws. split; [exact Hin|].
      unfold send_events. unfold send_ok in E.
      destruct (net ws m); [discriminate|now left].
    + apply in_flat_map. exists ws. split; [|now left].
      unfold failed. apply filter_In. split; [exact Hin|]. now rewrite E.
Qed.


(** C6 (amended).  On a live list without repetition, [disconnect] never
    raises, a second [disconnect] of the same session and a
    [disconnect] of a session that is not registered leave the live list
    unchanged; and [safe_send_to_client] never raises: it returns [False]
    exactly when the transport's send raises, whether the session is
    registered or not. *)
Theorem disconnect_twice_and_failed_send (net : transport) (ws : WebSocket)
        (m : event) (s : state) :
  NoDup (connected_clients s) ->
  let r1 := Main.disconnect ws s in
  let r2 := Main.disconnect ws (final r1) in
  result r1 = Return tt /\
  result r2 = Return tt /\
  ~ In ws (connected_clients (final r1)) /\
  connected_clients (final r2) = connected_clients (final r1) /\
  (if mem ws (connected_clients s) then True
   else connected_clients (final r1) = connected_clients s) /\
  forall s' : state,
    RealBackendFixed.safe_send_to_client net ws m s'
    = (Return (send_ok net m ws), after s' (send_events net m ws)).
Proof.
  intros Hnd. cbn zeta. rewrite !disconnect_run. unfold result, final.
  cbn [fst snd after with_clients connected_clients].
  assert (Hgone : ~ In ws (remove_first ws (connected_clients s)))
    by now apply remove_first_nodup.
  assert (Habsent : mem ws (remove_first ws (connected_clients s)) = false).
  { destruct (mem ws (remove_first ws (connected_clients s))) eqn:E;
      [|reflexivity].
    apply mem_in in E. contradiction. }
  repeat split.
  - exact Hgone.
  - now apply remove_first_absent.
  - destruct (mem ws (connected_clients s)) eqn:E; [exact I|].
    now apply remove_first_absent.
  - intros s'. apply safe_send_run.
Qed.

Lemma disconnect_twice_and_failed_send_witness :
  NoDup (connected_clients (idle [1; 2])) /\
  let r1 := Main.disconnect 1 (idle [1; 2]) in
  let r2 := Main.disconnect 1 (final r1) in
  result r1 = Return tt /\
  result r2 = Return tt /\
  ~ In 1 (connected_clients (final r1)) /\
  connected_clients (final r2) = connected_clients (final r1) /\
  (if mem 1 (connected_clients (idle [1; 2])) then True
   else connected_clients (final r1) = connected_clients (idle [1; 2])) /\
  forall s' : state,
    RealBackendFixed.safe_send_to_client (net_without 1) 1 heartbeat s'
    = (Return (send_ok (net_without 1) heartbeat 1),
       after s' (send_events (net_without 1) heartbeat 1)).
Proof.
  assert (H : NoDup (connected_clients (idle [1; 2]))).
  { simpl. repeat constructor; simpl; intuition discriminate. }
  split; [exact H|].
  exact (@disconnect_twice_and_failed_send (net_without 1) 1 heartbeat
           (idle [1; 2]) H).
Defined.

(** C6 as stated fails: a session that has been removed from the live
    list, and whose transport still accepts a send, gets the event and
    [safe_send_to_client] returns [True]. *)
Lemma send_to_removed_session_succeeds :
  let s1 := final (Main.disconnect 1 (idle [1; 2])) in
  ~ In 1 (connected_clients s1) /\
  result (RealBackendFixed.safe_send_to_client open_net 1 heartbeat s1)
  = Return true /\
  delivered_to 1
    (trace (final (RealBackendFixed.safe_send_to_client open_net 1 heartbeat s1)))
  = [heartbeat].
Proof.
  cbn. repeat split. intros [H|[]]. discriminate.
Qed.

(** C7 (amended).  In the read loops of [main.py] and of
    [simple_backend.py], a frame that decodes to a JSON object whose type
    is not recognized is skipped without any effect and the loop goes on
    with the next frame; a frame that is not well-formed JSON, or that
    decodes to something that is not an object, ends the session: the
    exception is caught, an error is logged, the session is removed from
    the live list, the frames that follow are not read, and nothing is
    sent to any client. *)
Theorem unrecognized_frame_skipped_or_fatal (net : transport) (ws : WebSocket)
        (data : string) (loads : res json) (rest : list Main.received)
        (s : state) :
  let frame := Main.Text data loads in
  let torn_down (e : exn) : outcome unit * state :=
    (Return tt,
     after (with_clients s (remove_first ws (connected_clients s)))
           (teardown_events e ws (connected_clients s))) in
  match treatment_of main_recognizes loads with
  | Answered => True
  | Ignored =>
      Main.serve_loop net ws (frame :: rest) s = Main.serve_loop net ws rest s
  | Fatal e =>
      Main.serve_loop net ws (frame :: rest) s = torn_down e /\
      forall ws', delivered_to ws' (teardown_events e ws (connected_clients s)) = []
  end /\
  match treatment_of simple_recognizes loads with
  | Answered => True
  | Ignored =>
      SimpleBackend.serve_loop net ws (frame :: rest) s
      = SimpleBackend.serve_loop net ws rest s
  | Fatal e =>
      SimpleBackend.serve_loop net ws (frame :: rest) s = torn_down e /\
      forall ws', delivered_to ws' (teardown_events e ws (connected_clients s)) = []
  end.
Proof.
  cbn zeta. unfold treatment_of, main_recognizes, simple_recognizes.
  assert (Hquiet : forall e ws',
             delivered_to ws' (teardown_events e ws (connected_clients s)) = []).
  { intros e ws'. unfold teardown_events.
    destruct e, (mem ws (connected_clients s)); reflexivity. }
  destruct loads as [message_data|e].
  - destruct (Main.get_type message_data) as [type|e] eqn:Ht.
    + split.
      * destruct (Main.is_ping type) eqn:Hp; [exact I|].
        unfold Main.serve_loop, try_except. cbn [Main.read_loop].
        erewrite bind_return by reflexivity.
        erewrite bind_return by (rewrite Ht; reflexivity).
        rewrite Hp. erewrite bind_return by reflexivity. reflexivity.
      * destruct (Main.is_ping type) eqn:Hp; [exact I|].
        destruct (SimpleBackend.is_get_suggestions type) eqn:Hg; [exact I|].
        cbn [orb].
        unfold SimpleBackend.serve_loop, try_except.
        cbn [SimpleBackend.read_loop].
        erewrite bind_return by reflexivity.
        erewrite bind_return by (rewrite Ht; reflexivity).
        rewrite Hp.
        erewrite bind_return.
        2:{ erewrite bind_return by (rewrite Ht; reflexivity).
            rewrite Hg. reflexivity. }
        reflexivity.
    + split; (split; [|apply Hquiet]).
      * unfold Main.serve_loop. apply serve_loop_fatal.
        cbn [Main.read_loop].
        erewrite bind_return by reflexivity.
        erewrite bind_throw by (rewrite Ht; reflexivity). reflexivity.
      * unfold SimpleBackend.serve_loop.
        apply (@serve_loop_fatal ws e).
        cbn [SimpleBackend.read_loop].
        erewrite bind_return by reflexivity.
        erewrite bind_throw by (rewrite Ht; reflexivity). reflexivity.
  - split; (split; [|apply Hquiet]).
    + unfold Main.serve_loop. apply serve_loop_fatal. reflexivity.
    + unfold SimpleBackend.serve_loop. apply (@serve_loop_fatal ws e). reflexivity.
Qed.

(** C7 as stated fails: after a frame that is not JSON the session is
    over, and the ping that follows gets no pong, while the same ping
    alone is answered and leaves the loop waiting for more. *)
Lemma garbage_frame_ends_session :
  let r := Main.serve_loop open_net 1 [garbage_frame; ping_frame] (idle [1; 2]) in
  let r' := Main.serve_loop open_net 1 [ping_frame] (idle [1; 2]) in
  result r = Return tt /\
  connected_clients (final r) = [2] /\
  delivered_to 1 (trace (final r)) = [] /\
  result r' = Suspended /\
  connected_clients (final r') = [1; 2] /\
  delivered_to 1 (trace (final r')) = [pong].
Proof. cbn. repeat split. Qed.


(** C9 (amended).  The session endpoint of [real_backend_fixed.py] tears
    the session down exactly when a receive raises something other than a
    timeout (the client disconnects, or any other error of the read
    loop), whatever its sends do.  The teardown then cancels the
    heartbeat task and the metrics task and only afterwards removes the
    session from the live list: the trace ends with the [finally] block,
    no removal of the session comes before it, no exception escapes and
    neither task is left.  Without such a receive the endpoint stays in
    its read loop, the session registered and both tasks alive.  A
    broadcast, on the other hand, cancels no task: the session that it
    removes because its send failed keeps its two tasks. *)
Theorem teardown_cancels_tasks_before_removal (net : transport) (ws : WebSocket)
        (inbox : list RealBackendFixed.received) (s : state) :
  let r := RealBackendFixed.websocket_endpoint net ws inbox s in
  (exists new,
     trace (final r) = (trace s ++ new)%list /\
     cancelled_before_removed ws new /\
     if ExtraSpec.hangs_up inbox
     then result r = Return tt /\
          (exists before,
              new = (before ++ cleanup_trace ws)%list /\
              ~ In (Removed ws) before) /\
          In (Removed ws) new /\
          ~ In (Heartbeat, ws) (tasks (final r)) /\
          ~ In (Metrics, ws) (tasks (final r)) /\
          connected_clients (final r)
          = remove_first ws (connected_clients s ++ [ws])
     else result r = Suspended /\
          ~ In (Removed ws) new /\
          In ws (connected_clients (final r)) /\
          In (Heartbeat, ws) (tasks (final r)) /\
          In (Metrics, ws) (tasks (final r))) /\
  forall (m : event) (s' : state),
    let rb := RealBackendFixed.broadcast_to_clients net m s' in
    tasks (final rb) = tasks s' /\
    (send_ok net m ws = false -> ~ In ws (connected_clients (final rb))).
Proof.
  cbn zeta. split.
  - rewrite endpoint_setup_run.
    destruct (read_loop_outcome net ws inbox (setup_state net ws s))
      as (evs & Hevs & Hloop).
    destruct (ExtraSpec.hangs_up inbox).
    + destruct Hloop as (e & Hloop).
      destruct (endpoint_handler_run e (after (setup_state net ws s) evs))
        as (level & text & Hh).
      exists ((setup_events net ws ++ evs ++ [Logged level text])
              ++ cleanup_trace ws)%list.
      unfold try_finally, try_except. rewrite Hloop, Hh.
      rewrite cleanup_run
        by (cbn [after setup_state connected_clients]; apply mem_in;
            apply in_or_app; right; now left).
      unfold result, final. cbn [fst snd after setup_state trace
                                 connected_clients tasks].
      assert (Hno : ~ In (Removed ws)
                         (setup_events net ws ++ evs ++ [Logged level text])).
      { intros H. apply in_app_or in H. destruct H as [H|H];
          [revert H; apply setup_has_no_removal|].
        apply in_app_or in H. destruct H as [H|H];
          [revert H; apply sends_are_not_removals; exact Hevs|].
        simpl in H. intuition discriminate. }
      split; [now rewrite <- !app_assoc|].
      split; [now apply cleanup_is_ordered|].
      split; [reflexivity|].
      split; [eexists; split; [reflexivity|exact Hno]|].
      split; [apply in_or_app; right; simpl; auto|].
      split; [apply cleanup_tasks_cancelled|].
      split; [apply cleanup_tasks_cancelled|reflexivity].
    + exists (setup_events net ws ++ evs)%list.
      unfold try_finally, try_except. rewrite Hloop.
      unfold result, final. cbn [fst snd after setup_state trace
                                 connected_clients tasks].
      assert (Hno : ~ In (Removed ws) (setup_events net ws ++ evs)).
      { intros H. apply in_app_or in H. destruct H as [H|H].
        - revert H. apply setup_has_no_removal.
        - revert H. apply sends_are_not_removals. exact Hevs. }
      split; [now rewrite <- app_assoc|].
      split; [now apply no_removal_is_ordered|].
      split; [reflexivity|].
      split; [exact Hno|].
      split; [apply in_or_app; right; now left|].
      split; apply in_or_app; right; simpl; auto.
  - intros m s'. rewrite broadcast_run'.
    unfold final. cbn [snd after with_clients connected_clients tasks].
    split; [reflexivity|].
    intros Hfail H. unfold survivors in H. apply filter_In in H.
    destruct H as [_ H]. congruence.
Qed.

(** A session whose client has gone is removed by the next broadcast
    while its endpoint is still in its read loop: its two tasks are alive
    after the removal, and nothing in the trace cancels them. *)
Lemma evicted_session_keeps_its_timers :
  let r1 := RealBackendFixed.websocket_endpoint open_net 2 [] (idle [1]) in
  let r2 := RealBackendFixed.broadcast_to_clients (net_without 2)
              (agent_status "manus" "thinking" false) (final r1) in
  result r1 = Suspended /\
  connected_clients (final r1) = [1; 2] /\
  result r2 = Return tt /\
  connected_clients (final r2) = [1] /\
  In (Removed 2) (trace (final r2)) /\
  tasks (final r2) = [(Heartbeat, 2); (Metrics, 2)] /\
  ~ cancelled_before_removed 2 (trace (final r2)).
Proof.
  cbn zeta. split; [reflexivity|]. split; [reflexivity|].
  split; [reflexivity|]. split; [reflexivity|].
  split; [vm_compute; tauto|]. split; [reflexivity|].
  intros H.
  destruct (H [Accepted 2; Appended 2; Logged INFO "New WebSocket connection";
               Sent 2 connection_established;
               TaskCreated (Heartbeat, 2); TaskCreated (Metrics, 2);
               Sent 1 (agent_status "manus" "thinking" false);
               SendFailed 2 (agent_status "manus" "thinking" false)
                          WebSocketDisconnect;
               Logged INFO "Client disconnected during send"]
              [Logged INFO "Removed disconnected client"] eq_refl)
    as [Hc _].
  simpl in Hc. intuition discriminate.
Qed.

(** Both teardown paths of C9 on concrete sessions: a client that
    disconnects after one message, and a receive that fails. *)
Example teardown_on_disconnect :
  let r := RealBackendFixed.websocket_endpoint open_net 3
             [RealBackendFixed.Text "hi"; RealBackendFixed.Raises WebSocketDisconnect]
             (idle [1; 2]) in
  result r = Return tt /\
  connected_clients (final r) = [1; 2] /\
  tasks (final r) = [] /\
  delivered_to 3 (trace (final r)) = [connection_established; echo "Received: hi"].
Proof. vm_compute. repeat split. Qed.

Example teardown_on_error :
  let r := RealBackendFixed.websocket_endpoint open_net 3
             [RealBackendFixed.Raises TimeoutError;
              RealBackendFixed.Raises (RuntimeError "connection reset")]
             (idle [1; 2]) in
  result r = Return tt /\
  connected_clients (final r) = [1; 2] /\
  tasks (final r) = [] /\
  delivered_to 3 (trace (final r)) = [connection_established; ping].
Proof. vm_compute. repeat split. Qed.


(** C8 (amended).  For an auto-routed chat request, [chat_endpoint]
    returns normally after three broadcasts, in this order: the
    [agent_selection] of the routed handler, [agent_status] with status
    thinking, and one [agent_response]; nothing else is sent, so a client
    of a live list without repetition whose sends succeed receives
    exactly these three events in this order.  When the execution
    collaborator fails the request is not dropped: the third event is
    still an [agent_response], naming the selected handler and carrying
    the error flag and the error text, and no [agent_error] is sent. *)
Theorem auto_routed_chat_broadcasts_in_order
        (net : transport) (llm : RealBackendFixed.collaborator)
        (chat_message : RealBackendFixed.ChatMessage) (s : state) :
  RealBackendFixed.auto_select chat_message = true ->
  RealBackendFixed.agent_type chat_message = "auto" ->
  let msg := RealBackendFixed.message chat_message in
  exists selected confidence scores,
    AgentSelector.select_best_agent AgentSelector.init msg
      AgentSelector.default_threshold = Ok (selected, confidence, scores) /\
    let answer := RealBackendFixed.set_auto_selected
                    (llm_response llm msg selected) true in
    let m1 := agent_selection selected confidence in
    let m2 := agent_status selected "thinking" true in
    let m3 := agent_response answer in
    let live1 := survivors net m1 (connected_clients s) in
    let live2 := survivors net m2 live1 in
    let r := RealBackendFixed.chat_endpoint net llm chat_message s in
    result r = Return "success" /\
    trace (final r)
    = (trace s
       ++ [Logged INFO "Chat request"]
       ++ broadcast_events net m1 (connected_clients s)
       ++ broadcast_events net m2 live1
       ++ llm_events llm msg selected
       ++ broadcast_events net m3 live2
       ++ [Logged INFO "Chat response sent"])%list /\
    agent answer = selected /\
    error answer = llm_fails llm msg selected /\
    forall ws,
      NoDup (connected_clients s) ->
      In ws (connected_clients s) ->
      (forall m, net ws m = None) ->
      delivered_to ws (trace (final r))
      = (delivered_to ws (trace s) ++ [m1; m2; m3])%list.
Proof.
  intros Hauto Htype. cbn zeta.
  destruct chat_message as [msg at_ auto].
  cbn [RealBackendFixed.message RealBackendFixed.agent_type
       RealBackendFixed.auto_select] in *.
  subst at_ auto.
  destruct (Router.select_best_agent_total msg AgentSelector.default_threshold)
    as (selected & confidence & Hsel).
  exists selected, confidence, (AgentSelector.analyze_task AgentSelector.init msg).
  split; [exact Hsel|].
  rewrite (chat_endpoint_auto_run net llm msg s Hsel).
  unfold result, final. cbn [fst snd after with_clients trace].
  split; [reflexivity|]. split; [reflexivity|].
  split; [unfold llm_response; now destruct (llm msg selected)|].
  split; [unfold llm_response, llm_fails; now destruct (llm msg selected)|].
  intros ws Hnd Hin Hopen.
  assert (Hok : forall m, send_ok net m ws = true).
  { intros m. unfold send_ok. now rewrite Hopen. }
  set (m1 := agent_selection selected confidence).
  set (m2 := agent_status selected "thinking" true).
  set (m3 := agent_response _).
  destruct (survivors_keep net m1 ws Hnd Hin (Hok m1)) as [Hnd1 Hin1].
  destruct (survivors_keep net m2 ws Hnd1 Hin1 (Hok m2)) as [Hnd2 Hin2].
  rewrite !delivered_to_app.
  rewrite (delivered_to_broadcast net m1 ws Hnd Hin (Hok m1)).
  rewrite (delivered_to_broadcast net m2 ws Hnd1 Hin1 (Hok m2)).
  rewrite (delivered_to_broadcast net m3 ws Hnd2 Hin2 (Hok m3)).
  rewrite delivered_to_llm_events. reflexivity.
Qed.

Lemma auto_routed_chat_broadcasts_in_order_witness :
  RealBackendFixed.auto_select debug_request = true /\
  RealBackendFixed.agent_type debug_request = "auto" /\
  let msg := RealBackendFixed.message debug_request in
  exists selected confidence scores,
    AgentSelector.select_best_agent AgentSelector.init msg
      AgentSelector.default_threshold = Ok (selected, confidence, scores) /\
    let answer := RealBackendFixed.set_auto_selected
                    (llm_response llm_up msg selected) true in
    let m1 := agent_selection selected confidence in
    let m2 := agent_status selected "thinking" true in
    let m3 := agent_response answer in
    let live1 := survivors (net_without 2) m1 (connected_clients (idle [1; 2; 3])) in
    let live2 := survivors (net_without 2) m2 live1 in
    let r := RealBackendFixed.chat_endpoint (net_without 2) llm_up debug_request
               (idle [1; 2; 3]) in
    result r = Return "success" /\
    trace (final r)
    = (trace (idle [1; 2; 3])
       ++ [Logged INFO "Chat request"]
       ++ broadcast_events (net_without 2) m1 (connected_clients (idle [1; 2; 3]))
       ++ broadcast_events (net_without 2) m2 live1
       ++ llm_events llm_up msg selected
       ++ broadcast_events (net_without 2) m3 live2
       ++ [Logged INFO "Chat response sent"])%list /\
    agent answer = selected /\
    error answer = llm_fails llm_up msg selected /\
    forall ws,
      NoDup (connected_clients (idle [1; 2; 3])) ->
      In ws (connected_clients (idle [1; 2; 3])) ->
      (forall m, net_without 2 ws m = None) ->
      delivered_to ws (trace (final r))
      = (delivered_to ws (trace (idle [1; 2; 3])) ++ [m1; m2; m3])%list.
Proof.
  split; [reflexivity|]. split; [reflexivity|].
  exact (@auto_routed_chat_broadcasts_in_order (net_without 2) llm_up
           debug_request (idle [1; 2; 3]) eq_refl eq_refl).
Defined.

(** C8 as stated fails: when the execution collaborator fails, the
    client receives the selection, the status and an [agent_response]
    that carries the error flag; no [agent_error] event is sent. *)
Lemma failed_collaborator_yields_agent_response :
  let r := RealBackendFixed.chat_endpoint open_net llm_down debug_request
             (idle [1]) in
  result r = Return "success" /\
  existsb is_agent_error (delivered_to 1 (trace (final r))) = false /\
  map (fun m => match m with
                | agent_selection a _ => ("agent_selection", a, false)
                | agent_status a _ _ => ("agent_status", a, false)
                | agent_response d => ("agent_response", agent d, error d)
                | agent_error a _ => ("agent_error", a, true)
                | _ => ("", "", false)
                end)
      (delivered_to 1 (trace (final r)))
  = [("agent_selection", "swe", false);
     ("agent_status", "swe", false);
     ("agent_response", "swe", true)].
Proof. vm_compute. repeat split. Qed.


(** The read loop of [simple_backend.py] on a recognized frame, and on the
    same frame after one that is not JSON. *)
Example suggestions_are_answered :
  let r := SimpleBackend.serve_loop open_net 1 [suggest_frame] (idle [1]) in
  result r = Suspended /\
  connected_clients (final r) = [1] /\
  map (fun m => match m with
                | agent_suggestions t l => (t, map (fun x => fst (fst x)) l)
                | _ => ("", [])
                end)
      (delivered_to 1 (trace (final r)))
  = [("Debug my Python code", ["swe"; "manus"; "browser"])].
Proof. vm_compute. repeat split. Qed.

Example suggestions_after_garbage_are_not_answered :
  let r := SimpleBackend.serve_loop open_net 1 [garbage_frame; suggest_frame]
             (idle [1]) in
  result r = Return tt /\
  connected_clients (final r) = [] /\
  delivered_to 1 (trace (final r)) = [].
Proof. vm_compute. repeat split. Qed.

(** A periodic task ends by itself, without raising, at the first send
    that fails, and goes back to sleep otherwise. *)
Lemma heartbeat_task_run (net : transport) (later : timeline) (ws : WebSocket)
      (s : state) :
  RealBackendFixed.heartbeat_task (net :: later) ws s
  = if send_ok net heartbeat ws
    then RealBackendFixed.heartbeat_task later ws
           (after s (send_events net heartbeat ws))
    else (Return tt, after s (send_events net heartbeat ws)).
Proof.
  unfold RealBackendFixed.heartbeat_task, try_except.
  cbn [RealBackendFixed.periodic_loop].
  erewrite bind_return by apply safe_send_run.
  now destruct (send_ok net heartbeat ws).
Qed.

End ConnectionHub.


(* ================================================================== *)
(** * Further properties of the router *)
(* ================================================================== *)

Module RouterExtra.

Import Py PyFacts SortFacts AgentSelector RouterSpec RouterFacts.
Open Scope string_scope.
Open Scope Q_scope.

(** ** Letter case *)

Lemma lower_char_idempotent (c : ascii) : lower_char (lower_char c) = lower_char c.
Proof.
  destruct c as [b0 b1 b2 b3 b4 b5 b6 b7].
  destruct b0, b1, b2, b3, b4, b5, b6, b7; reflexivity.
Qed.

Lemma lower_idempotent (s : string) : lower (lower s) = lower s.
Proof.
  induction s as [|c s IH]; [reflexivity|].
  cbn [lower]. now rewrite lower_char_idempotent, IH.
Qed.

(** X1.  The router does not see letter case: lower-casing the text
    beforehand changes neither the distribution, nor the selection, nor
    the suggestions, whatever the catalog. *)
Theorem routing_ignores_case (self : AgentSelector.t) (task : string)
        (threshold : Q) (top_n : Z) :
  analyze_task self (lower task) = analyze_task self task /\
  select_best_agent self (lower task) threshold
  = select_best_agent self task threshold /\
  get_agent_suggestions self (lower task) top_n
  = get_agent_suggestions self task top_n.
Proof.
  assert (H : analyze_task self (lower task) = analyze_task self task).
  { unfold analyze_task, raw_scores. cbn zeta. now rewrite lower_idempotent. }
  rewrite !select_best_agent_unfold, !get_agent_suggestions_unfold. cbn zeta.
  now rewrite H.
Qed.


(** ** The selection is the first maximum *)

Lemma max_loop_split {A} (key : A -> Q) (l : list A) : forall best,
  exists l1 l2,
    best :: l = (l1 ++ max_loop key best l :: l2)%list /\
    Forall (fun x => key x < key (max_loop key best l)) l1 /\
    Forall (fun x => key x <= key (max_loop key best l)) l2.
Proof.
  induction l as [|x l IH]; intros best.
  - exists [], []. simpl. auto.
  - cbn [max_loop]. destruct (Qltb (key best) (key x)) eqn:E.
    + apply Qltb_lt in E.
      destruct (IH x) as (l1 & l2 & Heq & H1 & H2).
      exists (best :: l1), l2. repeat split.
      * simpl. now rewrite Heq.
      * constructor; [|exact H1].
        eapply Qlt_le_trans; [exact E|apply max_loop_ge_best].
      * exact H2.
    + apply Qltb_ge in E.
      destruct (IH best) as (l1 & l2 & Heq & H1 & H2).
      destruct l1 as [|y l1].
      * simpl in Heq. injection Heq as Hb Hl.
        exists [], (x :: l). repeat split.
        -- simpl. now rewrite <- Hb.
        -- constructor.
        -- constructor.
           ++ rewrite <- Hb. exact E.
           ++ rewrite <- Hl in H2. exact H2.
      * simpl in Heq. injection Heq as Hb Hl. subst y.
        exists (best :: x :: l1), l2. repeat split.
        -- simpl. do 2 f_equal. exact Hl.
        -- inversion H1 as [|? ? Hbest Hrest]; subst.
           constructor; [exact Hbest|].
           constructor; [|exact Hrest].
           eapply Qle_lt_trans; [exact E|exact Hbest].
        -- exact H2.
Qed.

Lemma first_maximum_of_scores (d : dict Q) :
  NoDup (keys d) -> d <> [] ->
  exists before best c after,
    d = (before ++ (best, c) :: after)%list /\
    Forall (fun kv => snd kv < c) before /\
    Forall (fun kv => snd kv <= c) after /\
    max_key (fun k => getitem d k) (keys d) = Ok best /\
    getitem d best = Ok c.
Proof.
  intros Hnd Hne. destruct d as [|[k0 v0] d']; [congruence|].
  set (d := (k0, v0) :: d') in *.
  set (key := fun k => match getitem d k with Ok v => v | Raise _ => 0 end).
  assert (Hkey : forall k, In k (keys d) -> getitem d k = Ok (key k)).
  { intros k Hk. destruct (getitem_key d k Hk) as (v & Hv & _).
    unfold key. now rewrite Hv. }
  assert (Hval : forall kv, In kv d -> key (fst kv) = snd kv).
  { intros [k v] Hin. unfold key. cbn [fst snd].
    now rewrite (@getitem_in _ d k v Hnd Hin). }
  change (keys d) with (k0 :: keys d') in *.
  rewrite (max_key_pure (fun k => getitem d k) key Hkey).
  destruct (max_loop_split key (keys d') k0) as (l1 & l2 & Heq & H1 & H2).
  set (r := max_loop key k0 (keys d')) in *.
  change (k0 :: keys d') with (map fst d) in Heq.
  apply map_eq_app in Heq. destruct Heq as (d1 & dr & Hd & Hl1 & Hlr).
  destruct dr as [|[r' c] d2]; [discriminate Hlr|].
  cbn [map fst] in Hlr. inversion Hlr as [[Hr Hl2]].
  assert (Hin : In (r, c) d).
  { rewrite Hd, <- Hr. apply in_elt. }
  assert (Hc : key r = c) by exact (Hval _ Hin).
  exists d1, r, c, d2. repeat split.
  - rewrite Hd. now rewrite Hr.
  - apply Forall_forall. intros kv Hkv.
    rewrite <- Hc, <- (Hval kv).
    + rewrite Forall_forall in H1. apply H1. rewrite <- Hl1. now apply in_map.
    + rewrite Hd. apply in_or_app. now left.
  - apply Forall_forall. intros kv Hkv.
    rewrite <- Hc, <- (Hval kv).
    + rewrite Forall_forall in H2. apply H2. rewrite <- Hl2. now apply in_map.
    + rewrite Hd. apply in_or_app. right. now right.
  - apply (@getitem_in _ d r c Hnd Hin).
Qed.

Lemma analyze_task_keys_ok (self : AgentSelector.t) (task : string) :
  NoDup (keys (agents self)) -> agents self <> [] ->
  NoDup (keys (analyze_task self task)) /\ analyze_task self task <> [].
Proof.
  intros Hnd Hne. pose proof (keys_analyze_task self task Hnd) as Hk. split.
  - now rewrite Hk.
  - intros H. rewrite H in Hk. destruct (agents self); [congruence|discriminate].
Qed.

Lemma first_maximum_selected (self : AgentSelector.t) (task : string)
      (threshold : Q) :
  NoDup (keys (agents self)) -> agents self <> [] ->
  exists before best c after,
    analyze_task self task = (before ++ (best, c) :: after)%list /\
    Forall (fun kv => snd kv < c) before /\
    Forall (fun kv => snd kv <= c) after /\
    max_key (fun k => getitem (analyze_task self task) k)
            (keys (analyze_task self task)) = Ok best /\
    getitem (analyze_task self task) best = Ok c /\
    select_best_agent self task threshold
    = Ok (if Qltb c threshold then "manus" else best, c, analyze_task self task).
Proof.
  intros Hnd Hne.
  destruct (@analyze_task_keys_ok self task Hnd Hne) as [Hnd' Hne'].
  destruct (first_maximum_of_scores Hnd' Hne')
    as (before & best & c & after & Hd & H1 & H2 & Hmax & Hget).
  exists before, best, c, after. repeat split; try assumption.
  rewrite select_best_agent_unfold. cbn zeta. rewrite Hmax, Hget.
  now destruct (Qltb c threshold).
Qed.

(** X2.  On the program's catalog, the choice of [select_best_agent] is
    the first maximum of the distribution of [analyze_task]: every handler
    declared before the chosen one has a strictly smaller confidence, none
    after it has a greater one, the reported confidence is the chosen
    one's, and the identifier is the chosen one's unless the confidence is
    below the threshold, when it is ["manus"]. *)
Theorem selection_is_first_maximum (task : string) (threshold : Q) :
  exists before best c after,
    analyze_task init task = (before ++ (best, c) :: after)%list /\
    Forall (fun kv => snd kv < c) before /\
    Forall (fun kv => snd kv <= c) after /\
    select_best_agent init task threshold
    = Ok (if Qltb c threshold then "manus" else best, c, analyze_task init task).
Proof.
  destruct (@first_maximum_selected init task threshold (proj1 init_wf))
    as (before & best & c & after & Hd & H1 & H2 & _ & _ & Hsel);
    [discriminate|].
  exists before, best, c, after. auto.
Qed.

(** Two handlers with the same confidence: the one declared first wins. *)
Example first_of_equal_maxima_wins :
  map (fun kv => (fst kv, Qred (snd kv))) (analyze_task init "scrape csv")
  = [("manus", 0); ("browser", 1); ("data", 1); ("swe", 0)] /\
  exists c,
    select_best_agent init "scrape csv" default_threshold
    = Ok ("browser", c, analyze_task init "scrape csv").
Proof. split; [vm_compute; reflexivity|]. eexists. vm_compute. reflexivity. Qed.

(** X3.  On the catalog of the program, the identifier that
    [select_best_agent] returns is always one of the catalog's handlers,
    and it has an entry in [AGENT_CONFIGS]: the lookups that follow a
    selection never fail and never fall back to a default. *)
Theorem selected_agent_is_known (task : string) (threshold : Q) :
  exists selected c agent,
    select_best_agent init task threshold
    = Ok (selected, c, analyze_task init task) /\
    getitem (agents init) selected = Ok agent /\
    name agent = selected /\
    getitem RealBackendFixed.AGENT_CONFIGS selected
    = Ok (RealBackendFixed.agent_tools selected).
Proof.
  destruct (@first_maximum_selected init task threshold (proj1 init_wf))
    as (before & best & c & after & Hd & _ & _ & _ & _ & Hsel); [discriminate|].
  assert (Hbest : In best (keys (agents init))).
  { rewrite <- (keys_analyze_task init task (proj1 init_wf)), Hd.
    unfold keys. rewrite map_app. apply in_or_app. right. now left. }
  assert (Hin : In (if Qltb c threshold then "manus" else best)
                   (keys (agents init))).
  { destruct (Qltb c threshold); [now left|exact Hbest]. }
  set (selected := if Qltb c threshold then "manus" else best) in *.
  clearbody selected.
  simpl in Hin.
  destruct Hin as [<-|[<-|[<-|[<-|[]]]]];
    eexists; exists c; eexists; (split; [exact Hsel|]);
    repeat split; reflexivity.
Qed.

(** ** Suggestions *)

Lemma length_analyze_task (self : AgentSelector.t) (task : string) :
  NoDup (keys (agents self)) ->
  length (analyze_task self task) = length (agents self).
Proof.
  intros Hnd. pose proof (keys_analyze_task self task Hnd) as Hk.
  apply (f_equal (@length string)) in Hk. unfold keys in Hk.
  now rewrite !length_map in Hk.
Qed.

Lemma in_firstn {A} (n : nat) (l : list A) (x : A) :
  In x (firstn n l) -> In x l.
Proof.
  intros H. rewrite <- (firstn_skipn n l). apply in_or_app. now left.
Qed.

Lemma suggestions_ok (self : AgentSelector.t) (task : string) (top_n : Z) :
  NoDup (keys (agents self)) ->
  exists suggestions,
    get_agent_suggestions self task top_n = Ok suggestions /\
    map fst suggestions
    = slice_to (sorted_reverse snd (items (analyze_task self task))) top_n.
Proof.
  intros Hnd. rewrite get_agent_suggestions_unfold. cbn zeta.
  set (ranking := sorted_reverse snd (items (analyze_task self task))).
  destruct (@Router.build_suggestions_ok self (slice_to ranking top_n))
    as (sugg & Hb & Hm & _).
  { intros k c Hin. rewrite <- (keys_analyze_task self task Hnd).
    apply (@in_keys _ (analyze_task self task) k c).
    eapply Permutation_in; [apply sorted_reverse_perm|].
    fold ranking. unfold slice_to in Hin.
    destruct (top_n <? 0)%Z; eapply in_firstn; exact Hin. }
  exists sugg. auto.
Qed.

Lemma suggestions_length (self : AgentSelector.t) (task : string) (top_n : Z) :
  NoDup (keys (agents self)) ->
  exists suggestions,
    get_agent_suggestions self task top_n = Ok suggestions /\
    Z.of_nat (length suggestions)
    = let n := Z.of_nat (length (agents self)) in
      if (top_n <? 0)%Z then Z.max 0 (n + top_n) else Z.min top_n n.
Proof.
  intros Hnd. destruct (@suggestions_ok self task top_n Hnd) as (sugg & Hb & Hm).
  exists sugg. split; [exact Hb|].
  rewrite <- (length_map fst sugg), Hm. cbn zeta.
  assert (Hlen : length (sorted_reverse snd (items (analyze_task self task)))
                 = length (agents self)).
  { rewrite (Permutation_length (sorted_reverse_perm snd _)).
    now apply length_analyze_task. }
  unfold slice_to. rewrite Hlen.
  destruct (Z.ltb_spec top_n 0); rewrite length_firstn, Hlen; lia.
Qed.

(** X4.  On the program's catalog of four handlers,
    [get_agent_suggestions] returns for every text and every [top_n]:
    [min top_n 4] suggestions when [top_n] is not negative and, a
    negative [top_n] counting from the end as in a Python slice,
    [4 + top_n] of them (none below [-4]) otherwise. *)
Theorem suggestions_count (task : string) (top_n : Z) :
  exists suggestions,
    get_agent_suggestions init task top_n = Ok suggestions /\
    Z.of_nat (length suggestions)
    = if (top_n <? 0)%Z then Z.max 0 (4 + top_n) else Z.min top_n 4.
Proof.
  exact (@suggestions_length init task top_n (proj1 init_wf)).
Qed.

Lemma below_are_filtered (c : Q) (l : list (string * Q)) :
  Forall (fun kv => snd kv < c) l -> with_confidence c l = [].
Proof.
  induction 1 as [|kv l Hkv Hl IH]; [reflexivity|].
  unfold with_confidence in *. cbn [filter].
  destruct (Qeq_bool (snd kv) c) eqn:E; [|exact IH].
  apply Qeq_bool_iff in E. rewrite E in Hkv. exfalso. exact (Qlt_irrefl _ Hkv).
Qed.

Lemma stable_descending_head (d l before after : list (string * Q))
      (best : string) (c : Q) :
  stable_descending d l ->
  d = (before ++ (best, c) :: after)%list ->
  Forall (fun kv => snd kv < c) before ->
  Forall (fun kv => snd kv <= c) after ->
  exists rest, l = (best, c) :: rest.
Proof.
  intros (Hperm & Hsorted & Hstable) Hd Hb Ha.
  assert (Hin : In (best, c) l).
  { eapply Permutation_in; [apply Permutation_sym, Hperm|].
    rewrite Hd. apply in_elt. }
  destruct l as [|h t]; [contradiction|].
  assert (Hhc : snd h <= c).
  { assert (Hh : In h d) by (eapply Permutation_in; [exact Hperm|now left]).
    rewrite Hd in Hh. apply in_app_or in Hh. destruct Hh as [Hh|[Hh|Hh]].
    - rewrite Forall_forall in Hb. apply Qlt_le_weak. now apply Hb.
    - subst h. apply Qle_refl.
    - rewrite Forall_forall in Ha. now apply Ha. }
  assert (Hch : c <= snd h).
  { destruct Hin as [Hin|Hin]; [subst h; apply Qle_refl|].
    apply StronglySorted_inv in Hsorted. destruct Hsorted as [_ Hall].
    rewrite Forall_forall in Hall. exact (Hall _ Hin). }
  assert (Heq : Qeq_bool (snd h) c = true).
  { apply Qeq_bool_iff. now apply Qle_antisym. }
  specialize (Hstable c). unfold with_confidence in Hstable.
  cbn [filter] in Hstable. rewrite Heq in Hstable.
  rewrite Hd, filter_app in Hstable.
  fold (with_confidence c before) in Hstable.
  rewrite (below_are_filtered Hb) in Hstable.
  cbn [filter app snd] in Hstable. rewrite Qeq_bool_refl in Hstable.
  injection Hstable as Hh _. exists t. now rewrite Hh.
Qed.

Lemma first_suggestion_selected (self : AgentSelector.t) (task : string)
        (top_n : Z) :
  wf_catalog self -> agents self <> [] -> (0 < top_n)%Z ->
  exists best c text others,
    select_best_agent self task 0 = Ok (best, c, analyze_task self task) /\
    get_agent_suggestions self task top_n = Ok ((best, c, text) :: others).
Proof.
  intros Hwf Hne Hn. pose proof (proj1 Hwf) as Hnd.
  destruct (@first_maximum_selected self task 0 Hnd Hne)
    as (before & best & c & after & Hd & Hb & Ha & _ & _ & Hsel).
  assert (Hpos : Qltb c 0 = false).
  { apply Qltb_ge.
    pose proof (normalize_bounds (@raw_scores_nonneg self task Hwf)) as Hbounds.
    fold (analyze_task self task) in Hbounds. rewrite Hd in Hbounds.
    rewrite Forall_forall in Hbounds.
    exact (proj1 (Hbounds (best, c) (in_elt _ _ _))). }
  rewrite Hpos in Hsel.
  destruct (@suggestions_ok self task top_n Hnd) as (sugg & Hsugg & Hm).
  destruct (@stable_descending_head _ _ before after best c
              (Router.sorted_reverse_stable_descending
                 (items (analyze_task self task))) Hd Hb Ha) as (rest & Hrest).
  rewrite Hrest, Router.slice_to_nonneg in Hm by lia.
  destruct (Z.to_nat top_n) as [|k] eqn:Hk; [lia|].
  cbn [firstn] in Hm.
  destruct sugg as [|[[k' c'] text] others]; [discriminate Hm|].
  cbn [map fst] in Hm. injection Hm as Hk' Hc' _. subst k' c'.
  exists best, c, text, others. auto.
Qed.

(** X5.  On the program's catalog, the first suggestion of
    [get_agent_suggestions], when at least one is asked for, is the
    handler, with its confidence, that [select_best_agent] picks when the
    threshold does not override the choice (threshold 0): ranking and
    selection break ties the same way. *)
Theorem top_suggestion_is_the_selection (task : string) (top_n : Z) :
  (0 < top_n)%Z ->
  exists best c text others,
    select_best_agent init task 0 = Ok (best, c, analyze_task init task) /\
    get_agent_suggestions init task top_n = Ok ((best, c, text) :: others).
Proof.
  intros Hn. apply first_suggestion_selected; [exact init_wf|discriminate|exact Hn].
Qed.

Lemma top_suggestion_is_the_selection_witness :
  (0 < default_top_n)%Z /\
  exists best c text others,
    select_best_agent init "Build a web scraper for news articles" 0
    = Ok (best, c, analyze_task init "Build a web scraper for news articles") /\
    get_agent_suggestions init "Build a web scraper for news articles" default_top_n
    = Ok ((best, c, text) :: others).
Proof.
  assert (H : (0 < default_top_n)%Z) by reflexivity.
  split; [exact H|].
  exact (@top_suggestion_is_the_selection
           "Build a web scraper for news articles" default_top_n H).
Defined.

(** X6.  On an empty catalog [analyze_task] returns an empty distribution
    without dividing, [select_best_agent] raises [ValueError] (the maximum
    of an empty sequence) and [get_agent_suggestions] returns no
    suggestion, for every text. *)
Theorem empty_catalog (task : string) (threshold : Q) (top_n : Z) :
  let nobody := {| agents := [] |} in
  analyze_task nobody task = [] /\
  select_best_agent nobody task threshold = Raise ValueError /\
  get_agent_suggestions nobody task top_n = Ok [].
Proof.
  cbn zeta. repeat split.
  rewrite get_agent_suggestions_unfold. unfold slice_to. cbn.
  now destruct (top_n <? 0)%Z; rewrite firstn_nil.
Qed.


(** ** Which handlers get a positive confidence *)

Lemma agent_score_pos_iff (task : string) (agent : AgentCapability) :
  (0 < priority_score agent)%Z ->
  (0 < agent_score (lower task) agent <->
   existsb (fun keyword => contains keyword (lower task)) (keywords agent) = true).
Proof.
  intros Hw. rewrite agent_score_spec. split.
  - intros Hpos.
    destruct (existsb _ (keywords agent)) eqn:E; [reflexivity|].
    apply matched_keywords_nil in E.
    rewrite (spec_raw_score_zero _ _ E) in Hpos.
    exfalso. exact (Qlt_irrefl _ Hpos).
  - intros E. apply spec_raw_score_pos; [exact Hw|].
    intros Hnil. apply matched_keywords_nil in Hnil. congruence.
Qed.

Lemma divide_keeps_sign (m : Q) (scores : dict Q) :
  0 < m ->
  Forall2 (fun raw entry => fst entry = fst raw /\ (0 < snd entry <-> 0 < snd raw))
          scores (map (fun '(k, v) => (k, v / m)) scores).
Proof.
  intros Hm.
  assert (Hne : ~ m == 0).
  { intros H. rewrite H in Hm. exact (Qlt_irrefl _ Hm). }
  induction scores as [|[k v] l IH]; [constructor|].
  cbn [map]. constructor; [|exact IH].
  cbn [fst snd]. split; [reflexivity|]. split.
  - intros Hpos. rewrite <- (Qmult_div_r v m Hne).
    now apply Qmult_lt_0_compat.
  - intros Hpos. apply Qlt_shift_div_l; [exact Hm|]. now rewrite Qmult_0_l.
Qed.

Lemma normalize_keeps_sign (scores : dict Q) :
  Forall2 (fun raw entry => fst entry = fst raw /\ (0 < snd entry <-> 0 < snd raw))
          scores (normalize scores).
Proof.
  rewrite normalize_unfold. destruct (Qltb 0 (max_score scores)) eqn:E.
  - apply Qltb_lt in E. now apply divide_keeps_sign.
  - clear E. induction scores as [|kv l IH]; constructor; [tauto|exact IH].
Qed.

Lemma sign_follows_keywords (task : string) (l : list (string * AgentCapability)) :
  forall norm : dict Q,
  Forall (fun agent => (0 < priority_score agent)%Z) (map snd l) ->
  Forall2 (fun raw entry => fst entry = fst raw /\ (0 < snd entry <-> 0 < snd raw))
          (map (fun '(agent_name, agent) =>
                  (agent_name, agent_score (lower task) agent)) l)
          norm ->
  Forall2 (fun profile entry =>
             fst entry = fst profile /\
             (0 < snd entry <->
              existsb (fun keyword => contains keyword (lower task))
                      (keywords (snd profile)) = true))
          l norm.
Proof.
  induction l as [|[k a] l IH]; intros norm Hw Hsign.
  - inversion Hsign. constructor.
  - cbn [map] in Hsign, Hw.
    inversion Hsign as [|? e ? norm' [Hk Hs] Hrest]; subst.
    inversion Hw as [|? ? Hwa Hwl]; subst.
    constructor.
    + cbn [fst snd] in *. split; [exact Hk|].
      rewrite Hs. now apply agent_score_pos_iff.
    + now apply IH.
Qed.

Lemma confidence_sign (self : AgentSelector.t)
        (task : string) :
  wf_catalog self ->
  Forall2 (fun profile entry =>
             fst entry = fst profile /\
             (0 < snd entry <->
              existsb (fun keyword => contains keyword (lower task))
                      (keywords (snd profile)) = true))
          (agents self) (analyze_task self task).
Proof.
  intros [Hnd Hw]. unfold analyze_task.
  apply sign_follows_keywords; [exact Hw|].
  rewrite <- (raw_scores_map self task Hnd).
  apply normalize_keeps_sign.
Qed.

(** X7.  On the program's catalog, [analyze_task] returns one entry per
    handler, in catalog order, and a handler's confidence is positive
    exactly when one of its keywords occurs in the lower-cased text. *)
Theorem confidence_positive_iff_keyword_occurs (task : string) :
  Forall2 (fun profile entry =>
             fst entry = fst profile /\
             (0 < snd entry <->
              existsb (fun keyword => contains keyword (lower task))
                      (keywords (snd profile)) = true))
          (agents init) (analyze_task init task).
Proof. exact (@confidence_sign init task init_wf). Qed.

(** ** The keyword that is the whole input *)

Lemma prefix_rstrip (s : string) : prefix (rstrip s) s = true.
Proof.
  induction s as [|c s IH]; [reflexivity|].
  cbn [rstrip]. destruct (rstrip s) as [|c' r] eqn:E.
  - destruct (isspace c); [reflexivity|].
    cbn [prefix]. destruct (ascii_dec c c); [exact IH|congruence].
  - cbn [prefix]. destruct (ascii_dec c c); [exact IH|congruence].
Qed.

Lemma prefix_contains (p s : string) : prefix p s = true -> contains p s = true.
Proof. intros H. destruct s; cbn [contains]; now rewrite H. Qed.

Lemma contains_lstrip (sub s : string) :
  contains sub (lstrip s) = true -> contains sub s = true.
Proof.
  induction s as [|c s IH]; [auto|].
  cbn [lstrip]. destruct (isspace c); [|auto].
  intros H. cbn [contains]. rewrite (IH H). apply orb_true_r.
Qed.

Lemma contains_strip (s : string) : contains (strip s) s = true.
Proof.
  unfold strip. apply contains_lstrip, prefix_contains, prefix_rstrip.
Qed.

Lemma Qsum_points_without (task : string) (l : list string) :
  ~ In (strip (lower task)) l ->
  Qsum (map (keyword_points task) l) == inject_Z (Z.of_nat (length l)).
Proof.
  induction l as [|x l IH]; intros Hnotin; [reflexivity|].
  cbn [map Qsum length]. unfold keyword_points at 1.
  destruct (String.eqb_spec x (strip (lower task))) as [->|Hne].
  - exfalso. apply Hnotin. now left.
  - rewrite IH by (intros H; apply Hnotin; now right).
    rewrite Nat2Z.inj_succ, <- Z.add_1_l, inject_Z_plus. reflexivity.
Qed.

Lemma Qsum_points_with (task : string) (l : list string) :
  NoDup l -> In (strip (lower task)) l ->
  Qsum (map (keyword_points task) l) == inject_Z (Z.of_nat (length l)) + 1.
Proof.
  induction 1 as [|x l Hx Hnd IH]; intros Hin; [contradiction|].
  cbn [map Qsum length]. unfold keyword_points at 1.
  rewrite Nat2Z.inj_succ, <- Z.add_1_l, inject_Z_plus.
  destruct (String.eqb_spec x (strip (lower task))) as [Heq|Hne].
  - subst x. rewrite (Qsum_points_without _ _ Hx). ring.
  - destruct Hin as [Hin|Hin]; [congruence|]. rewrite (IH Hin). ring.
Qed.

Lemma exact_keyword_score (task : string) (agent : AgentCapability) :
  NoDup (keywords agent) ->
  In (strip (lower task)) (keywords agent) ->
  let k := length (matched_keywords task agent) in
  In (strip (lower task)) (matched_keywords task agent) /\
  agent_score (lower task) agent
  == (inject_Z (Z.of_nat k) + 1) * inject_Z (priority_score agent)
     * (if (1 <? k)%nat then 1 + 0.2 * (inject_Z (Z.of_nat k) - 1) else 1).
Proof.
  intros Hnd Hin. cbn zeta.
  assert (Hm : In (strip (lower task)) (matched_keywords task agent)).
  { unfold matched_keywords. apply filter_In. split; [exact Hin|].
    apply contains_strip. }
  split; [exact Hm|].
  rewrite agent_score_spec. unfold spec_raw_score. cbn zeta.
  assert (Hsum : Qsum (map (keyword_points task) (matched_keywords task agent))
                 == inject_Z (Z.of_nat (length (matched_keywords task agent))) + 1).
  { apply Qsum_points_with; [|exact Hm]. now apply NoDup_filter. }
  destruct (1 <? length (matched_keywords task agent))%nat; rewrite Hsum; ring.
Qed.

Lemma nodup_fixed (l : list string) : nodup string_dec l = l -> NoDup l.
Proof. intros H. rewrite <- H. apply NoDup_nodup. Qed.

Lemma init_keywords_nodup (agent_name : string) (agent : AgentCapability) :
  getitem (agents init) agent_name = Ok agent -> NoDup (keywords agent).
Proof.
  cbn [getitem agents init].
  repeat match goal with
         | |- (if ?b then _ else _) = _ -> _ => destruct b
         end;
    intros H; try discriminate H; injection H as <-;
    apply nodup_fixed; vm_compute; reflexivity.
Qed.

(** X8.  When the trimmed lower-cased text is itself one of the keywords
    of a profile of the program's catalog, that keyword is among the
    matched ones and counts double: with [k] matched keywords the raw
    score of the profile is [(k + 1)] times its weight, times the bonus
    [1 + 0.2 * (k - 1)] when [k > 1]. *)
Theorem exact_keyword_counts_double (task agent_name : string)
        (agent : AgentCapability) :
  getitem (agents init) agent_name = Ok agent ->
  In (strip (lower task)) (keywords agent) ->
  let k := length (matched_keywords task agent) in
  In (strip (lower task)) (matched_keywords task agent) /\
  agent_score (lower task) agent
  == (inject_Z (Z.of_nat k) + 1) * inject_Z (priority_score agent)
     * (if (1 <? k)%nat then 1 + 0.2 * (inject_Z (Z.of_nat k) - 1) else 1).
Proof.
  intros Hget Hin.
  exact (@exact_keyword_score task agent (init_keywords_nodup _ Hget) Hin).
Qed.

Lemma exact_keyword_counts_double_witness :
  exists agent,
    getitem (agents init) "data" = Ok agent /\
    In (strip (lower "  Dataset ")) (keywords agent) /\
    let k := length (matched_keywords "  Dataset " agent) in
    In (strip (lower "  Dataset ")) (matched_keywords "  Dataset " agent) /\
    agent_score (lower "  Dataset ") agent
    == (inject_Z (Z.of_nat k) + 1) * inject_Z (priority_score agent)
       * (if (1 <? k)%nat then 1 + 0.2 * (inject_Z (Z.of_nat k) - 1) else 1).
Proof.
  destruct (getitem (agents init) "data") as [agent|e] eqn:Hget;
    [|vm_compute in Hget; discriminate Hget].
  exists agent.
  assert (Hin : In (strip (lower "  Dataset ")) (keywords agent)).
  { vm_compute in Hget. injection Hget as <-. vm_compute. tauto. }
  split; [reflexivity|]. split; [exact Hin|].
  exact (@exact_keyword_counts_double "  Dataset " "data" agent Hget Hin).
Defined.

(** ** [explain_selection] *)

Import ExtraSpec.

Lemma append_assoc (a b c : string) : ((a ++ b) ++ c = a ++ b ++ c)%string.
Proof. induction a as [|x a IH]; cbn; [reflexivity|now rewrite IH]. Qed.

Lemma getitem_related {A B : Type} (P : A -> B -> Prop) (d1 : dict A) (d2 : dict B)
      (k : string) (a : A) :
  Forall2 (fun x y => fst y = fst x /\ P (snd x) (snd y)) d1 d2 ->
  getitem d1 k = Ok a ->
  exists b, getitem d2 k = Ok b /\ P a b.
Proof.
  induction 1 as [|[k1 a1] [k2 b2] d1 d2 [Hk HP] _ IH]; cbn [getitem];
    [discriminate|].
  cbn [fst snd] in Hk, HP. subst k2.
  destruct (String.eqb k k1); [|exact IH].
  intros Heq. injection Heq as ->. eauto.
Qed.

Lemma getitem_absent {V : Type} (d : dict V) (k : string) (e : exn) :
  getitem d k = Raise e -> e = KeyError k.
Proof.
  induction d as [|[k' v] d IH]; cbn [getitem].
  - intros H. now injection H.
  - destruct (String.eqb k k'); [discriminate|exact IH].
Qed.

Lemma explanation_of_catalog (upper : string -> string)
        (self : AgentSelector.t) (task selected_agent : string) :
  wf_catalog self ->
  match getitem (agents self) selected_agent with
  | Raise _ =>
      Explanation.explain_selection upper self task selected_agent
      = Raise (KeyError selected_agent)
  | Ok agent =>
      exists confidence,
        getitem (analyze_task self task) selected_agent = Ok confidence /\
        Explanation.explain_selection upper self task selected_agent
        = Ok (explanation_head upper agent task
              ++ if Qltb 0 confidence
                 then keywords_line (matched_keywords task agent)
                 else no_keywords_line)%string
  end.
Proof.
  intros [Hnd Hw].
  unfold Explanation.explain_selection. cbn zeta.
  destruct (getitem (agents self) selected_agent) as [agent|e] eqn:Hget.
  - assert (Hsign : Forall2
                      (fun profile entry =>
                         fst entry = fst profile /\
                         (0 < snd entry <->
                          existsb (fun keyword => contains keyword (lower task))
                                  (keywords (snd profile)) = true))
                      (agents self) (analyze_task self task)).
    { unfold analyze_task. apply sign_follows_keywords; [exact Hw|].
      rewrite <- (raw_scores_map self task Hnd). apply normalize_keeps_sign. }
    destruct (@getitem_related _ _
                (fun a c => 0 < c <->
                            existsb (fun keyword => contains keyword (lower task))
                                    (keywords a) = true)
                (agents self) (analyze_task self task) selected_agent agent
                Hsign Hget) as (confidence & Hc & Hiff).
    exists confidence. split; [exact Hc|].
    fold (matched_keywords task agent).
    unfold explanation_head, keywords_line, no_keywords_line.
    destruct (Qltb 0 confidence) eqn:E.
    + apply Qltb_lt in E. apply Hiff in E.
      destruct (matched_keywords task agent) as [|kw l] eqn:Hm.
      * apply matched_keywords_nil in Hm. congruence.
      * f_equal. now rewrite !append_assoc.
    + destruct (matched_keywords task agent) as [|kw l] eqn:Hm.
      * f_equal. now rewrite !append_assoc.
      * exfalso. apply Qltb_ge in E.
        assert (Hex : existsb (fun keyword => contains keyword (lower task))
                              (keywords agent) = true).
        { destruct (existsb _ (keywords agent)) eqn:Hex; [reflexivity|].
          apply matched_keywords_nil in Hex. congruence. }
        apply Hiff in Hex. exact (Qlt_not_le _ _ Hex E).
  - f_equal. exact (@getitem_absent _ _ _ _ Hget).
Qed.

(** X9.  [explain_selection] on the program's catalog.  It raises
    [KeyError] for a name that is not in the catalog.  For a handler of
    the catalog the explanation quotes the task as it was given, names
    the handler's description, and agrees with the distribution of
    [analyze_task]: when the handler's confidence is positive its last
    line lists the first five of the handler's keywords that occur in the
    lower-cased task, in catalog order, and when the confidence is zero
    it says that no keyword matched. *)
Theorem explanation_agrees_with_confidence (upper : string -> string)
        (task selected_agent : string) :
  match getitem (agents init) selected_agent with
  | Raise _ =>
      Explanation.explain_selection upper init task selected_agent
      = Raise (KeyError selected_agent)
  | Ok agent =>
      exists confidence,
        getitem (analyze_task init task) selected_agent = Ok confidence /\
        Explanation.explain_selection upper init task selected_agent
        = Ok (explanation_head upper agent task
              ++ if Qltb 0 confidence
                 then keywords_line (matched_keywords task agent)
                 else no_keywords_line)%string
  end.
Proof. exact (@explanation_of_catalog upper init task selected_agent init_wf). Qed.

(** An explanation, with the identity for [upper]: a keyword counts when
    it occurs inside a word (["bug"] in ["debug"]). *)
Example explanation_of_a_match :
  Explanation.explain_selection (fun s => s) init "Debug my Python code" "swe"
  = Ok ("Selected swe agent because:" ++ Explanation.newline
        ++ "- Task description: 'Debug my Python code'" ++ Explanation.newline
        ++ "- Agent specialization: Software engineering and development agent"
        ++ Explanation.newline
        ++ "- Matched keywords: code, python, debug, bug" ++ Explanation.newline)%string.
Proof. vm_compute. reflexivity. Qed.

End RouterExtra.


(* ================================================================== *)
(** * Further properties of the connection hub *)
(* ================================================================== *)

Module HubExtra.

Import Py Hub HubSpec ExtraSpec HubFacts.
Open Scope string_scope.
Open Scope hub_scope.

Unset Implicit Arguments.

(** ** [real_backend_fixed.py]: broadcasts *)

Lemma healthy_sends (net : transport) (m : event) (live : list WebSocket) :
  Forall (fun ws => send_ok net m ws = true) live ->
  flat_map (send_events net m) live = map (fun ws => Sent ws m) live /\
  survivors net m live = live /\
  failed net m live = [].
Proof.
  induction 1 as [|ws live Hws Hlive (IH1 & IH2 & IH3)]; [auto|].
  unfold survivors, failed in *. cbn [flat_map map filter].
  rewrite Hws, IH1, IH2, IH3. cbn [negb]. repeat split.
  unfold send_events. unfold send_ok in Hws.
  destruct (net ws m); [discriminate|reflexivity].
Qed.

Lemma healthy_broadcast_run (net : transport) (m : event) (s : state) :
  Forall (fun ws => send_ok net m ws = true) (connected_clients s) ->
  RealBackendFixed.broadcast_to_clients net m s
  = (Return tt, after s (map (fun ws => Sent ws m) (connected_clients s))).
Proof.
  intros H. rewrite broadcast_run'. unfold broadcast_events.
  destruct (healthy_sends net m _ H) as (H1 & H2 & H3).
  rewrite H1, H2, H3. cbn [flat_map]. rewrite app_nil_r.
  now rewrite with_clients_same.
Qed.

(** X10.  When the send of the event succeeds for every live session,
    [broadcast_to_clients] delivers it once to each, in the order of the
    live list, and does nothing else: nothing is logged, nobody is
    removed, no task is touched. *)
Theorem broadcast_to_healthy_sessions (net : transport) (m : event) (s : state) :
  Forall (fun ws => send_ok net m ws = true) (connected_clients s) ->
  let r := RealBackendFixed.broadcast_to_clients net m s in
  result r = Return tt /\
  connected_clients (final r) = connected_clients s /\
  tasks (final r) = tasks s /\
  trace (final r) = (trace s ++ map (fun ws => Sent ws m) (connected_clients s))%list.
Proof.
  intros H. cbn zeta. rewrite (healthy_broadcast_run net m s H). repeat split.
Qed.

Lemma broadcast_to_healthy_sessions_witness :
  Forall (fun ws => send_ok open_net heartbeat ws = true)
         (connected_clients (idle [1; 2; 3])) /\
  let r := RealBackendFixed.broadcast_to_clients open_net heartbeat (idle [1; 2; 3]) in
  result r = Return tt /\
  connected_clients (final r) = connected_clients (idle [1; 2; 3]) /\
  tasks (final r) = tasks (idle [1; 2; 3]) /\
  trace (final r)
  = (trace (idle [1; 2; 3])
     ++ map (fun ws => Sent ws heartbeat) (connected_clients (idle [1; 2; 3])))%list.
Proof.
  assert (H : Forall (fun ws => send_ok open_net heartbeat ws = true)
                     (connected_clients (idle [1; 2; 3]))).
  { simpl. repeat constructor. }
  split; [exact H|].
  exact (@broadcast_to_healthy_sessions open_net heartbeat (idle [1; 2; 3]) H).
Defined.

(** ** [real_backend_fixed.py]: the periodic tasks *)

Lemma periodic_loop_run (nets : timeline) (ws : WebSocket) (m : event) :
  forall s : state,
  RealBackendFixed.periodic_loop nets ws m s
  = match first_failure nets ws m with
    | None =>
        (Suspended, after s (repeat (Sent ws m) (sends_before_failure nets ws m)))
    | Some net =>
        (Return tt,
         after s (repeat (Sent ws m) (sends_before_failure nets ws m)
                  ++ send_events net m ws))
    end.
Proof.
  induction nets as [|net later IH]; intros s.
  - cbn. now rewrite after_nil.
  - cbn [RealBackendFixed.periodic_loop first_failure sends_before_failure].
    erewrite bind_return by apply safe_send_run.
    destruct (send_ok net m ws) eqn:E; [|reflexivity].
    rewrite IH.
    assert (Hev : send_events net m ws = [Sent ws m]).
    { unfold send_events. unfold send_ok in E.
      destruct (net ws m); [discriminate|reflexivity]. }
    rewrite Hev.
    destruct (first_failure later ws m); rewrite after_after; reflexivity.
Qed.

Lemma no_failure_all_sent (nets : timeline) (ws : WebSocket) (m : event) :
  first_failure nets ws m = None ->
  sends_before_failure nets ws m = length nets.
Proof.
  induction nets as [|net later IH]; [reflexivity|].
  cbn [first_failure sends_before_failure length].
  destruct (send_ok net m ws); [|discriminate].
  intros H. now rewrite IH.
Qed.

Lemma periodic_task_run (nets : timeline) (ws : WebSocket) (m : event)
      (s : state) (handler : exn -> M unit) :
  periodic_behaviour nets ws m s
    (try_except (RealBackendFixed.periodic_loop nets ws m) handler s).
Proof.
  unfold periodic_behaviour, try_except. rewrite periodic_loop_run. cbn zeta.
  destruct (first_failure nets ws m) eqn:E; [repeat split|].
  split; [reflexivity|]. split; [reflexivity|]. split; [reflexivity|].
  split; [now apply no_failure_all_sent|reflexivity].
Qed.

(** X12.  [heartbeat_task] and [metrics_task] never raise and never touch
    the live list or the tasks.  Along any timeline they send one event
    at each wake-up as long as the session accepts it, and go back to
    sleep; at the first wake-up whose send fails, after however many
    deliveries, they record the failure and end by themselves, sending
    nothing afterwards even if the session were reachable again, and the
    session stays registered. *)
Theorem periodic_tasks_stop_at_failed_send (nets : timeline) (ws : WebSocket)
        (s : state) :
  periodic_behaviour nets ws heartbeat s
    (RealBackendFixed.heartbeat_task nets ws s) /\
  periodic_behaviour nets ws system_metrics s
    (RealBackendFixed.metrics_task nets ws s).
Proof. split; apply periodic_task_run. Qed.

(** Two heartbeats, then the client is gone: the task ends at the third
    wake-up and does not see the fourth. *)
Example heartbeat_stops_after_two_beats :
  let r := RealBackendFixed.heartbeat_task (closes_after_two 2) 2 (idle [1; 2]) in
  result r = Return tt /\
  connected_clients (final r) = [1; 2] /\
  trace (final r)
  = [Sent 2 heartbeat; Sent 2 heartbeat;
     SendFailed 2 heartbeat WebSocketDisconnect;
     Logged INFO "Client disconnected during send"].
Proof. vm_compute. repeat split. Qed.

(** ** [real_backend_fixed.py]: the chat endpoint *)

Lemma chat_endpoint_explicit_run (net : transport)
      (llm : RealBackendFixed.collaborator)
      (chat_message : RealBackendFixed.ChatMessage) (s : state) :
  RealBackendFixed.auto_select chat_message
  && String.eqb (RealBackendFixed.agent_type chat_message) "auto" = false ->
  let msg := RealBackendFixed.message chat_message in
  let target := RealBackendFixed.agent_type chat_message in
  let m2 := agent_status target "thinking" false in
  let m3 := agent_response
              (RealBackendFixed.set_auto_selected (llm_response llm msg target) false) in
  let live1 := survivors net m2 (connected_clients s) in
  RealBackendFixed.chat_endpoint net llm chat_message s
  = (Return "success",
     after (with_clients s (survivors net m3 live1))
           ([Logged INFO "Chat request"]
            ++ broadcast_events net m2 (connected_clients s)
            ++ llm_events llm msg target
            ++ broadcast_events net m3 live1
            ++ [Logged INFO "Chat response sent"])).
Proof.
  intros Hexplicit. cbn zeta.
  unfold RealBackendFixed.chat_endpoint. cbn zeta. rewrite Hexplicit.
  erewrite bind_return.
  2:{ apply try_except_return.
      erewrite bind_return by apply log_run. reflexivity. }
  cbn [fst snd].
  apply try_except_return.
  erewrite bind_return by apply broadcast_run'.
  erewrite bind_return by apply get_llm_response_run.
  erewrite bind_return by apply broadcast_run'.
  erewrite bind_return by apply log_run.
  unfold ret, after, with_clients.
  cbn [connected_clients tasks trace].
  rewrite <- !app_assoc. reflexivity.
Qed.

(** X13.  For a chat request that names its handler (automatic selection
    switched off, or a handler other than ["auto"]), [chat_endpoint]
    broadcasts no selection: the status, then one response that names the
    requested handler, with the tools [AGENT_CONFIGS] gives for that name
    (those of ["manus"] for a name it does not know) when the collaborator
    answered and none when it failed.  An unknown handler name is not an
    error. *)
Theorem explicit_chat_skips_selection (net : transport)
        (llm : RealBackendFixed.collaborator)
        (chat_message : RealBackendFixed.ChatMessage) (s : state) :
  RealBackendFixed.auto_select chat_message
  && String.eqb (RealBackendFixed.agent_type chat_message) "auto" = false ->
  let msg := RealBackendFixed.message chat_message in
  let target := RealBackendFixed.agent_type chat_message in
  let answer := RealBackendFixed.set_auto_selected (llm_response llm msg target) false in
  let m2 := agent_status target "thinking" false in
  let m3 := agent_response answer in
  let r := RealBackendFixed.chat_endpoint net llm chat_message s in
  result r = Return "success" /\
  trace (final r)
  = (trace s
     ++ [Logged INFO "Chat request"]
     ++ broadcast_events net m2 (connected_clients s)
     ++ llm_events llm msg target
     ++ broadcast_events net m3 (survivors net m2 (connected_clients s))
     ++ [Logged INFO "Chat response sent"])%list /\
  agent answer = target /\
  auto_selected answer = false /\
  error answer = llm_fails llm msg target /\
  tools_used answer
  = if llm_fails llm msg target then []
    else match getitem RealBackendFixed.AGENT_CONFIGS target with
         | Ok tools => tools
         | Raise _ => ["General Knowledge"; "Problem Solving"; "Guidance"]
         end.
Proof.
  intros Hexplicit. cbn zeta.
  rewrite (chat_endpoint_explicit_run net llm chat_message s Hexplicit).
  unfold result, final. cbn [fst snd after with_clients trace].
  split; [reflexivity|]. split; [reflexivity|].
  unfold llm_response, llm_fails.
  destruct (llm (RealBackendFixed.message chat_message)
                (RealBackendFixed.agent_type chat_message)); repeat split.
Qed.

Lemma explicit_chat_skips_selection_witness :
  RealBackendFixed.auto_select pirate_request
  && String.eqb (RealBackendFixed.agent_type pirate_request) "auto" = false /\
  let msg := RealBackendFixed.message pirate_request in
  let target := RealBackendFixed.agent_type pirate_request in
  let answer := RealBackendFixed.set_auto_selected (llm_response llm_up msg target) false in
  let m2 := agent_status target "thinking" false in
  let m3 := agent_response answer in
  let r := RealBackendFixed.chat_endpoint (net_without 2) llm_up pirate_request
             (idle [1; 2]) in
  result r = Return "success" /\
  trace (final r)
  = (trace (idle [1; 2])
     ++ [Logged INFO "Chat request"]
     ++ broadcast_events (net_without 2) m2 (connected_clients (idle [1; 2]))
     ++ llm_events llm_up msg target
     ++ broadcast_events (net_without 2) m3
          (survivors (net_without 2) m2 (connected_clients (idle [1; 2])))
     ++ [Logged INFO "Chat response sent"])%list /\
  agent answer = target /\
  auto_selected answer = false /\
  error answer = llm_fails llm_up msg target /\
  tools_used answer
  = if llm_fails llm_up msg target then []
    else match getitem RealBackendFixed.AGENT_CONFIGS target with
         | Ok tools => tools
         | Raise _ => ["General Knowledge"; "Problem Solving"; "Guidance"]
         end.
Proof.
  split; [reflexivity|].
  exact (explicit_chat_skips_selection (net_without 2) llm_up pirate_request
           (idle [1; 2]) eq_refl).
Defined.

Lemma sent_by_broadcast (net : transport) (m m' : event) (ws : WebSocket)
      (live : list WebSocket) :
  In (Sent ws m') (broadcast_events net m live) -> m' = m.
Proof.
  unfold broadcast_events. intros H. apply in_app_or in H. destruct H as [H|H].
  - apply in_flat_map in H. destruct H as (c & _ & H).
    unfold send_events in H.
    destruct (net c m) as [e|]; [destruct e|]; simpl in H;
      intuition (try discriminate); congruence.
  - apply in_flat_map in H. destruct H as (c & _ & H).
    simpl in H. intuition discriminate.
Qed.

Lemma llm_events_send_nothing (llm : RealBackendFixed.collaborator)
      (msg target : string) (ws : WebSocket) (m : event) :
  ~ In (Sent ws m) (llm_events llm msg target).
Proof.
  unfold llm_events. destruct (llm msg target); simpl; intuition discriminate.
Qed.

(** X14.  [chat_endpoint] answers every request: whatever the request,
    the transport and the collaborator, it returns normally, and no
    [agent_error] event is ever sent to anybody; its [except] block, the
    [agent_error] broadcast and the HTTP 500 are never reached. *)
Theorem chat_never_fails (net : transport) (llm : RealBackendFixed.collaborator)
        (chat_message : RealBackendFixed.ChatMessage) (s : state) :
  let r := RealBackendFixed.chat_endpoint net llm chat_message s in
  result r = Return "success" /\
  exists new,
    trace (final r) = (trace s ++ new)%list /\
    forall ws m, In (Sent ws m) new -> is_agent_error m = false.
Proof.
  cbn zeta.
  destruct (RealBackendFixed.auto_select chat_message
            && String.eqb (RealBackendFixed.agent_type chat_message) "auto")
    eqn:Hauto.
  - apply andb_true_iff in Hauto. destruct Hauto as [Ha Ht].
    apply String.eqb_eq in Ht.
    destruct chat_message as [msg target auto].
    cbn [RealBackendFixed.agent_type RealBackendFixed.auto_select] in *.
    subst target auto.
    destruct (Router.select_best_agent_total msg AgentSelector.default_threshold)
      as (selected & confidence & Hsel).
    rewrite (chat_endpoint_auto_run net llm msg s Hsel).
    split; [reflexivity|]. eexists. split; [reflexivity|].
    intros ws m Hin.
    rewrite !in_app_iff in Hin.
    destruct Hin as [Hin|[Hin|[Hin|[Hin|[Hin|Hin]]]]];
      try (apply sent_by_broadcast in Hin; subst m; reflexivity);
      try (exfalso; revert Hin; apply llm_events_send_nothing);
      simpl in Hin; intuition discriminate.
  - rewrite (chat_endpoint_explicit_run net llm chat_message s Hauto).
    split; [reflexivity|]. eexists. split; [reflexivity|].
    intros ws m Hin.
    rewrite !in_app_iff in Hin.
    destruct Hin as [Hin|[Hin|[Hin|[Hin|Hin]]]];
      try (apply sent_by_broadcast in Hin; subst m; reflexivity);
      try (exfalso; revert Hin; apply llm_events_send_nothing);
      simpl in Hin; intuition discriminate.
Qed.


(** ** [real_backend_fixed.py]: the session endpoint *)

Lemma accepted_send (net : transport) (ws : WebSocket) (m : event) :
  accepts_all net ws ->
  send_ok net m ws = true /\ send_events net m ws = [Sent ws m].
Proof.
  intros H. unfold send_ok, send_events. now rewrite (H m).
Qed.

Lemma echo_loop_run (net : transport) (ws : WebSocket) :
  accepts_all net ws ->
  forall (inbox : list RealBackendFixed.received) (s : state),
  exists evs,
    delivered_to ws evs = echo_replies inbox /\
    if hangs_up inbox
    then exists e, RealBackendFixed.read_loop net ws inbox s = (Throw e, after s evs)
    else RealBackendFixed.read_loop net ws inbox s = (Suspended, after s evs).
Proof.
  intros Hnet inbox.
  induction inbox as [|r inbox IH]; intros s.
  - exists []. split; [reflexivity|]. cbn. now rewrite after_nil.
  - assert (Hgo : forall (m : event) (pre : list effect),
               delivered_to ws pre = [] ->
               exists evs,
                 delivered_to ws evs = m :: echo_replies inbox /\
                 if hangs_up inbox
                 then exists e,
                     RealBackendFixed.read_loop net ws inbox
                       (after (after s pre) (send_events net m ws))
                     = (Throw e, after s evs)
                 else RealBackendFixed.read_loop net ws inbox
                        (after (after s pre) (send_events net m ws))
                      = (Suspended, after s evs)).
    { intros m pre Hpre.
      destruct (accepted_send net ws m Hnet) as [_ Hev]. rewrite Hev.
      destruct (IH (after (after s pre) [Sent ws m])) as (evs & Hd & Hrun).
      exists (pre ++ [Sent ws m] ++ evs)%list. split.
      - rewrite !delivered_to_app, Hpre, Hd. cbn. now rewrite Nat.eqb_refl.
      - rewrite !after_after in Hrun. rewrite <- app_assoc in Hrun.
        rewrite !after_after. exact Hrun. }
    destruct r as [data|e].
    + destruct (Hgo (echo ("Received: " ++ data))
                    [Logged INFO "Received WebSocket message"] eq_refl)
        as (evs & Hd & Hrun).
      exists evs. split; [exact Hd|].
      cbn [hangs_up RealBackendFixed.read_loop].
      erewrite bind_return; [exact Hrun|].
      apply try_except_return.
      erewrite bind_return by reflexivity.
      erewrite bind_return by apply log_run.
      erewrite bind_return by apply safe_send_run.
      reflexivity.
    + destruct e;
        try (exists []; split; [reflexivity|];
             cbn [hangs_up]; eexists;
             rewrite after_nil; reflexivity).
      destruct (Hgo ping [] eq_refl) as (evs & Hd & Hrun).
      exists evs. split; [exact Hd|].
      cbn [hangs_up RealBackendFixed.read_loop].
      rewrite after_nil in Hrun.
      erewrite bind_return; [exact Hrun|].
      unfold try_except. cbn [bind raise].
      erewrite bind_return by apply safe_send_run.
      reflexivity.
Qed.

(** X15.  The echo protocol of the session endpoint.  A session whose
    sends are all accepted receives [connection_established], then, in
    the order of what the server receives from it, the echo of each text
    frame and a ping for each receive that timed out, up to the first
    receive that fails otherwise.  The endpoint returns when there is
    such a failure and stays in its read loop when there is none; a
    timeout alone never ends the session. *)
Theorem echo_protocol (net : transport) (ws : WebSocket)
        (inbox : list RealBackendFixed.received) (s : state) :
  accepts_all net ws ->
  let r := RealBackendFixed.websocket_endpoint net ws inbox s in
  result r = (if hangs_up inbox then Return tt else Suspended) /\
  exists new,
    trace (final r) = (trace s ++ new)%list /\
    delivered_to ws new = connection_established :: echo_replies inbox.
Proof.
  intros Hnet. cbn zeta. rewrite endpoint_setup_run.
  assert (Hsetup : delivered_to ws (setup_events net ws) = [connection_established]).
  { unfold setup_events.
    destruct (accepted_send net ws connection_established Hnet) as [_ Hev].
    rewrite Hev. cbn. now rewrite Nat.eqb_refl. }
  destruct (echo_loop_run net ws Hnet inbox (setup_state net ws s))
    as (evs & Hd & Hrun).
  destruct (hangs_up inbox).
  - destruct Hrun as (e & Hrun).
    destruct (endpoint_handler_run e (after (setup_state net ws s) evs))
      as (level & text & Hh).
    unfold try_finally, try_except. rewrite Hrun, Hh.
    rewrite cleanup_run
      by (cbn [after setup_state connected_clients]; apply mem_in;
          apply in_or_app; right; now left).
    split; [reflexivity|].
    exists ((setup_events net ws ++ evs ++ [Logged level text])
            ++ cleanup_trace ws)%list.
    unfold final. cbn [snd after setup_state trace]. split.
    + now rewrite <- !app_assoc.
    + rewrite !delivered_to_app, Hsetup, Hd. cbn. now rewrite !app_nil_r.
  - unfold try_finally, try_except. rewrite Hrun.
    split; [reflexivity|].
    exists (setup_events net ws ++ evs)%list.
    unfold final. cbn [snd after setup_state trace]. split.
    + now rewrite <- app_assoc.
    + now rewrite delivered_to_app, Hsetup, Hd.
Qed.

Lemma echo_protocol_witness :
  accepts_all open_net 3 /\
  let inbox := [RealBackendFixed.Text "hi"; RealBackendFixed.Raises TimeoutError;
                RealBackendFixed.Raises WebSocketDisconnect;
                RealBackendFixed.Text "late"] in
  let r := RealBackendFixed.websocket_endpoint open_net 3 inbox (idle [1; 2]) in
  result r = (if hangs_up inbox then Return tt else Suspended) /\
  exists new,
    trace (final r) = (trace (idle [1; 2]) ++ new)%list /\
    delivered_to 3 new = connection_established :: echo_replies inbox.
Proof.
  assert (H : accepts_all open_net 3) by (intros m; reflexivity).
  split; [exact H|].
  exact (echo_protocol open_net 3
           [RealBackendFixed.Text "hi"; RealBackendFixed.Raises TimeoutError;
            RealBackendFixed.Raises WebSocketDisconnect;
            RealBackendFixed.Text "late"] (idle [1; 2]) H).
Defined.

Lemma cleanup_absent_run (ws : WebSocket) (s : state) :
  mem ws (connected_clients s) = false ->
  RealBackendFixed.cleanup ws s
  = (Return tt,
     {| connected_clients := connected_clients s;
        tasks := cleanup_tasks ws (tasks s);
        trace := trace s ++ [TaskCancelled (Heartbeat, ws);
                             TaskCancelled (Metrics, ws);
                             Logged INFO "WebSocket connection closed"] |}).
Proof.
  intros Hmem. unfold RealBackendFixed.cleanup.
  erewrite bind_return by apply cancel_run.
  erewrite bind_return by apply cancel_run.
  erewrite bind_return by reflexivity.
  cbn [after with_tasks connected_clients]. rewrite Hmem.
  erewrite bind_return by reflexivity.
  rewrite log_run.
  unfold after, with_tasks, cleanup_tasks. cbn [connected_clients tasks trace].
  now rewrite <- !app_assoc.
Qed.

(** X16.  A session that a broadcast evicts because its send failed keeps
    its two background tasks: the broadcast removes it from the live list
    and cancels nothing.  The [finally] block of its endpoint, run later,
    still returns normally: it cancels both tasks and, finding the
    session already gone, removes nothing. *)
Theorem evicted_session_is_cleaned_up_later (net : transport) (m : event)
        (ws : WebSocket) (s : state) :
  send_ok net m ws = false ->
  let r1 := RealBackendFixed.broadcast_to_clients net m s in
  let r2 := RealBackendFixed.cleanup ws (final r1) in
  ~ In ws (connected_clients (final r1)) /\
  tasks (final r1) = tasks s /\
  result r2 = Return tt /\
  connected_clients (final r2) = connected_clients (final r1) /\
  tasks (final r2) = cleanup_tasks ws (tasks s) /\
  trace (final r2)
  = (trace (final r1)
     ++ [TaskCancelled (Heartbeat, ws); TaskCancelled (Metrics, ws);
         Logged INFO "WebSocket connection closed"])%list.
Proof.
  intros Hfail. cbn zeta. rewrite (broadcast_run' net m s).
  unfold result, final. cbn [snd].
  assert (Hout : ~ In ws (survivors net m (connected_clients s))).
  { unfold survivors. intros H. apply filter_In in H. destruct H as [_ H].
    congruence. }
  rewrite cleanup_absent_run.
  2:{ cbn [after with_clients connected_clients].
      destruct (mem ws (survivors net m (connected_clients s))) eqn:E;
        [|reflexivity].
      apply mem_in in E. contradiction. }
  cbn [fst snd after with_clients connected_clients tasks trace].
  repeat split. exact Hout.
Qed.

Lemma evicted_session_is_cleaned_up_later_witness :
  send_ok (net_without 2) heartbeat 2 = false /\
  let s := {| connected_clients := [1; 2];
              tasks := [(Heartbeat, 1); (Metrics, 1); (Heartbeat, 2); (Metrics, 2)];
              trace := [] |} in
  let r1 := RealBackendFixed.broadcast_to_clients (net_without 2) heartbeat s in
  let r2 := RealBackendFixed.cleanup 2 (final r1) in
  ~ In 2 (connected_clients (final r1)) /\
  tasks (final r1) = tasks s /\
  result r2 = Return tt /\
  connected_clients (final r2) = connected_clients (final r1) /\
  tasks (final r2) = cleanup_tasks 2 (tasks s) /\
  trace (final r2)
  = (trace (final r1)
     ++ [TaskCancelled (Heartbeat, 2); TaskCancelled (Metrics, 2);
         Logged INFO "WebSocket connection closed"])%list.
Proof.
  split; [reflexivity|].
  exact (evicted_session_is_cleaned_up_later (net_without 2) heartbeat 2
           {| connected_clients := [1; 2];
              tasks := [(Heartbeat, 1); (Metrics, 1); (Heartbeat, 2); (Metrics, 2)];
              trace := [] |} eq_refl).
Defined.


(** ** Broadcast loops written with [send_text] ([main.py],
    [real_backend_v2.py]) *)

Lemma send_text_run (net : transport) (ws : WebSocket) (m : event) (s : state) :
  send_text net ws m s
  = match net ws m with
    | None => (Return tt, after s [Sent ws m])
    | Some e => (Throw e, after s [SendFailed ws m e])
    end.
Proof.
  unfold send_text. destruct (net ws m) as [e|]; [|apply emit_run].
  erewrite bind_return by apply emit_run. reflexivity.
Qed.

Lemma guarded_send_loop (net : transport) (m : event) (text : string)
      (clients : list WebSocket) :
  forall (disconnected : list WebSocket) (s : state),
    for_each clients
      (fun client disconnected =>
         try_except
           (send_text net client m ;; ret disconnected)
           (fun e => log ERROR text ;; ret (disconnected ++ [client])%list))
      disconnected s
    = (Return (disconnected ++ failed net m clients)%list,
       after s (flat_map
                  (fun ws => match net ws m with
                             | None => [Sent ws m]
                             | Some e => [SendFailed ws m e; Logged ERROR text]
                             end) clients)).
Proof.
  induction clients as [|c clients IH]; intros disconnected s.
  - cbn. unfold ret. now rewrite app_nil_r, after_nil.
  - cbn [for_each flat_map]. unfold failed in *. cbn [filter].
    unfold send_ok at 1.
    destruct (net c m) as [e|] eqn:E; cbn [negb].
    + erewrite bind_return.
      2:{ unfold try_except.
          erewrite bind_throw by (rewrite send_text_run, E; reflexivity).
          erewrite bind_return by apply log_run. reflexivity. }
      rewrite IH, !after_after. cbn [app]. now rewrite <- app_assoc.
    + erewrite bind_return.
      2:{ apply try_except_return.
          erewrite bind_return by (rewrite send_text_run, E; reflexivity).
          reflexivity. }
      rewrite IH, !after_after. reflexivity.
Qed.

Lemma guarded_evict_loop (net : transport) (m : event)
      (body : WebSocket -> unit -> M unit) (evs : WebSocket -> list effect) :
  (forall (c : WebSocket) (u : unit) (s : state),
      mem c (connected_clients s) = true ->
      body c u s
      = (Return tt,
         after (with_clients s (remove_first c (connected_clients s))) (evs c))) ->
  forall (l p : list WebSocket) (s : state),
    Forall (fun ws => send_ok net m ws = true) p ->
    connected_clients s = (p ++ l)%list ->
    for_each (failed net m l) body tt s
    = (Return tt,
       after (with_clients s (p ++ survivors net m l))
             (flat_map evs (failed net m l))).
Proof.
  intros Hbody. unfold failed, survivors.
  induction l as [|c l IH]; intros p s Hp Hs.
  - cbn. unfold ret. rewrite after_nil, <- Hs. now rewrite with_clients_same.
  - cbn [filter]. destruct (send_ok net m c) eqn:Hc; cbn [negb].
    + rewrite (IH (p ++ [c])%list s).
      * now rewrite <- app_assoc.
      * apply Forall_app. split; [exact Hp|]. now constructor.
      * now rewrite <- app_assoc.
    + cbn [for_each flat_map].
      assert (Hnotin : ~ In c p).
      { intros Hin. rewrite Forall_forall in Hp.
        specialize (Hp _ Hin). cbn beta in Hp. congruence. }
      assert (Hmem : mem c (connected_clients s) = true).
      { rewrite Hs. apply mem_middle. }
      erewrite bind_return by (apply Hbody; exact Hmem).
      rewrite Hs, (remove_first_middle c p l Hnotin).
      rewrite (IH p (after (with_clients s (p ++ l)) (evs c)) Hp eq_refl).
      unfold after, with_clients. cbn [connected_clients tasks trace].
      now rewrite <- app_assoc.
Qed.

(** ** [main.py]: the connection manager *)

Lemma connect_run (ws : WebSocket) (s : state) :
  Main.connect ws s
  = (Return tt,
     after (with_clients s (connected_clients s ++ [ws]))
           [Accepted ws; Appended ws; Logged INFO "WebSocket connected"]).
Proof.
  unfold Main.connect, accept, append_client.
  erewrite bind_return by apply emit_run.
  erewrite bind_return.
  2:{ erewrite bind_return by reflexivity.
      erewrite bind_return by reflexivity.
      apply emit_run. }
  rewrite log_run.
  unfold after, with_clients. cbn [connected_clients tasks trace].
  now rewrite <- !app_assoc.
Qed.

Lemma manager_broadcast_run (net : transport) (m : event) (s : state) :
  Main.broadcast net m s
  = (Return tt,
     after (with_clients s (survivors net m (connected_clients s)))
           (flat_map (manager_send_events net m) (connected_clients s)
            ++ flat_map manager_eviction_events (failed net m (connected_clients s)))).
Proof.
  unfold Main.broadcast.
  erewrite bind_return by reflexivity.
  erewrite bind_return by apply guarded_send_loop.
  cbn [app].
  rewrite (guarded_evict_loop net m (fun conn _ => Main.disconnect conn)
             manager_eviction_events) with (p := []).
  - unfold after, with_clients. cbn [connected_clients tasks trace app].
    now rewrite <- app_assoc.
  - intros c u s' Hmem. rewrite disconnect_run, Hmem. reflexivity.
  - constructor.
  - reflexivity.
Qed.

(** X17.  [ConnectionManager.connect] followed by [disconnect] of the same
    session, for a session that was not registered before, leaves the
    list of active connections as it was; neither call raises. *)
Theorem connect_then_disconnect (ws : WebSocket) (s : state) :
  ~ In ws (connected_clients s) ->
  let r1 := Main.connect ws s in
  let r2 := Main.disconnect ws (final r1) in
  result r1 = Return tt /\
  connected_clients (final r1) = (connected_clients s ++ [ws])%list /\
  result r2 = Return tt /\
  connected_clients (final r2) = connected_clients s /\
  trace (final r2)
  = (trace s ++ [Accepted ws; Appended ws; Logged INFO "WebSocket connected";
                 Removed ws; Logged INFO "WebSocket disconnected"])%list.
Proof.
  intros Hnew. cbn zeta. rewrite connect_run. unfold result, final. cbn [fst snd].
  rewrite disconnect_run.
  cbn [fst snd after with_clients connected_clients tasks trace].
  replace (connected_clients s ++ [ws])%list
    with (connected_clients s ++ ws :: [])%list by reflexivity.
  rewrite mem_middle, (remove_first_middle ws _ [] Hnew), app_nil_r.
  repeat split. now rewrite <- app_assoc.
Qed.

Lemma connect_then_disconnect_witness :
  ~ In 3 (connected_clients (idle [1; 2])) /\
  let r1 := Main.connect 3 (idle [1; 2]) in
  let r2 := Main.disconnect 3 (final r1) in
  result r1 = Return tt /\
  connected_clients (final r1) = (connected_clients (idle [1; 2]) ++ [3])%list /\
  result r2 = Return tt /\
  connected_clients (final r2) = connected_clients (idle [1; 2]) /\
  trace (final r2)
  = (trace (idle [1; 2])
     ++ [Accepted 3; Appended 3; Logged INFO "WebSocket connected";
         Removed 3; Logged INFO "WebSocket disconnected"])%list.
Proof.
  assert (H : ~ In 3 (connected_clients (idle [1; 2]))).
  { simpl. intros [H|[H|H]]; [discriminate H|discriminate H|exact H]. }
  split; [exact H|].
  exact (connect_then_disconnect 3 (idle [1; 2]) H).
Defined.

(** X18.  [ConnectionManager.broadcast] never raises.  It attempts the
    send to every active connection in list order, logging each failure,
    and only then disconnects the connections whose send failed, in the
    same order; exactly the connections whose send succeeded stay
    registered. *)
Theorem manager_broadcast_evicts_failed (net : transport) (m : event) (s : state) :
  let r := Main.broadcast net m s in
  let live := connected_clients s in
  result r = Return tt /\
  connected_clients (final r) = survivors net m live /\
  tasks (final r) = tasks s /\
  trace (final r)
  = (trace s
     ++ flat_map (manager_send_events net m) live
     ++ flat_map manager_eviction_events (failed net m live))%list.
Proof.
  cbn zeta. rewrite manager_broadcast_run. repeat split.
Qed.


Lemma bind_send {B} (net : transport) (ws : WebSocket) (m : event)
      (k : unit -> M B) (s : state) :
  bind (send_text net ws m) k s
  = match net ws m with
    | None => k tt (after s [Sent ws m])
    | Some e => (Throw e, after s [SendFailed ws m e])
    end.
Proof.
  unfold bind. rewrite send_text_run. now destruct (net ws m).
Qed.

(** ** [main.py]: the session endpoint *)

Lemma main_handler_run (ws : WebSocket) (e : exn) (s : state) :
  match e with
  | WebSocketDisconnect => Main.disconnect ws
  | _ => log ERROR "WebSocket error" ;; Main.disconnect ws
  end s
  = (Return tt,
     after (with_clients s (remove_first ws (connected_clients s)))
           (teardown_events e ws (connected_clients s))).
Proof. exact (@serve_loop_fatal ws e (raise e) s eq_refl). Qed.

Lemma main_loop_run (net : transport) (ws : WebSocket)
      (inbox : list Main.received) :
  forall s : state,
  exists (evs : list effect) (o : outcome unit),
    Main.read_loop net ws inbox s = (o, after s evs) /\
    (forall u, o <> Return u) /\
    (accepts_all net ws ->
     delivered_to ws evs = pongs inbox /\
     if breaks inbox then exists e, o = Throw e else o = Suspended).
Proof.
  induction inbox as [|r inbox IH]; intros s.
  - exists [], Suspended. rewrite after_nil. repeat split. discriminate.
  - assert (Hthrow : forall e, exists (evs : list effect) (o : outcome unit),
               (Throw e, s) = (o, after s evs) /\
               (forall u, o <> Return u) /\
               (accepts_all net ws ->
                delivered_to ws evs = [] /\ exists e', o = Throw e')).
    { intros e. exists [], (Throw e). rewrite after_nil.
      repeat split; [discriminate|eauto]. }
    destruct r as [data [message_data|e]|e];
      cbn [Main.read_loop pongs breaks treatment_of lift];
      [|apply Hthrow|apply Hthrow].
    erewrite bind_return by reflexivity.
    destruct (Main.get_type message_data) as [type|e]; cbn [lift];
      [|apply Hthrow].
    erewrite bind_return by reflexivity.
    unfold main_recognizes.
    destruct (Main.is_ping type).
    + rewrite (bind_send net ws pong). destruct (net ws pong) as [e|] eqn:E.
      * exists [SendFailed ws pong e], (Throw e).
        repeat split; [discriminate|..];
          specialize (H pong); congruence.
      * destruct (IH (after s [Sent ws pong])) as (evs & o & Hrun & Ho & Hacc).
        exists (Sent ws pong :: evs), o.
        rewrite after_after in Hrun. split; [exact Hrun|].
        split; [exact Ho|]. intros Hn. destruct (Hacc Hn) as [Hd Hb].
        split; [|exact Hb]. cbn. now rewrite Nat.eqb_refl, Hd.
    + erewrite bind_return by reflexivity. apply IH.
Qed.


Lemma main_endpoint_run (net : transport) (ws : WebSocket)
      (inbox : list Main.received) (s : state) :
  let s0 := after (with_clients s (connected_clients s ++ [ws]))
                  [Accepted ws; Appended ws; Logged INFO "WebSocket connected"] in
  let gone := remove_first ws (connected_clients s ++ [ws]) in
  Main.websocket_endpoint net ws inbox s
  = match net ws connection_established with
    | Some e =>
        (Return tt,
         after (with_clients (after s0 [SendFailed ws connection_established e]) gone)
               (teardown_events e ws (connected_clients s ++ [ws])))
    | None =>
        let s1 := after s0 [Sent ws connection_established] in
        match Main.read_loop net ws inbox s1 with
        | (Throw e, s2) =>
            (Return tt,
             after (with_clients s2 (remove_first ws (connected_clients s2)))
                   (teardown_events e ws (connected_clients s2)))
        | r => r
        end
    end.
Proof.
  cbn zeta. unfold Main.websocket_endpoint.
  erewrite bind_return by apply connect_run.
  unfold Main.serve, try_except. rewrite bind_send.
  destruct (net ws connection_established) as [e|].
  - now rewrite main_handler_run.
  - destruct (Main.read_loop net ws inbox _) as [[u|e|] s2]; [reflexivity| |reflexivity].
    now rewrite main_handler_run.
Qed.

(** X19.  The session endpoint of [main.py] lets no exception escape,
    whatever the transport and the frames do: it either stays in its read
    loop with the session registered, or returns with the session removed
    from the active connections.  It never touches the background
    tasks. *)
Theorem main_endpoint_never_raises (net : transport) (ws : WebSocket)
        (inbox : list Main.received) (s : state) :
  let r := Main.websocket_endpoint net ws inbox s in
  tasks (final r) = tasks s /\
  match result r with
  | Suspended =>
      connected_clients (final r) = (connected_clients s ++ [ws])%list
  | Return _ =>
      connected_clients (final r)
      = remove_first ws (connected_clients s ++ [ws])
  | Throw _ => False
  end.
Proof.
  cbn zeta. rewrite main_endpoint_run. cbn zeta.
  destruct (net ws connection_established) as [e|]; [split; reflexivity|].
  match goal with
  | |- context [Main.read_loop net ws inbox ?s1] =>
      destruct (main_loop_run net ws inbox s1) as (evs & o & Hrun & Ho & _);
      rewrite Hrun
  end.
  destruct o as [u|e|]; [now destruct (Ho u)|split; reflexivity|split; reflexivity].
Qed.

(** X20.  The ping protocol of [main.py].  A session whose sends are all
    accepted receives [connection_established] and then one pong for
    each ping frame, in order, up to the first receive or frame that
    raises; frames of other types are answered by nothing.  The endpoint
    stays in its read loop, the session registered, when nothing raises,
    and returns with the session removed when something does. *)
Theorem ping_pong_protocol (net : transport) (ws : WebSocket)
        (inbox : list Main.received) (s : state) :
  accepts_all net ws ->
  let r := Main.websocket_endpoint net ws inbox s in
  result r = (if breaks inbox then Return tt else Suspended) /\
  connected_clients (final r)
  = (if breaks inbox then remove_first ws (connected_clients s ++ [ws])
     else connected_clients s ++ [ws])%list /\
  exists new,
    trace (final r) = (trace s ++ new)%list /\
    delivered_to ws new = connection_established :: pongs inbox.
Proof.
  intros Hnet. cbn zeta. rewrite main_endpoint_run. cbn zeta.
  rewrite (Hnet connection_established).
  match goal with
  | |- context [Main.read_loop net ws inbox ?s1] =>
      destruct (main_loop_run net ws inbox s1) as (evs & o & Hrun & _ & Hacc);
      rewrite Hrun
  end.
  destruct (Hacc Hnet) as [Hd Hb].
  destruct (breaks inbox).
  - destruct Hb as (e & ->).
    split; [reflexivity|]. split; [reflexivity|].
    eexists. unfold final.
    cbn [snd after with_clients trace connected_clients].
    rewrite <- !app_assoc. split; [reflexivity|].
    rewrite !delivered_to_app, Hd. cbn [delivered_to app].
    rewrite Nat.eqb_refl. cbn [app]. f_equal.
    assert (Ht : forall live, delivered_to ws (teardown_events e ws live) = []).
    { intros live. unfold teardown_events.
      destruct e; destruct (mem ws live); reflexivity. }
    now rewrite Ht, app_nil_r.
  - subst o. split; [reflexivity|]. split; [reflexivity|].
    eexists. unfold final.
    cbn [snd after with_clients trace connected_clients].
    rewrite <- !app_assoc. split; [reflexivity|].
    rewrite !delivered_to_app, Hd. cbn [delivered_to app].
    now rewrite Nat.eqb_refl.
Qed.

Lemma ping_pong_protocol_witness :
  accepts_all open_net 3 /\
  let inbox := [ping_frame;
                Main.Text "status" (Ok (JObject [("type", JString "status")]));
                ping_frame; garbage_frame; ping_frame] in
  let r := Main.websocket_endpoint open_net 3 inbox (idle [1; 2]) in
  result r = (if breaks inbox then Return tt else Suspended) /\
  connected_clients (final r)
  = (if breaks inbox
     then remove_first 3 (connected_clients (idle [1; 2]) ++ [3])
     else connected_clients (idle [1; 2]) ++ [3])%list /\
  exists new,
    trace (final r) = (trace (idle [1; 2]) ++ new)%list /\
    delivered_to 3 new = connection_established :: pongs inbox.
Proof.
  assert (H : accepts_all open_net 3) by (intros m; reflexivity).
  split; [exact H|].
  exact (ping_pong_protocol open_net 3
           [ping_frame;
            Main.Text "status" (Ok (JObject [("type", JString "status")]));
            ping_frame; garbage_frame; ping_frame] (idle [1; 2]) H).
Defined.


(** ** [simple_backend.py]: the [get_suggestions] frame *)

Lemma bind_assoc {A B C} (c : M A) (k : A -> M B) (k' : B -> M C) (s : state) :
  bind (bind c k) k' s = bind c (fun a => bind (k a) k') s.
Proof.
  unfold bind. destruct (c s) as [[a|e|] s']; reflexivity.
Qed.

Lemma suggestions_step (net : transport) (ws : WebSocket) (data : string)
      (fields : list (string * json)) (task : string)
      (inbox : list Main.received) (s : state) :
  getitem fields "type" = Ok (JString "get_suggestions") ->
  SimpleBackend.get_task (JObject fields) = Ok (JString task) ->
  answers_suggestions net ws (Main.Text data (Ok (JObject fields))) task inbox s.
Proof.
  intros Htype Htask.
  destruct (RouterExtra.suggestions_ok AgentSelector.init task
              AgentSelector.default_top_n (proj1 RouterFacts.init_wf))
    as (suggestions & Hs & _).
  exists suggestions. split; [exact Hs|]. cbn zeta.
  cbn [SimpleBackend.read_loop lift].
  erewrite bind_return by reflexivity.
  unfold Main.get_type. rewrite Htype. cbn [lift].
  erewrite bind_return by reflexivity.
  change (Main.is_ping (JString "get_suggestions")) with false. cbv iota.
  rewrite bind_assoc.
  erewrite bind_return by reflexivity.
  change (SimpleBackend.is_get_suggestions (JString "get_suggestions")) with true.
  cbv iota. rewrite Htask. cbn [lift].
  rewrite bind_assoc.
  erewrite bind_return by reflexivity.
  unfold SimpleBackend.send_suggestions.
  unfold SimpleBackend.agent_selector in Hs. unfold SimpleBackend.agent_selector.
  rewrite Hs. cbn [lift].
  rewrite bind_assoc.
  erewrite bind_return by reflexivity.
  apply bind_send.
Qed.

(** X21.  A [get_suggestions] frame in the read loop of
    [simple_backend.py].  When its task is a string the router's
    suggestions for it are computed without error and sent to the
    requesting session alone, and the loop reads on; a frame without a
    task is answered as for the empty task.  A task that is not a string
    (a number, null, a list, an object) is not answered: the read loop
    raises [AttributeError] and the session is torn down. *)
Theorem suggestions_request (net : transport) (ws : WebSocket) (data : string)
        (fields : list (string * json)) (inbox : list Main.received) (s : state) :
  getitem fields "type" = Ok (JString "get_suggestions") ->
  let frame := Main.Text data (Ok (JObject fields)) in
  match getitem fields "task" with
  | Ok (JString task) => answers_suggestions net ws frame task inbox s
  | Ok _ =>
      let r := SimpleBackend.serve_loop net ws (frame :: inbox) s in
      result r = Return tt /\
      connected_clients (final r) = remove_first ws (connected_clients s) /\
      trace (final r)
      = (trace s ++ teardown_events AttributeError ws (connected_clients s))%list
  | Raise _ => answers_suggestions net ws frame "" inbox s
  end.
Proof.
  intros Htype. cbn zeta.
  assert (Hfatal : forall task,
             getitem fields "task" = Ok task ->
             match task with JString _ => False | _ => True end ->
             SimpleBackend.read_loop net ws
               (Main.Text data (Ok (JObject fields)) :: inbox) s
             = (Throw AttributeError, s)).
  { intros task Htask Hns.
    cbn [SimpleBackend.read_loop lift].
    erewrite bind_return by reflexivity.
    unfold Main.get_type. rewrite Htype. cbn [lift].
    erewrite bind_return by reflexivity.
    change (Main.is_ping (JString "get_suggestions")) with false. cbv iota.
    erewrite bind_throw; [reflexivity|].
    erewrite bind_return by reflexivity.
    change (SimpleBackend.is_get_suggestions (JString "get_suggestions")) with true.
    cbv iota. unfold SimpleBackend.get_task. rewrite Htask. cbn [lift].
    erewrite bind_return by reflexivity.
    destruct task; [reflexivity..|contradiction|reflexivity|reflexivity]. }
  assert (Hdown : forall task,
             getitem fields "task" = Ok task ->
             match task with JString _ => False | _ => True end ->
             let r := SimpleBackend.serve_loop net ws
                        (Main.Text data (Ok (JObject fields)) :: inbox) s in
             result r = Return tt /\
             connected_clients (final r) = remove_first ws (connected_clients s) /\
             trace (final r)
             = (trace s ++ teardown_events AttributeError ws (connected_clients s))%list).
  { intros task Htask Hns. cbn zeta.
    assert (Hrun : SimpleBackend.serve_loop net ws
                     (Main.Text data (Ok (JObject fields)) :: inbox) s
                   = (Return tt,
                      after (with_clients s (remove_first ws (connected_clients s)))
                            (teardown_events AttributeError ws (connected_clients s))))
      by exact (@serve_loop_fatal ws AttributeError _ s (Hfatal task Htask Hns)).
    rewrite Hrun. repeat split. }
  destruct (getitem fields "task") as [task|e] eqn:Htask.
  - destruct task;
      try (apply (Hdown _ eq_refl I)).
    apply suggestions_step; [exact Htype|].
    unfold SimpleBackend.get_task. now rewrite Htask.
  - apply suggestions_step; [exact Htype|].
    unfold SimpleBackend.get_task. now rewrite Htask.
Qed.

Lemma suggestions_request_witness :
  getitem [("type", JString "get_suggestions"); ("task", JNumber 5)] "type"
  = Ok (JString "get_suggestions") /\
  let fields := [("type", JString "get_suggestions"); ("task", JNumber 5)] in
  let frame := Main.Text "get_suggestions" (Ok (JObject fields)) in
  match getitem fields "task" with
  | Ok (JString task) => answers_suggestions open_net 1 frame task [ping_frame] (idle [1])
  | Ok _ =>
      let r := SimpleBackend.serve_loop open_net 1 (frame :: [ping_frame]) (idle [1]) in
      result r = Return tt /\
      connected_clients (final r) = remove_first 1 (connected_clients (idle [1])) /\
      trace (final r)
      = (trace (idle [1])
         ++ teardown_events AttributeError 1 (connected_clients (idle [1])))%list
  | Raise _ => answers_suggestions open_net 1 frame "" [ping_frame] (idle [1])
  end.
Proof.
  split; [reflexivity|].
  exact (suggestions_request open_net 1 "get_suggestions"
           [("type", JString "get_suggestions"); ("task", JNumber 5)]
           [ping_frame] (idle [1]) eq_refl).
Defined.


(** ** [real_backend_v2.py] *)

Lemma flat_map_removed (l : list WebSocket) :
  flat_map (fun c => [Removed c]) l = map Removed l.
Proof. induction l as [|c l IH]; cbn; [reflexivity|now rewrite IH]. Qed.

Lemma v2_broadcast_run (net : transport) (m : event) (s : state) :
  RealBackendV2.broadcast_to_clients net m s
  = (Return tt,
     after (with_clients s (survivors net m (connected_clients s)))
           (v2_broadcast_events net m (connected_clients s))).
Proof.
  unfold RealBackendV2.broadcast_to_clients, v2_broadcast_events.
  erewrite bind_return by reflexivity.
  destruct (connected_clients s) as [|c l] eqn:Hl.
  - cbn. unfold ret. rewrite after_nil, <- Hl. now rewrite with_clients_same.
  - erewrite bind_return by apply guarded_send_loop.
    cbn [app].
    rewrite (guarded_evict_loop net m
               (fun client _ =>
                  live <- get_clients ;;
                  if mem client live then remove_client client else ret tt)
               (fun c => [Removed c])) with (p := []).
    + rewrite flat_map_removed.
      unfold after, with_clients. cbn [connected_clients tasks trace app].
      now rewrite <- app_assoc.
    + intros c' u s' Hmem. erewrite bind_return by reflexivity.
      rewrite Hmem. now apply remove_client_run.
    + constructor.
    + cbn [after connected_clients app]. exact Hl.
Qed.

Lemma delivered_to_v2_sends (net : transport) (m : event) (ws : WebSocket)
      (live : list WebSocket) :
  delivered_to ws (flat_map (v2_send_events net m) live)
  = delivered_to ws (flat_map (send_events net m) live).
Proof.
  induction live as [|c live IH]; [reflexivity|].
  cbn [flat_map]. rewrite !delivered_to_app, IH. f_equal.
  unfold v2_send_events, send_events.
  destruct (net c m) as [e|]; [destruct e|]; reflexivity.
Qed.

Lemma delivered_to_removals (ws : WebSocket) (l : list WebSocket) :
  delivered_to ws (map Removed l) = [].
Proof. induction l as [|c l IH]; [reflexivity|exact IH]. Qed.

(** X22.  The broadcast of [real_backend_v2.py] and the one of
    [real_backend_fixed.py] cannot be told apart by the clients: from the
    same state both return normally, leave the same live list (the
    sessions whose send succeeded) and deliver the same events to every
    session.  They differ in what they log only: the one of
    [real_backend_v2.py] logs each failed send as an error and does not
    log the removals. *)
Theorem v2_broadcast_agrees_with_fixed (net : transport) (m : event) (s : state) :
  let r2 := RealBackendV2.broadcast_to_clients net m s in
  let r1 := RealBackendFixed.broadcast_to_clients net m s in
  result r2 = Return tt /\
  result r1 = Return tt /\
  connected_clients (final r2) = connected_clients (final r1) /\
  tasks (final r2) = tasks (final r1) /\
  trace (final r2)
  = (trace s
     ++ flat_map (v2_send_events net m) (connected_clients s)
     ++ map Removed (failed net m (connected_clients s)))%list /\
  forall ws,
    delivered_to ws (trace (final r2)) = delivered_to ws (trace (final r1)).
Proof.
  cbn zeta. rewrite v2_broadcast_run, broadcast_run'.
  unfold result, final.
  cbn [fst snd after with_clients connected_clients tasks trace].
  repeat split. intros ws.
  unfold v2_broadcast_events, broadcast_events.
  rewrite !delivered_to_app, delivered_to_v2_sends.
  now rewrite delivered_to_removals, delivered_to_evictions.
Qed.

Lemma v2_chat_auto_run (net : transport) (llm : RealBackendFixed.collaborator)
      (msg : string) (s : state) :
  let m := agent_error "auto" (str TypeError) in
  RealBackendV2.chat_endpoint net llm
    {| RealBackendFixed.message := msg;
       RealBackendFixed.agent_type := "auto";
       RealBackendFixed.auto_select := true |} s
  = (Throw (HTTPException 500 (str TypeError)),
     after (with_clients s (survivors net m (connected_clients s)))
           ([Logged ERROR "Error in chat endpoint"]
            ++ v2_broadcast_events net m (connected_clients s))).
Proof.
  cbn zeta. unfold RealBackendV2.chat_endpoint.
  cbn [RealBackendFixed.message RealBackendFixed.agent_type
       RealBackendFixed.auto_select].
  change (true && ("auto" =? "auto")%string) with true. cbv iota.
  destruct (Router.select_best_agent_total msg AgentSelector.default_threshold)
    as (selected & confidence & Hsel).
  unfold try_except.
  erewrite bind_throw.
  2:{ erewrite bind_return
        by (unfold RealBackendV2.agent_selector; rewrite Hsel; reflexivity).
      reflexivity. }
  unfold RealBackendV2.chat_failed.
  erewrite bind_return by apply log_run.
  erewrite bind_return by apply v2_broadcast_run.
  unfold raise, after, with_clients. cbn [connected_clients tasks trace].
  now rewrite <- app_assoc.
Qed.

(** X23.  In [real_backend_v2.py] an auto-routed chat request always
    fails.  Building the selection event indexes the tuple returned by
    [select_best_agent] with a string, which raises before anything is
    broadcast; the endpoint logs the error, broadcasts one [agent_error]
    that names the handler ["auto"] (the selected one is never assigned)
    and raises HTTP 500.  No selection, status or response event is sent
    and the collaborator is not called. *)
Theorem v2_auto_routed_chat_fails (net : transport)
        (llm : RealBackendFixed.collaborator) (msg : string) (s : state) :
  let r := RealBackendV2.chat_endpoint net llm
             {| RealBackendFixed.message := msg;
                RealBackendFixed.agent_type := "auto";
                RealBackendFixed.auto_select := true |} s in
  let m := agent_error "auto" (str TypeError) in
  result r = Throw (HTTPException 500 (str TypeError)) /\
  trace (final r)
  = (trace s ++ [Logged ERROR "Error in chat endpoint"]
     ++ v2_broadcast_events net m (connected_clients s))%list /\
  forall ws, NoDup (connected_clients s) -> In ws (connected_clients s) ->
             send_ok net m ws = true ->
             delivered_to ws (trace (final r))
             = (delivered_to ws (trace s) ++ [m])%list.
Proof.
  cbn zeta. rewrite v2_chat_auto_run. cbn zeta.
  unfold result, final. cbn [fst snd after with_clients trace].
  split; [reflexivity|]. split; [reflexivity|].
  intros ws Hnd Hin Hok.
  rewrite !delivered_to_app. cbn [delivered_to app]. f_equal.
  unfold v2_broadcast_events.
  rewrite delivered_to_app, delivered_to_v2_sends, delivered_to_removals, app_nil_r.
  now apply delivered_to_present.
Qed.

Lemma first_error_cons (net : transport) (later : timeline) (ws : WebSocket)
      (m : event) :
  first_error (net :: later) ws m
  = match net ws m with
    | None => first_error later ws m
    | Some e => Some e
    end.
Proof. reflexivity. Qed.

Lemma sends_before_failure_cons (net : transport) (later : timeline)
      (ws : WebSocket) (m : event) :
  sends_before_failure (net :: later) ws m
  = match net ws m with
    | None => S (sends_before_failure later ws m)
    | Some _ => O
    end.
Proof.
  cbn [sends_before_failure]. unfold send_ok. now destruct (net ws m).
Qed.

Lemma v2_metrics_loop_run (later : timeline) :
  forall (net : transport) (ws : WebSocket) (s : state),
  let sent := repeat (Sent ws system_metrics)
                     (sends_before_failure (net :: later) ws system_metrics) in
  RealBackendV2.metrics_loop later net ws s
  = match first_error (net :: later) ws system_metrics with
    | None => (Suspended, after s sent)
    | Some e => (Throw e, after s (sent ++ [SendFailed ws system_metrics e]))
    end.
Proof.
  induction later as [|net' later IH]; intros net ws s; cbn zeta;
    rewrite first_error_cons, sends_before_failure_cons;
    cbn [RealBackendV2.metrics_loop]; rewrite bind_send;
    destruct (net ws system_metrics) as [e|] eqn:E.
  - reflexivity.
  - reflexivity.
  - reflexivity.
  - rewrite IH. cbn zeta.
    destruct (first_error (net' :: later) ws system_metrics);
      now rewrite after_after.
Qed.

Lemma no_error_all_sent (nets : timeline) (ws : WebSocket) (m : event) :
  first_error nets ws m = None ->
  sends_before_failure nets ws m = length nets.
Proof.
  induction nets as [|net later IH]; [reflexivity|].
  cbn [first_error sends_before_failure length]. unfold send_ok.
  destruct (net ws m); [discriminate|].
  intros H. now rewrite IH.
Qed.

Lemma delivered_to_repeat (ws : WebSocket) (m : event) (n : nat) :
  delivered_to ws (repeat (Sent ws m) n) = repeat m n.
Proof.
  induction n as [|n IH]; [reflexivity|].
  cbn. now rewrite Nat.eqb_refl, IH.
Qed.

Lemma v2_handler_run (ws : WebSocket) (e : exn) (s : state) :
  mem ws (connected_clients s) = true ->
  exists evs,
    match e with
    | WebSocketDisconnect =>
        live <- get_clients ;;
        (if mem ws live then remove_client ws else ret tt) ;;
        log INFO "WebSocket client disconnected"
    | _ =>
        log ERROR "WebSocket error" ;;
        live <- get_clients ;;
        if mem ws live then remove_client ws else ret tt
    end s
    = (Return tt,
       after (with_clients s (remove_first ws (connected_clients s))) evs) /\
    forall w, delivered_to w evs = [].
Proof.
  intros Hmem.
  assert (Herr : exists evs,
             (log ERROR "WebSocket error" ;;
              live <- get_clients ;;
              if mem ws live then remove_client ws else ret tt) s
             = (Return tt,
                after (with_clients s (remove_first ws (connected_clients s))) evs) /\
             forall w, delivered_to w evs = []).
  { exists [Logged ERROR "WebSocket error"; Removed ws]. split; [|reflexivity].
    erewrite bind_return by apply log_run.
    erewrite bind_return by reflexivity.
    cbn [after connected_clients]. rewrite Hmem.
    rewrite remove_client_run by exact Hmem.
    unfold after, with_clients. cbn [connected_clients tasks trace].
    now rewrite <- app_assoc. }
  destruct e; try exact Herr.
  exists [Removed ws; Logged INFO "WebSocket client disconnected"].
  split; [|reflexivity].
  erewrite bind_return by reflexivity.
  rewrite Hmem.
  erewrite bind_return by (apply remove_client_run; exact Hmem).
  rewrite log_run, after_after. reflexivity.
Qed.

Lemma v2_endpoint_run (net first : transport) (later : timeline)
      (ws : WebSocket) (s : state) :
  let s0 := after (with_clients s (connected_clients s ++ [ws]))
                  [Accepted ws; Appended ws] in
  RealBackendV2.websocket_endpoint net first later ws s
  = match net ws connection_established with
    | Some e => (Throw e, after s0 [SendFailed ws connection_established e])
    | None =>
        try_except
          (RealBackendV2.metrics_loop later first ws)
          (fun e =>
             match e with
             | WebSocketDisconnect =>
                 live <- get_clients ;;
                 (if mem ws live then remove_client ws else ret tt) ;;
                 log INFO "WebSocket client disconnected"
             | _ =>
                 log ERROR "WebSocket error" ;;
                 live <- get_clients ;;
                 if mem ws live then remove_client ws else ret tt
             end)
          (after s0 [Sent ws connection_established])
    end.
Proof.
  cbn zeta. unfold RealBackendV2.websocket_endpoint.
  erewrite bind_return by apply emit_run.
  erewrite bind_return.
  2:{ unfold append_client.
      erewrite bind_return by reflexivity.
      erewrite bind_return by reflexivity.
      apply emit_run. }
  rewrite bind_send.
  assert (Hs0 : after
                  {| connected_clients := connected_clients (after s [Accepted ws]) ++ [ws];
                     tasks := tasks (after s [Accepted ws]);
                     trace := trace (after s [Accepted ws]) |} [Appended ws]
                = after (with_clients s (connected_clients s ++ [ws]))
                        [Accepted ws; Appended ws]).
  { unfold after, with_clients. cbn [connected_clients tasks trace].
    now rewrite <- app_assoc. }
  unfold set_clients. cbn beta. rewrite Hs0. reflexivity.
Qed.

(** X24.  The life of a session of [real_backend_v2.py], along any
    timeline.  When the initial [connection_established] cannot be sent,
    the exception escapes the endpoint, which has no handler around that
    send, and the session stays in the live list.  Otherwise the session
    receives [connection_established] and then the metrics, one at the
    start and one after each return of the sleep, as long as the sends
    succeed.  At the first send of the metrics that fails, after however
    many deliveries, the endpoint returns and the session is removed;
    when none fails the session stays registered and the endpoint stays
    in its loop.  The endpoint reads nothing from the client and touches
    no task. *)
Theorem v2_session_lifecycle (net first : transport) (later : timeline)
        (ws : WebSocket) (s : state) :
  let r := RealBackendV2.websocket_endpoint net first later ws s in
  let nets := first :: later in
  let sent := sends_before_failure nets ws system_metrics in
  tasks (final r) = tasks s /\
  match net ws connection_established with
  | Some e =>
      result r = Throw e /\
      connected_clients (final r) = (connected_clients s ++ [ws])%list /\
      delivered_to ws (trace (final r)) = delivered_to ws (trace s)
  | None =>
      delivered_to ws (trace (final r))
      = (delivered_to ws (trace s)
         ++ connection_established :: repeat system_metrics sent)%list /\
      match first_error nets ws system_metrics with
      | Some _ =>
          result r = Return tt /\
          connected_clients (final r)
          = remove_first ws (connected_clients s ++ [ws])
      | None =>
          result r = Suspended /\
          connected_clients (final r) = (connected_clients s ++ [ws])%list /\
          sent = length nets
      end
  end.
Proof.
  cbn zeta. rewrite v2_endpoint_run. cbn zeta.
  destruct (net ws connection_established) as [e|].
  - unfold result, final. cbn [fst snd after with_clients trace connected_clients tasks].
    repeat split. rewrite !delivered_to_app. cbn. now rewrite !app_nil_r.
  - unfold try_except. rewrite v2_metrics_loop_run. cbn zeta.
    destruct (first_error (first :: later) ws system_metrics) as [e|] eqn:Herr.
    + destruct (v2_handler_run ws e
                  (after (after (after (with_clients s (connected_clients s ++ [ws]))
                                       [Accepted ws; Appended ws])
                                [Sent ws connection_established])
                         (repeat (Sent ws system_metrics)
                                 (sends_before_failure (first :: later) ws
                                    system_metrics)
                          ++ [SendFailed ws system_metrics e])))
        as (evs & Hrun & Hquiet).
      { cbn [after with_clients connected_clients].
        apply mem_in, in_or_app. right. now left. }
      cbv iota beta. rewrite Hrun.
      unfold result, final.
      cbn [fst snd after with_clients trace connected_clients tasks].
      repeat split.
      rewrite !delivered_to_app, Hquiet, delivered_to_repeat. cbn.
      now rewrite Nat.eqb_refl, !app_nil_r, <- app_assoc.
    + unfold result, final.
      cbn [fst snd after with_clients trace connected_clients tasks].
      split; [reflexivity|]. split.
      * rewrite !delivered_to_app, delivered_to_repeat. cbn [delivered_to app].
        now rewrite Nat.eqb_refl, app_nil_r, <- app_assoc.
      * split; [reflexivity|]. split; [reflexivity|].
        now apply no_error_all_sent.
Qed.

(** A client that receives the metrics twice and is then gone: the
    endpoint returns and the session is removed. *)
Example v2_session_that_closes :
  let r := RealBackendV2.websocket_endpoint open_net open_net
             [open_net; net_without 2; open_net] 2 (idle [1]) in
  result r = Return tt /\
  connected_clients (final r) = [1] /\
  delivered_to 2 (trace (final r))
  = [connection_established; system_metrics; system_metrics].
Proof. vm_compute. repeat split. Qed.

End HubExtra.
